(** * Upstream monitoring dashboard: a shallow embedding

    The script [.github/scripts/monitoring-dashboard.py] polls two
    repositories through the hosting API, buckets their activity by
    calendar day, derives a few trend figures and writes a report.

    This development embeds the computational part of the script
    (the daily aggregator, the trend analyzer, the dashboard assembly,
    the last-sync lookup and the entry point) and proves the properties
    its specification lists.

    Conventions of the embedding:
    - a Python [str] is a [string]; [str.lower] is modelled on the ASCII
      range (bytes outside [A-Z] are left as they are);
    - a [datetime] is a number of seconds since the Unix epoch, a [date]
      ([caldate]) a number of days since the epoch, a [timedelta] a
      number of seconds;
    - a Python [float] is a binary64 number, held as the rational it
      denotes; every float operation is the exact operation followed by
      rounding to the nearest binary64 number, ties to even (overflow to
      infinity is left out: the numbers of the script are list lengths
      and day counts);
    - a Python [dict] is an association list in insertion order;
    - a call that may raise returns a [result]; the errors are the
      instances of Python's [Exception] class, which is what the script's
      [except Exception] clauses catch (an interrupt delivered from
      outside the program is not an input of the model);
    - the entry point is a function from the environment of the run to a
      trace of events and an exit status; the trace records the lines
      [main] prints, the places where the API is used and the files
      written. *)

From Stdlib Require Import ZArith QArith Qround Qminmax Qabs Qpower Lqa.
From Stdlib Require Qcanon.
From Stdlib Require Import List String Ascii Bool Arith Lia.
From Stdlib Require Import Sorted Permutation.
Import ListNotations.

Local Close Scope Q_scope.
Local Open Scope string_scope.

(* ------------------------------------------------------------------ *)
(** ** Python strings *)

Module PyStr.

(** [c.lower()] for one byte. *)
Definition lower_ascii (c : ascii) : ascii :=
  let n := nat_of_ascii c in
  if ((65 <=? n) && (n <=? 90))%nat then ascii_of_nat (n + 32) else c.

(** [s.lower()]. *)
Fixpoint lower (s : string) : string :=
  match s with
  | EmptyString => EmptyString
  | String c s' => String (lower_ascii c) (lower s')
  end.

(** [text.startswith(kw)]. *)
Fixpoint startswith (kw text : string) : bool :=
  match kw, text with
  | EmptyString, _ => true
  | String _ _, EmptyString => false
  | String a kw', String b text' => Ascii.eqb a b && startswith kw' text'
  end.

(** [kw in text]: [kw] occurs as a contiguous substring of [text]. *)
Fixpoint contains (kw text : string) : bool :=
  startswith kw text ||
  match text with
  | EmptyString => false
  | String _ text' => contains kw text'
  end.

(** [any(keyword in text for keyword in kws)]. *)
Definition any_in (kws : list string) (text : string) : bool :=
  existsb (fun keyword => contains keyword text) kws.

(** The relational reading of [kw in text]. *)
Definition Substring (kw text : string) : Prop :=
  exists pre post, text = pre ++ kw ++ post.

End PyStr.

(* ------------------------------------------------------------------ *)
(** ** Errors *)

(** Instances of Python's [Exception] that the modelled code can meet. *)
Inductive exn : Type :=
| GithubException (msg : string)   (* a failed API request *)
| AttributeError (msg : string)    (* attribute access on [None] *)
| TypeError (msg : string)         (* e.g. [None - datetime] *)
| ZeroDivisionError (msg : string)
| OSError (msg : string).

Inductive result (A : Type) : Type :=
| Ok (a : A)
| Raise (e : exn).
Arguments Ok {A} a.
Arguments Raise {A} e.

Definition bind {A B : Type} (m : result A) (k : A -> result B) : result B :=
  match m with
  | Ok a => k a
  | Raise e => Raise e
  end.

Declare Scope py_scope.
Delimit Scope py_scope with py.
Notation "x <- m ;; k" := (bind m (fun x => k))
  (at level 61, m at next level, right associativity) : py_scope.

(** A list comprehension [[x for x in l if cond(x)]] whose condition may
    raise: the first raising element aborts the comprehension. *)
Fixpoint filterM {A : Type} (cond : A -> result bool) (l : list A)
  : result (list A) :=
  match l with
  | [] => Ok []
  | x :: l' =>
      match cond x with
      | Raise e => Raise e
      | Ok b =>
          match filterM cond l' with
          | Raise e => Raise e
          | Ok r => Ok (if b then x :: r else r)
          end
      end
  end.

(* ------------------------------------------------------------------ *)
(** ** Binary64 arithmetic *)

(** The nearest integer, ties to even. *)
Definition round_half_even (x : Q) : Z :=
  let f := Qfloor x in
  let r := (x - inject_Z f)%Q in
  match (r ?= 1 # 2)%Q with
  | Lt => f
  | Gt => (f + 1)%Z
  | Eq => if Z.even f then f else (f + 1)%Z
  end.

Module Binary64.

(** [2 ** z] *)
Definition pow2 (z : Z) : Q := (2 ^ z)%Q.

(** The integer part of the base-2 logarithm of a positive rational: the
    logarithms of numerator and denominator give it within one. *)
Definition floor_log2 (q : Q) : Z :=
  let e0 := (Z.log2 (Qnum q) - Z.log2 (Zpos (Qden q)))%Z in
  if Qle_bool (pow2 e0) q then e0 else (e0 - 1)%Z.

(** The exponent of the unit in the last place of the binary64 numbers
    around [q]: 53 significant bits, and [2 ** -1074] for the subnormal
    numbers. *)
Definition ulp_exp (q : Q) : Z :=
  Z.max (floor_log2 (Qabs q) - 52) (-1074).

(** The binary64 number nearest to [q], ties to even. *)
Definition round64 (q : Q) : Q :=
  let q := Qred q in
  if Qeq_bool q 0 then 0%Q
  else let u := pow2 (ulp_exp q) in
       Qred (inject_Z (round_half_even (q / u)) * u).

End Binary64.
Import Binary64.

(** [float(n)] *)
Definition float_of_int (n : Z) : Q := round64 (inject_Z n).

(** [a / b] on two integers: the quotient, correctly rounded; raises on a
    zero divisor. *)
Definition int_truediv (a b : Z) : result Q :=
  if (b =? 0)%Z then Raise (ZeroDivisionError "division by zero")
  else Ok (round64 (inject_Z a / inject_Z b)).

(** [x / y] on two floats; raises on a zero divisor. *)
Definition float_truediv (x y : Q) : result Q :=
  if Qeq_bool y 0 then Raise (ZeroDivisionError "float division by zero")
  else Ok (round64 (x / y)).

(** [x * y] on two floats. *)
Definition float_mul (x y : Q) : Q := round64 (x * y).

(* ------------------------------------------------------------------ *)
(** ** Dates and times *)

Module PyTime.

(** [datetime]: seconds since 1970-01-01T00:00:00 UTC (the client
    library hands out datetimes aware of their zone, UTC); [caldate], a
    Python [date]: days since 1970-01-01. *)
Definition datetime := Z.
Definition caldate := Z.

(** [t.date()]. *)
Definition date_of (t : datetime) : caldate := (t / 86400)%Z.

(** [(a - b).days]: a [timedelta] is normalised with
    [0 <= seconds < 86400], so [days] is the floor. *)
Definition timedelta_days (a b : datetime) : Z := ((a - b) / 86400)%Z.

(** [d - datetime.timedelta(days=i)]. *)
Definition minus_days (d : caldate) (i : nat) : caldate := (d - Z.of_nat i)%Z.

(** Proleptic Gregorian (year, month, day) of a day number. *)
Definition civil (d : caldate) : Z * Z * Z :=
  let z := (d + 719468)%Z in
  let era := (z / 146097)%Z in
  let doe := (z - era * 146097)%Z in
  let yoe := ((doe - doe / 1460 + doe / 36524 - doe / 146096) / 365)%Z in
  let doy := (doe - (365 * yoe + yoe / 4 - yoe / 100))%Z in
  let mp := ((5 * doy + 2) / 153)%Z in
  let day := (doy - (153 * mp + 2) / 5 + 1)%Z in
  let m := (if mp <? 10 then mp + 3 else mp - 9)%Z in
  let y := (yoe + era * 400 + (if m <=? 2 then 1 else 0))%Z in
  (y, m, day).

Definition digit (n : Z) : ascii :=
  ascii_of_nat (48 + Z.to_nat (n mod 10)).

(** [n] written with [width] digits, zero padded. *)
Fixpoint zfill (width : nat) (n : Z) : string :=
  match width with
  | O => EmptyString
  | S w => zfill w (n / 10) ++ String (digit n) EmptyString
  end.

(** [d.isoformat()]: [YYYY-MM-DD]. *)
Definition date_isoformat (d : caldate) : string :=
  let '(y, m, day) := civil d in
  zfill 4 y ++ "-" ++ zfill 2 m ++ "-" ++ zfill 2 day.

(** [t.isoformat()] of a datetime in UTC: [YYYY-MM-DDTHH:MM:SS+00:00]. *)
Definition isoformat (t : datetime) : string :=
  let s := (t mod 86400)%Z in
  date_isoformat (date_of t) ++ "T" ++ zfill 2 (s / 3600) ++ ":"
    ++ zfill 2 ((s / 60) mod 60) ++ ":" ++ zfill 2 (s mod 60) ++ "+00:00".

End PyTime.
Import PyTime.

(* ------------------------------------------------------------------ *)
(** ** A stable descending sort

    [sorted(l, key=key, reverse=True)]: Python's sort is stable, and with
    [reverse=True] elements with equal keys still keep their original
    order.  The result of a stable sort is determined by its input (see
    [sorted_desc_is_the_stable_sort] below), so the insertion sort here
    computes what Python's sort computes. *)

Section StableSort.
Context {A : Type} (key : A -> Z).

Fixpoint insert_desc (x : A) (l : list A) : list A :=
  match l with
  | [] => [x]
  | y :: l' =>
      if (key y <=? key x)%Z then x :: y :: l' else y :: insert_desc x l'
  end.

Fixpoint sorted_desc (l : list A) : list A :=
  match l with
  | [] => []
  | x :: l' => insert_desc x (sorted_desc l')
  end.

(** What [sorted(..., reverse=True)] promises. *)
Definition Descending (l : list A) : Prop :=
  StronglySorted (fun a b => (key b <= key a)%Z) l.

(** Stability: elements with one key appear in the order of [l0]. *)
Definition StableWrt (l0 l : list A) : Prop :=
  forall k, filter (fun a => (key a =? k)%Z) l
            = filter (fun a => (key a =? k)%Z) l0.

End StableSort.

(* ------------------------------------------------------------------ *)
(** ** What the API returns *)

Record Issue : Type := {
  issue_title : string;
  issue_body : option string;
  issue_user_login : string;
  issue_created_at : datetime;
  issue_closed_at : option datetime;
  issue_updated_at : datetime;
  issue_labels : list string
}.

Record PullRequest : Type := {
  pr_title : string;
  pr_body : option string;
  pr_user_login : string;
  pr_created_at : datetime;
  pr_merged : bool;
  pr_merged_at : option datetime
}.

Record Release : Type := {
  rel_published_at : option datetime
}.

Inductive SortKey : Type := Created | Updated.

(** The answers of the API to the calls the script makes.  Each call may
    fail with an exception instead of returning its list. *)
Record Remote : Type := {
  (** [upstream_repo.get_issues(state="all", sort=..., direction="desc")] *)
  upstream_get_issues : SortKey -> result (list Issue);
  (** [upstream_repo.get_pulls(state="all", sort="created", direction="desc")] *)
  upstream_get_pulls : result (list PullRequest);
  (** [upstream_repo.get_releases()] *)
  upstream_get_releases : result (list Release);
  (** [downstream_repo.get_issues(state="all", labels=..., sort=..., direction="desc")] *)
  downstream_get_issues : list string -> SortKey -> result (list Issue)
}.

(** The content of a repository on the hosting service. *)
Record Repo : Type := {
  repo_issues : list Issue;
  repo_pulls : list PullRequest;
  repo_releases : list Release   (* newest first *)
}.

Definition has_label (label : string) (i : Issue) : bool :=
  existsb (String.eqb label) (issue_labels i).

Definition sort_key (s : SortKey) (i : Issue) : Z :=
  match s with
  | Created => issue_created_at i
  | Updated => issue_updated_at i
  end.

(** The API of a healthy service: an issue listing returns the issues that
    carry every requested label, most recent first by the sort key. *)
Definition list_issues (repo : Repo) (labels : list string) (s : SortKey)
  : list Issue :=
  sorted_desc (sort_key s)
    (filter (fun i => forallb (fun l => has_label l i) labels)
            (repo_issues repo)).

Definition serve (up down : Repo) : Remote := {|
  upstream_get_issues := fun s => Ok (list_issues up [] s);
  upstream_get_pulls := Ok (sorted_desc pr_created_at (repo_pulls up));
  upstream_get_releases := Ok (repo_releases up);
  downstream_get_issues := fun labels s => Ok (list_issues down labels s)
|}.

(* ------------------------------------------------------------------ *)
(** ** The daily aggregator *)

Record ActivityMetrics : Type := {
  date : string;
  upstream_issues_opened : nat;
  upstream_issues_closed : nat;
  upstream_prs_opened : nat;
  upstream_prs_merged : nat;
  upstream_releases : nat;
  downstream_tasks_created : nat;
  downstream_tasks_completed : nat;
  sync_activities : nat
}.

(** Truth value of an optional timestamp: [None] is false, a [datetime]
    is always true. *)
Definition truthy {A : Type} (o : option A) : bool :=
  match o with Some _ => true | None => false end.

(** [o.date()] where [o] may be [None]. *)
Definition opt_date (o : option datetime) : result caldate :=
  match o with
  | Some t => Ok (date_of t)
  | None => Raise (AttributeError "'NoneType' object has no attribute 'date'")
  end.

(** [issue.created_at.date() == date] *)
Definition created_on (d : caldate) (i : Issue) : bool :=
  (date_of (issue_created_at i) =? d)%Z.

(** [issue.closed_at and issue.closed_at.date() == date] *)
Definition closed_on (d : caldate) (i : Issue) : result bool :=
  if truthy (issue_closed_at i)
  then bind (opt_date (issue_closed_at i)) (fun dd => Ok (dd =? d)%Z)
  else Ok false.

(** [pr.created_at.date() == date] *)
Definition pr_created_on (d : caldate) (pr : PullRequest) : bool :=
  (date_of (pr_created_at pr) =? d)%Z.

(** [pr.merged and pr.merged_at.date() == date] *)
Definition merged_on (d : caldate) (pr : PullRequest) : result bool :=
  if pr_merged pr
  then bind (opt_date (pr_merged_at pr)) (fun dd => Ok (dd =? d)%Z)
  else Ok false.

(** [rel.published_at and rel.published_at.date() == date] *)
Definition published_on (d : caldate) (rel : Release) : result bool :=
  if truthy (rel_published_at rel)
  then bind (opt_date (rel_published_at rel)) (fun dd => Ok (dd =? d)%Z)
  else Ok false.

(** [issue.updated_at.date() == date] *)
Definition updated_on (d : caldate) (i : Issue) : bool :=
  (date_of (issue_updated_at i) =? d)%Z.

Definition sync_labels : list string :=
  ["upstream-sync"; "upstream-pr"; "upstream-release"].

(** The loop [for label in sync_labels: ...], [acc] being the running
    value of [sync_activities]. *)
Fixpoint count_sync_activities (r : Remote) (d : caldate)
    (labels : list string) (acc : nat) : result nat :=
  match labels with
  | [] => Ok acc
  | label :: rest =>
      bind (downstream_get_issues r [label] Updated) (fun labeled_issues =>
      count_sync_activities r d rest
        (acc + List.length (filter (updated_on d) labeled_issues)))
  end.

Local Open Scope py_scope.

Definition collect_daily_metrics (r : Remote) (d : caldate)
  : result ActivityMetrics :=
  upstream_issues <- upstream_get_issues r Created ;;
  let issues_on_date := filter (created_on d) upstream_issues in
  issues_closed_on_date <- filterM (closed_on d) upstream_issues ;;
  upstream_prs <- upstream_get_pulls r ;;
  let prs_on_date := filter (pr_created_on d) upstream_prs in
  prs_merged_on_date <- filterM (merged_on d) upstream_prs ;;
  releases <- upstream_get_releases r ;;
  releases_on_date <- filterM (published_on d) releases ;;
  downstream_issues <- downstream_get_issues r ["upstream-sync"] Created ;;
  let tasks_created_on_date := filter (created_on d) downstream_issues in
  tasks_completed_on_date <- filterM (closed_on d) downstream_issues ;;
  sync <- count_sync_activities r d sync_labels 0 ;;
  Ok {| date := date_isoformat d;
        upstream_issues_opened := List.length issues_on_date;
        upstream_issues_closed := List.length issues_closed_on_date;
        upstream_prs_opened := List.length prs_on_date;
        upstream_prs_merged := List.length prs_merged_on_date;
        upstream_releases := List.length releases_on_date;
        downstream_tasks_created := List.length tasks_created_on_date;
        downstream_tasks_completed := List.length tasks_completed_on_date;
        sync_activities := sync |}.

(* ------------------------------------------------------------------ *)
(** ** Dictionaries of counters *)

(** A [dict] from strings to counts, in insertion order. *)
Definition dict : Type := list (string * nat).

(** [d.get(k, default)] *)
Fixpoint dict_get (d : dict) (k : string) (default : nat) : nat :=
  match d with
  | [] => default
  | (k', v) :: d' => if String.eqb k' k then v else dict_get d' k default
  end.

(** [d[k] = v]: an existing key keeps its place, a new key goes last. *)
Fixpoint dict_set (d : dict) (k : string) (v : nat) : dict :=
  match d with
  | [] => [(k, v)]
  | (k', v') :: d' =>
      if String.eqb k' k then (k', v) :: d' else (k', v') :: dict_set d' k v
  end.

(** [d[k] = d.get(k, 0) + 1] *)
Definition bump (d : dict) (k : string) : dict :=
  dict_set d k (dict_get d k 0 + 1).

(** [dict(items)] *)
Definition dict_of_items (items : list (string * nat)) : dict :=
  fold_left (fun d kv => dict_set d (fst kv) (snd kv)) items [].

Definition keys (d : dict) : list string := map fst d.

(* ------------------------------------------------------------------ *)
(** ** The trend analyzer *)

Import PyStr.

(** [body = x.body.lower() if x.body else '']: [None] and the empty
    string are both false. *)
Definition lowered_body (body : option string) : string :=
  match body with
  | Some b => if String.eqb b EmptyString then EmptyString else lower b
  | None => EmptyString
  end.

(** [text = f"{title} {body}"] with [title = x.title.lower()]. *)
Definition classification_text (title : string) (body : option string)
  : string :=
  lower title ++ " " ++ lowered_body body.

(** The [if]/[elif] chain on issues; the value is the key whose counter
    is incremented. *)
Definition issue_category (text : string) : string :=
  if any_in ["bug"; "error"; "crash"; "fix"] text then "bug"
  else if any_in ["feature"; "enhancement"; "add"] text then "feature"
  else if any_in ["docs"; "documentation"; "readme"] text then "documentation"
  else if any_in ["performance"; "optimization"; "speed"] text then "performance"
  else "other".

(** The [if]/[elif] chain on pull requests. *)
Definition pr_type (text : string) : string :=
  if any_in ["fix"; "bugfix"] text then "fix"
  else if any_in ["feat"; "feature"] text then "feature"
  else if any_in ["refactor"; "cleanup"] text then "refactor"
  else if any_in ["docs"; "documentation"] text then "documentation"
  else "other".

Record Trends : Type := {
  issue_categories : dict;
  pr_types : dict;
  release_frequency : Q;
  top_contributors : dict;
  complexity_trends : dict
}.

(** One iteration of [for issue in recent_issues], on the pair of
    dictionaries it updates. *)
Definition scan_issue (st : dict * dict) (issue : Issue) : dict * dict :=
  let text := classification_text (issue_title issue) (issue_body issue) in
  (bump (fst st) (issue_category text), bump (snd st) (issue_user_login issue)).

(** One iteration of [for pr in recent_prs]. *)
Definition scan_pr (st : dict * dict) (pr : PullRequest) : dict * dict :=
  let text := classification_text (pr_title pr) (pr_body pr) in
  (bump (fst st) (pr_type text), bump (snd st) (pr_user_login pr)).

(** [latest - oldest] on optional timestamps, then [.days]. *)
Definition days_between (latest oldest : option datetime) : result Z :=
  match latest, oldest with
  | Some a, Some b => Ok (timedelta_days a b)
  | _, _ => Raise (TypeError "unsupported operand type(s) for -")
  end.

Definition no_release : Release := {| rel_published_at := None |}.

(** The release-frequency block: the value stored under
    ["release_frequency"], initially [0]. *)
Definition compute_release_frequency (releases : list Release) : result Q :=
  if (1 <? List.length releases)%nat then
    let latest := rel_published_at (hd no_release releases) in
    let oldest := rel_published_at (last releases no_release) in
    days_diff <- days_between latest oldest ;;
    months <- int_truediv days_diff 30 ;;
    (* [max(months, 1)] is [months] unless [1 > months] *)
    if Qle_bool 1 months
    then float_truediv (float_of_int (Z.of_nat (List.length releases))) months
    else int_truediv (Z.of_nat (List.length releases)) 1
  else Ok 0%Q.

Definition count_key (kv : string * nat) : Z := Z.of_nat (snd kv).

(** [dict(sorted(d.items(), key=lambda x: x[1], reverse=True)[:10])] *)
Definition top_ten (d : dict) : dict :=
  dict_of_items (firstn 10 (sorted_desc count_key d)).

Definition analyze_upstream_trends (r : Remote) : result Trends :=
  all_issues <- upstream_get_issues r Created ;;
  let recent_issues := firstn 100 all_issues in
  let st1 := fold_left scan_issue recent_issues ([], []) in
  all_prs <- upstream_get_pulls r ;;
  let recent_prs := firstn 100 all_prs in
  let st2 := fold_left scan_pr recent_prs ([], snd st1) in
  releases <- upstream_get_releases r ;;
  frequency <- compute_release_frequency releases ;;
  Ok {| issue_categories := fst st1;
        pr_types := fst st2;
        release_frequency := frequency;
        top_contributors := top_ten (snd st2);
        complexity_trends := [] |}.

(* ------------------------------------------------------------------ *)
(** ** The last-sync lookup *)

(** [max(xs)] of a non-empty sequence [x :: xs] of timestamps. *)
Definition py_max (x : datetime) (xs : list datetime) : datetime :=
  fold_left Z.max xs x.

Definition get_last_sync_time (r : Remote) : string :=
  match downstream_get_issues r ["upstream-sync"] Updated with
  | Raise e => "Unknown"
  | Ok all_sync_issues =>
      let sync_issues := firstn 5 all_sync_issues in
      match map issue_updated_at sync_issues with
      | [] => "No recent syncs found"
      | t :: ts => isoformat (py_max t ts)
      end
  end.

(* ------------------------------------------------------------------ *)
(** ** Assembling the dashboard *)

(** [x] rounded to two decimals, exactly: the decimal number Python's
    [round(x, 2)] aims at. *)
Definition round2 (x : Q) : Q :=
  (inject_Z (round_half_even (x * 100)) / 100)%Q.

(** [round(x, 2)] on a float: the binary64 number nearest to that
    decimal.  (On the integer [0] the result is [0].) *)
Definition py_round2 (x : Q) : Q := round64 (round2 x).

Record Summary : Type := {
  total_upstream_issues : nat;
  total_upstream_prs : nat;
  total_downstream_tasks : nat;
  sync_efficiency : Q;
  data_period : string
}.

Record CurrentStatus : Type := {
  last_sync : string;
  active_monitoring : bool;
  upstream_repo_status : string;
  downstream_repo_status : string
}.

Record DashboardData : Type := {
  summary : Summary;
  trends : Trends;
  daily_metrics : list ActivityMetrics;
  current_status : CurrentStatus
}.

(** One iteration of [for i in range(30)]: [api i] is what the service
    answers during that iteration. *)
Definition collect_day (api : nat -> Remote) (today : caldate)
    (metrics_data : list ActivityMetrics) (i : nat) : list ActivityMetrics :=
  match collect_daily_metrics (api i) (minus_days today i) with
  | Ok metrics => metrics_data ++ [metrics]
  | Raise e => metrics_data   (* printed, then [continue] *)
  end.

Definition collect_last_30_days (api : nat -> Remote) (today : caldate)
  : list ActivityMetrics :=
  fold_left (collect_day api today) (seq 0 30) [].

(** [sum(f(m) for m in metrics_data)] *)
Definition total (f : ActivityMetrics -> nat) (l : list ActivityMetrics)
  : nat :=
  fold_left (fun acc m => acc + f m) l 0.

(** The value of the local variable [sync_efficiency]. *)
Definition raw_sync_efficiency (tasks issues : nat) : result Q :=
  if (0 <? issues)%nat
  then ratio <- int_truediv (Z.of_nat tasks) (Z.of_nat issues) ;;
       Ok (float_mul ratio 100)
  else Ok 0%Q.

(** [api 30] answers the trend analysis, [api 31] the last-sync lookup. *)
Definition generate_dashboard_data (api : nat -> Remote) (today : caldate)
  : result DashboardData :=
  let metrics_data := collect_last_30_days api today in
  trends <- analyze_upstream_trends (api 30) ;;
  let total_upstream_issues := total upstream_issues_opened metrics_data in
  let total_upstream_prs := total upstream_prs_opened metrics_data in
  let total_downstream_tasks := total downstream_tasks_created metrics_data in
  sync_efficiency <-
    raw_sync_efficiency total_downstream_tasks total_upstream_issues ;;
  Ok {| summary :=
          {| total_upstream_issues := total_upstream_issues;
             total_upstream_prs := total_upstream_prs;
             total_downstream_tasks := total_downstream_tasks;
             sync_efficiency := py_round2 sync_efficiency;
             data_period :=
               "Last 30 days (" ++ date_isoformat (minus_days today 29)
                 ++ " to " ++ date_isoformat today ++ ")" |};
        trends := trends;
        daily_metrics := metrics_data;
        current_status :=
          {| last_sync := get_last_sync_time (api 31);
             active_monitoring := true;
             upstream_repo_status := "Active";
             downstream_repo_status := "Active" |} |}.

(* ------------------------------------------------------------------ *)
(** ** The entry point *)

(** What a run does to the outside world, in order. *)
Inductive event : Type :=
| Stdout (line : string)          (* [print(line)] *)
| Request (what : string)         (* traffic with the hosting API *)
| FileWrite (path : string).      (* a file created or overwritten *)

(** A computation with effects: its trace and its outcome. *)
Definition Run (A : Type) : Type := (list event * result A)%type.

Definition ret {A : Type} (a : A) : Run A := ([], Ok a).

Definition emit (e : event) : Run unit := ([e], Ok tt).

Definition lift {A : Type} (m : result A) : Run A := ([], m).

Definition bindR {A B : Type} (m : Run A) (k : A -> Run B) : Run B :=
  match m with
  | (tr, Raise e) => (tr, Raise e)
  | (tr, Ok a) => let (tr', b) := k a in ((tr ++ tr')%list, b)
  end.

Notation "x <~ m ;; k" := (bindR m (fun x => k))
  (at level 61, m at next level, right associativity) : py_scope.
Notation "m ;;; k" := (bindR m (fun _ => k))
  (at level 61, right associativity) : py_scope.

(** The names of the chart files, keyed by chart. *)
Definition Visualizations : Type := list (string * string).

(** The environment of one run.  The stages built on the plotting and
    templating libraries are taken as they come: each may print, write
    files and raise. *)
Record World : Type := {
  (** [os.getenv('GITHUB_TOKEN')] *)
  getenv_GITHUB_TOKEN : option string;
  (** [UpstreamMonitor(token)]: opens the client and both repositories *)
  connect : string -> Run unit;
  (** the answers of the API, per phase of [generate_dashboard_data] *)
  api : nat -> Remote;
  (** [datetime.date.today()] *)
  today : caldate;
  (** [monitor.create_visualizations(data)]: writes the chart images *)
  create_visualizations : DashboardData -> Run Visualizations;
  (** [monitor.generate_html_report(data, visualizations)] *)
  generate_html_report : DashboardData -> Visualizations -> Run string;
  (** [datetime.datetime.now().strftime("%Y%m%d_%H%M%S")] *)
  timestamp : string;
  (** [json.dump(data, f, indent=2)] as text *)
  json_dump : DashboardData -> string;
  (** [open(path, 'w')] followed by the write; may raise [OSError] *)
  write_file : string -> string -> result unit;
  (** the four summary lines, numbers formatted by the f-strings *)
  summary_lines : Summary -> list string
}.

Definition str_of_exn (e : exn) : string :=
  match e with
  | GithubException m | AttributeError m | TypeError m
  | ZeroDivisionError m | OSError m => m
  end.

(** [with open(path, 'w') as f: f.write(content)] *)
Definition save (w : World) (path content : string) : Run unit :=
  match write_file w path content with
  | Ok _ => ([FileWrite path], Ok tt)
  | Raise e => ([], Raise e)
  end.

(** Truth value of the token: [None] and the empty string are false. *)
Definition token_present (token : option string) : bool :=
  match token with
  | Some t => negb (String.eqb t EmptyString)
  | None => false
  end.

(** The body of the [try] block of [main].  The progress lines printed
    inside the stages belong to the stages; [generate_dashboard_data] is
    the pure function above, its use of the API marked by one event. *)
Definition main_body (w : World) (token : string) : Run unit :=
  connect w token ;;;
  emit (Stdout "Generating dashboard data...") ;;;
  emit (Request "generate_dashboard_data") ;;;
  dashboard_data <~ lift (generate_dashboard_data (api w) (today w)) ;;
  emit (Stdout "Creating visualizations...") ;;;
  visualizations <~ create_visualizations w dashboard_data ;;
  emit (Stdout "Generating HTML dashboard...") ;;;
  html_report <~ generate_html_report w dashboard_data visualizations ;;
  let json_path := "/tmp/dashboard_data_" ++ timestamp w ++ ".json" in
  let html_path := "/tmp/dashboard_" ++ timestamp w ++ ".html" in
  save w json_path (json_dump w dashboard_data) ;;;
  save w html_path html_report ;;;
  emit (Stdout "✅ Dashboard generated successfully!") ;;;
  emit (Stdout ("📊 Data saved: " ++ json_path)) ;;;
  emit (Stdout ("🖥️  Dashboard saved: " ++ html_path)) ;;;
  (map Stdout (summary_lines w (summary dashboard_data)), Ok tt).

(** [main()]: the trace of the run and the exit status of the process. *)
Definition main (w : World) : list event * Z :=
  if negb (token_present (getenv_GITHUB_TOKEN w)) then
    ([Stdout "Error: GITHUB_TOKEN environment variable is required"], 1%Z)
  else
    let token :=
      match getenv_GITHUB_TOKEN w with Some t => t | None => EmptyString end in
    match main_body w token with
    | (tr, Ok _) => (tr, 0%Z)
    | (tr, Raise e) =>
        ((tr ++ [Stdout ("❌ Error: " ++ str_of_exn e)])%list, 1%Z)
    end.

Definition is_file_write (e : event) : bool :=
  match e with FileWrite _ => true | _ => false end.

Definition is_request (e : event) : bool :=
  match e with Request _ => true | _ => false end.


(* ------------------------------------------------------------------ *)
(** ** Notions of the specification *)

(** The priority order of the specification, as data. *)
Definition issue_priority : list (string * list string) :=
  [ ("bug", ["bug"; "error"; "crash"; "fix"]);
    ("feature", ["feature"; "enhancement"; "add"]);
    ("documentation", ["docs"; "documentation"; "readme"]);
    ("performance", ["performance"; "optimization"; "speed"]) ].

(** A keyword set matches a text when one of its members occurs in it. *)
Definition Matches (kws : list string) (text : string) : Prop :=
  exists kw, In kw kws /\ Substring kw text.

(** The reading of the specification: the first category, in the given
    order, whose keyword set matches; ["other"] when none does. *)
Inductive FirstMatch (text : string)
  : list (string * list string) -> string -> Prop :=
| FirstMatch_none : FirstMatch text [] "other"
| FirstMatch_here c kws rest :
    Matches kws text -> FirstMatch text ((c, kws) :: rest) c
| FirstMatch_later c kws rest c' :
    ~ Matches kws text -> FirstMatch text rest c' ->
    FirstMatch text ((c, kws) :: rest) c'.

(** Number of occurrences of [k] in a list of keys. *)
Definition occurrences (k : string) (ks : list string) : nat :=
  List.length (filter (String.eqb k) ks).

Definition issue_text (i : Issue) : string :=
  classification_text (issue_title i) (issue_body i).

Definition pr_text (p : PullRequest) : string :=
  classification_text (pr_title p) (pr_body p).


(* ------------------------------------------------------------------ *)
(** ** A small pair of repositories, for running the model *)

Definition day (n : Z) : datetime := (n * 86400)%Z.

Definition sample_upstream : Repo := {|
  repo_issues := [
    {| issue_title := "Crash when adding a feature"; issue_body := None;
       issue_user_login := "alice";
       issue_created_at := day 20000; issue_closed_at := None;
       issue_updated_at := day 20000; issue_labels := [] |};
    {| issue_title := "Add dark mode"; issue_body := Some "Please ADD it";
       issue_user_login := "bob";
       issue_created_at := (day 20000 + 3600)%Z;
       issue_closed_at := Some (day 20001);
       issue_updated_at := day 20001; issue_labels := [] |};
    {| issue_title := "Update README"; issue_body := Some EmptyString;
       issue_user_login := "carol";
       issue_created_at := day 19999;
       issue_closed_at := Some (day 20000 + 60)%Z;
       issue_updated_at := day 20000; issue_labels := [] |} ];
  repo_pulls := [
    {| pr_title := "fix: crash on start"; pr_body := None;
       pr_user_login := "carol"; pr_created_at := day 19999;
       pr_merged := true; pr_merged_at := Some (day 20000) |};
    {| pr_title := "feat: dark mode"; pr_body := Some "Closes the issue";
       pr_user_login := "bob"; pr_created_at := day 20000;
       pr_merged := false; pr_merged_at := None |} ];
  repo_releases := [
    {| rel_published_at := Some (day 20000) |};
    {| rel_published_at := Some (day 19970) |} ]
|}.

Definition sample_downstream : Repo := {|
  repo_issues := [
    {| issue_title := "Sync dark mode"; issue_body := None;
       issue_user_login := "dave";
       issue_created_at := day 20000; issue_closed_at := None;
       issue_updated_at := (day 20000 + 7200)%Z;
       issue_labels := ["upstream-sync"; "upstream-pr"] |};
    {| issue_title := "Track release"; issue_body := None;
       issue_user_login := "dave";
       issue_created_at := day 19990; issue_closed_at := Some (day 19991);
       issue_updated_at := day 20000;
       issue_labels := ["upstream-release"] |};
    {| issue_title := "Sync crash fix"; issue_body := None;
       issue_user_login := "dave";
       issue_created_at := day 19980; issue_closed_at := Some (day 20000);
       issue_updated_at := day 19995;
       issue_labels := ["upstream-sync"] |} ];
  repo_pulls := [];
  repo_releases := []
|}.

Definition sample_remote : Remote := serve sample_upstream sample_downstream.

(** A service that is down. *)
Definition broken_remote : Remote := {|
  upstream_get_issues := fun _ => Raise (GithubException "503");
  upstream_get_pulls := Raise (GithubException "503");
  upstream_get_releases := Raise (GithubException "503");
  downstream_get_issues := fun _ _ => Raise (GithubException "503")
|}.

(* ------------------------------------------------------------------ *)
(** ** Notions of the specification: the daily buckets *)

(** The issue was closed, and on day [d]. *)
Definition closed_on_day (d : caldate) (i : Issue) : bool :=
  match issue_closed_at i with
  | Some t => (date_of t =? d)%Z
  | None => false
  end.

(** The release was published, and on day [d]. *)
Definition published_on_day (d : caldate) (rel : Release) : bool :=
  match rel_published_at rel with
  | Some t => (date_of t =? d)%Z
  | None => false
  end.

Definition has_closed_at (i : Issue) : bool := truthy (issue_closed_at i).

Definition has_published_at (rel : Release) : bool :=
  truthy (rel_published_at rel).

(** Number of the sync labels an issue carries. *)
Definition sync_label_count (i : Issue) : nat :=
  List.length (filter (fun label => has_label label i) sync_labels).

(* ------------------------------------------------------------------ *)
(** ** Notions of the specification: the contributor tally *)

(** The authors the analyzer meets, in the order it meets them. *)
Definition recent_authors (all_issues : list Issue)
    (all_prs : list PullRequest) : list string :=
  (map issue_user_login (firstn 100 all_issues)
     ++ map pr_user_login (firstn 100 all_prs))%list.

(** The running tally before it is ranked: one entry per author, in the
    order of first appearance. *)
Definition contributor_tally (all_issues : list Issue)
    (all_prs : list PullRequest) : dict :=
  fold_left bump (recent_authors all_issues all_prs) [].

(** The entries of a dictionary that have count [c], in order. *)
Definition with_count (c : nat) (d : dict) : dict :=
  filter (fun kv => (count_key kv =? Z.of_nat c)%Z) d.

(* ------------------------------------------------------------------ *)
(** ** Notions of the specification: the summary *)

(** Sync efficiency as the specification words it: tasks created over
    issues opened, times 100; 0 when no issue was opened. *)
Definition exact_sync_efficiency (tasks issues : nat) : Q :=
  if (issues =? 0)%nat then 0%Q
  else (inject_Z (Z.of_nat tasks) / inject_Z (Z.of_nat issues) * 100)%Q.

(** The records of the days whose collection succeeded, for the day
    offsets [offsets], in that order. *)
Definition successful_days (api : nat -> Remote) (today : caldate)
    (offsets : list nat) : list ActivityMetrics :=
  flat_map (fun i =>
              match collect_daily_metrics (api i) (minus_days today i) with
              | Ok metrics => [metrics]
              | Raise _ => []
              end) offsets.

(* ------------------------------------------------------------------ *)
(** ** A sample world, for running the entry point *)

Definition sample_world (token : option string) : World := {|
  getenv_GITHUB_TOKEN := token;
  connect := fun _ =>
    ([Request "get_repo upstream"; Request "get_repo downstream"], Ok tt);
  api := fun _ => sample_remote;
  today := 20000%Z;
  create_visualizations := fun _ =>
    ([FileWrite "/tmp/activity_trends.png";
      FileWrite "/tmp/issue_categories.png";
      FileWrite "/tmp/top_contributors.png"],
     Ok [("activity_trends", "/tmp/activity_trends.png");
         ("issue_categories", "/tmp/issue_categories.png");
         ("top_contributors", "/tmp/top_contributors.png")]);
  generate_html_report := fun _ _ => ([], Ok "<!DOCTYPE html>");
  timestamp := "20241004_000000";
  json_dump := fun _ => "{}";
  write_file := fun _ _ => Ok tt;
  summary_lines := fun _ => []
|}.

(* ------------------------------------------------------------------ *)
(** ** Notions used for the rest of the analyzer and the aggregator *)


(** The sum of the counters of a dictionary. *)
Definition dict_total (d : dict) : nat := list_sum (map snd d).

(** A merged pull request carries its merge timestamp. *)
Definition merge_stamped (pr : PullRequest) : bool :=
  negb (pr_merged pr) || truthy (pr_merged_at pr).

(** The issue was created in the [n] days ending on [today]. *)
Definition created_within (today : caldate) (n : nat) (i : Issue) : bool :=
  ((today - Z.of_nat n <? date_of (issue_created_at i))
   && (date_of (issue_created_at i) <=? today))%Z.

(** The largest [updated_at] of a list of issues, [None] when empty. *)
Definition latest_update (l : list Issue) : option datetime :=
  match map issue_updated_at l with
  | [] => None
  | t :: ts => Some (py_max t ts)
  end.

(** A service whose first listed release is an unpublished draft. *)
Definition draft_first_remote : Remote := {|
  upstream_get_issues := fun _ => Ok [];
  upstream_get_pulls := Ok [];
  upstream_get_releases :=
    Ok [ {| rel_published_at := None |};
         {| rel_published_at := Some (day 20000) |} ];
  downstream_get_issues := fun _ _ => Ok []
|}.

(** The collection of the day at offset [i] succeeded. *)
Definition collected (api : nat -> Remote) (today : caldate) (i : nat) : bool :=
  match collect_daily_metrics (api i) (minus_days today i) with
  | Ok _ => true
  | Raise _ => false
  end.

(** A service that answers during the trend analysis only. *)
Definition flaky_api (phase : nat) : Remote :=
  if Nat.eqb phase 30 then sample_remote else broken_remote.

(* ------------------------------------------------------------------ *)
(** ** [str.format]

    The scanner of CPython's [str.format], byte by byte: literal text
    with the escapes [{{] and [}}], and replacement fields
    [{name!conversion:spec}].  A field is rendered as soon as its closing
    brace is read, so the first failing field decides the error and the
    text after it is never looked at.  Field names are taken in ASCII. *)

(** The exceptions met from here on: those of the modelled calls, and the
    built-in ones raised by [str.format] and by a missing column. *)
Inductive pyexc : Type :=
| Known (e : exn)
| KeyError (key : string)
| IndexError (msg : string)
| ValueError (msg : string).

(** The outcome of a stage: its value, or the exception it raised. *)
Inductive outcome (A : Type) : Type :=
| Returned (a : A)
| Raised (e : pyexc).
Arguments Returned {A} a.
Arguments Raised {A} e.

Definition dq : string := String (ascii_of_nat 34) EmptyString.

Inductive fmt_state : Type :=
| Text                                   (* in literal text *)
| Open                                   (* an opening brace was just read *)
| Close                                  (* a closing brace was just read *)
| Name (name : string)                   (* in a field name *)
| Index (name : string)                  (* in a field name, inside brackets *)
| Bang (name : string)                   (* the [!] was just read *)
| Conv (name : string) (c : ascii)       (* the conversion was just read *)
| Spec (name : string) (conv : option ascii) (depth : nat) (spec : string).

Inductive transition : Type :=
| Goto (st : fmt_state) (emitted : string)
| Field (name : string) (conv : option ascii) (spec : string)
| Fail (e : pyexc).

Definition snoc (s : string) (c : ascii) : string :=
  s ++ String c EmptyString.

(** One byte of a field name: the name ends at [}], [:] or [!]; an opening
    bracket starts a part that runs to the next closing bracket. *)
Definition name_step (name : string) (c : ascii) : transition :=
  if Ascii.eqb c "{" then Fail (ValueError "unexpected '{' in field name")
  else if Ascii.eqb c "[" then Goto (Index (snoc name c)) EmptyString
  else if Ascii.eqb c "}" then Field name None EmptyString
  else if Ascii.eqb c ":" then Goto (Spec name None 1 EmptyString) EmptyString
  else if Ascii.eqb c "!" then Goto (Bang name) EmptyString
  else Goto (Name (snoc name c)) EmptyString.

Definition step (st : fmt_state) (c : ascii) : transition :=
  match st with
  | Text =>
      if Ascii.eqb c "{" then Goto Open EmptyString
      else if Ascii.eqb c "}" then Goto Close EmptyString
      else Goto Text (String c EmptyString)
  | Open =>
      if Ascii.eqb c "{" then Goto Text "{" else name_step EmptyString c
  | Close =>
      if Ascii.eqb c "}" then Goto Text "}"
      else Fail (ValueError "Single '}' encountered in format string")
  | Name name => name_step name c
  | Index name =>
      if Ascii.eqb c "]" then Goto (Name (snoc name c)) EmptyString
      else Goto (Index (snoc name c)) EmptyString
  | Bang name => Goto (Conv name c) EmptyString
  | Conv name cv =>
      if Ascii.eqb c "}" then Field name (Some cv) EmptyString
      else if Ascii.eqb c ":" then Goto (Spec name (Some cv) 1 EmptyString) EmptyString
      else Fail (ValueError "expected ':' after conversion specifier")
  | Spec name conv depth spec =>
      if Ascii.eqb c "{" then Goto (Spec name conv (S depth) (snoc spec c)) EmptyString
      else if Ascii.eqb c "}" then
        match depth with
        | 0 | 1 => Field name conv spec
        | S d => Goto (Spec name conv d (snoc spec c)) EmptyString
        end
      else Goto (Spec name conv depth (snoc spec c)) EmptyString
  end.

(** The end of the template, by state. *)
Definition at_end (st : fmt_state) (out : string) : outcome string :=
  match st with
  | Text => Returned out
  | Open => Raised (ValueError "Single '{' encountered in format string")
  | Close => Raised (ValueError "Single '}' encountered in format string")
  | Name _ | Index _ =>
      Raised (ValueError "expected '}' before end of string")
  | Bang _ =>
      Raised (ValueError "end of string while looking for conversion specifier")
  | Conv _ _ | Spec _ _ _ _ =>
      Raised (ValueError "unmatched '{' in format spec")
  end.

(** The first part of a field name, up to the first [.] or [[], and the
    rest. *)
Fixpoint split_first (name : string) : string * string :=
  match name with
  | EmptyString => (EmptyString, EmptyString)
  | String c rest =>
      if Ascii.eqb c "." || Ascii.eqb c "[" then (EmptyString, name)
      else let (a, b) := split_first rest in (String c a, b)
  end.

(** The first part is empty or a decimal number: a positional field. *)
Fixpoint all_digits (s : string) : bool :=
  match s with
  | EmptyString => true
  | String c rest =>
      ((48 <=? nat_of_ascii c) && (nat_of_ascii c <=? 57))%nat
      && all_digits rest
  end.

Section StrFormat.
Context {V : Type}.

(** What [format] does with the object of a field once it has it: the
    rest of the field name (attributes and items), the conversion and the
    format specification. *)
Variable render : V -> string -> option ascii -> string -> outcome string.

(** The error of a positional field when [format] is called with keyword
    arguments only (an [IndexError], or a [ValueError] for an index too
    long to be a number). *)
Variable positional_error : string -> pyexc.

Variable kwargs : list (string * V).

(** [kwargs[key]] *)
Fixpoint kwargs_get (kw : list (string * V)) (key : string) : option V :=
  match kw with
  | [] => None
  | (k, v) :: kw' => if String.eqb k key then Some v else kwargs_get kw' key
  end.

Definition output_field (name : string) (conv : option ascii)
    (spec : string) : outcome string :=
  let (first, rest) := split_first name in
  if all_digits first then Raised (positional_error first)
  else match kwargs_get kwargs first with
       | None => Raised (KeyError first)
       | Some v => render v rest conv spec
       end.

Fixpoint fmt (st : fmt_state) (out : string) (template : string)
  : outcome string :=
  match template with
  | EmptyString => at_end st out
  | String c template' =>
      match step st c with
      | Goto st' emitted => fmt st' (out ++ emitted) template'
      | Field name conv spec =>
          match output_field name conv spec with
          | Returned s => fmt Text (out ++ s) template'
          | Raised e => Raised e
          end
      | Fail e => Raised e
      end
  end.

(** [template.format] called with the keyword arguments [kwargs] *)
Definition str_format (template : string) : outcome string :=
  fmt Text EmptyString template.

End StrFormat.
(** The text of [html_template], cut at its double quotes: the pieces
    are joined again with the double-quote character. *)
Definition html_template : string :=
  String.concat dq
    [ "
<!DOCTYPE html>
<html lang=";
      "en";
      ">
<head>
    <meta charset=";
      "UTF-8";
      ">
    <meta name=";
      "viewport";
      " content=";
      "width=device-width, initial-scale=1.0";
      ">
    <title>AutomatSEO Upstream Monitoring Dashboard</title>
    <style>
        body {
            font-family: 'Segoe UI', Tahoma, Geneva, Verdana, sans-serif;
            margin: 0;
            padding: 20px;
            background-color: #f5f5f5;
        }
        .container {
            max-width: 1200px;
            margin: 0 auto;
            background-color: white;
            padding: 30px;
            border-radius: 10px;
            box-shadow: 0 2px 10px rgba(0,0,0,0.1);
        }
        .header {
            text-align: center;
            margin-bottom: 40px;
            padding-bottom: 20px;
            border-bottom: 3px solid #e1e1e1;
        }
        .header h1 {
            color: #2c3e50;
            margin: 0;
            font-size: 2.5em;
        }
        .header p {
            color: #7f8c8d;
            margin: 10px 0 0 0;
            font-size: 1.1em;
        }
        .summary-grid {
            display: grid;
            grid-template-columns: repeat(auto-fit, minmax(250px, 1fr));
            gap: 20px;
            margin-bottom: 40px;
        }
        .summary-card {
            background: linear-gradient(135deg, #667eea 0%, #764ba2 100%);
            color: white;
            padding: 25px;
            border-radius: 10px;
            text-align: center;
            box-shadow: 0 4px 15px rgba(0,0,0,0.2);
        }
        .summary-card h3 {
            margin: 0 0 10px 0;
            font-size: 1.1em;
            opacity: 0.9;
        }
        .summary-card .number {
            font-size: 2.5em;
            font-weight: bold;
            margin: 0;
        }
        .section {
            margin-bottom: 40px;
        }
        .section h2 {
            color: #2c3e50;
            border-bottom: 2px solid #e1e1e1;
            padding-bottom: 10px;
            margin-bottom: 20px;
        }
        .chart-container {
            text-align: center;
            margin: 20px 0;
        }
        .chart-container img {
            max-width: 100%;
            height: auto;
            border-radius: 8px;
            box-shadow: 0 2px 8px rgba(0,0,0,0.1);
        }
        .status-grid {
            display: grid;
            grid-template-columns: repeat(auto-fit, minmax(200px, 1fr));
            gap: 15px;
            margin: 20px 0;
        }
        .status-item {
            background-color: #f8f9fa;
            padding: 15px;
            border-radius: 8px;
            border-left: 4px solid #28a745;
        }
        .status-item.warning {
            border-left-color: #ffc107;
        }
        .status-item.error {
            border-left-color: #dc3545;
        }
        .status-item strong {
            display: block;
            color: #495057;
            margin-bottom: 5px;
        }
        .footer {
            text-align: center;
            margin-top: 40px;
            padding-top: 20px;
            border-top: 1px solid #e1e1e1;
            color: #7f8c8d;
        }
        .refresh-info {
            background-color: #e8f5e8;
            padding: 15px;
            border-radius: 5px;
            margin-bottom: 20px;
            border-left: 4px solid #28a745;
        }
    </style>
</head>
<body>
    <div class=";
      "container";
      ">
        <div class=";
      "header";
      ">
            <h1>🤖 AutomatSEO Upstream Monitoring Dashboard</h1>
            <p>Real-time tracking of Cherry Studio upstream activity and its impact on AutomatSEO development</p>
        </div>

        <div class=";
      "refresh-info";
      ">
            <strong>📊 Last Updated:</strong> {timestamp} |
            <strong>📅 Data Period:</strong> {data_period}
        </div>

        <div class=";
      "summary-grid";
      ">
            <div class=";
      "summary-card";
      ">
                <h3>📝 Upstream Issues</h3>
                <div class=";
      "number";
      ">{total_upstream_issues}</div>
            </div>
            <div class=";
      "summary-card";
      ">
                <h3>🔀 Upstream PRs</h3>
                <div class=";
      "number";
      ">{total_upstream_prs}</div>
            </div>
            <div class=";
      "summary-card";
      ">
                <h3>📋 Downstream Tasks</h3>
                <div class=";
      "number";
      ">{total_downstream_tasks}</div>
            </div>
            <div class=";
      "summary-card";
      ">
                <h3>📈 Sync Efficiency</h3>
                <div class=";
      "number";
      ">{sync_efficiency}%</div>
            </div>
        </div>

        <div class=";
      "section";
      ">
            <h2>📈 Activity Trends</h2>
            <div class=";
      "chart-container";
      ">
                <img src=";
      "data:image/png;base64,{activity_trends_img}";
      " alt=";
      "Activity Trends";
      ">
            </div>
        </div>

        <div class=";
      "section";
      ">
            <h2>📊 Issue Categories Distribution</h2>
            <div class=";
      "chart-container";
      ">
                <img src=";
      "data:image/png;base64,{issue_categories_img}";
      " alt=";
      "Issue Categories";
      ">
            </div>
        </div>

        <div class=";
      "section";
      ">
            <h2>👥 Top Contributors</h2>
            <div class=";
      "chart-container";
      ">
                <img src=";
      "data:image/png;base64,{top_contributors_img}";
      " alt=";
      "Top Contributors";
      ">
            </div>
        </div>

        <div class=";
      "section";
      ">
            <h2>🔧 System Status</h2>
            <div class=";
      "status-grid";
      ">
                <div class=";
      "status-item";
      ">
                    <strong>Last Sync</strong>
                    {last_sync}
                </div>
                <div class=";
      "status-item";
      ">
                    <strong>Monitoring Status</strong>
                    <span style=";
      "color: #28a745;";
      ">✅ Active</span>
                </div>
                <div class=";
      "status-item";
      ">
                    <strong>Upstream Repo</strong>
                    <span style=";
      "color: #28a745;";
      ">✅ {upstream_status}</span>
                </div>
                <div class=";
      "status-item";
      ">
                    <strong>Downstream Repo</strong>
                    <span style=";
      "color: #28a745;";
      ">✅ {downstream_status}</span>
                </div>
            </div>
        </div>

        <div class=";
      "footer";
      ">
            <p>🤖 Dashboard generated automatically by AutomatSEO monitoring system</p>
            <p>For questions or issues, contact the development team</p>
        </div>
    </div>
</body>
</html>
        " ].

(* ------------------------------------------------------------------ *)
(** ** The chart and report stages *)

(** A stage with effects: its trace and its outcome. *)
Definition Stage (A : Type) : Type := (list event * outcome A)%type.

Definition bindS {A B : Type} (m : Stage A) (k : A -> Stage B) : Stage B :=
  match m with
  | (tr, Raised e) => (tr, Raised e)
  | (tr, Returned a) => let (tr', b) := k a in ((tr ++ tr')%list, b)
  end.

Notation "x <~~ m ;; k" := (bindS m (fun x => k))
  (at level 61, m at next level, right associativity) : py_scope.

(** The values passed to the template. *)
Inductive pyval : Type :=
| PStr (s : string)
| PInt (n : nat)
| PFloat (q : Q).

(** What the two stages use from their libraries and from the file
    system. *)
Record StageHost : Type := {
  (** the plotting calls of one chart, ending in [plt.savefig(path)] *)
  draw_chart : string -> result unit;
  (** [open(path, 'rb').read()] *)
  read_binary : string -> result string;
  (** [base64.b64encode(data).decode()] *)
  b64encode : string -> string;
  (** [datetime.datetime.now().strftime("%Y-%m-%d %H:%M:%S UTC")] *)
  now_text : string;
  (** rendering of a found field of [str.format] *)
  format_value : pyval -> string -> option ascii -> string -> outcome string;
  (** the error of [str.format] on a positional field *)
  format_positional : string -> pyexc
}.

(** [key in visualizations] and [visualizations[key]] *)
Fixpoint vis_get (vis : Visualizations) (key : string) : option string :=
  match vis with
  | [] => None
  | (k, v) :: vis' => if String.eqb k key then Some v else vis_get vis' key
  end.

Module UpstreamMonitor.

(** One chart block: the plotting calls, the file, the entry. *)
Definition chart (host : StageHost) (vis : Visualizations)
    (key path : string) : Stage Visualizations :=
  match draw_chart host path with
  | Ok _ => ([FileWrite path], Returned (vis ++ [(key, path)])%list)
  | Raise e => ([], Raised (Known e))
  end.

(** [dict(list(contributors.items())[:10])], the entries of the bar
    chart. *)
Definition bar_chart_entries (contributors : dict) : dict :=
  dict_of_items (firstn 10 contributors).

(** [create_visualizations]: the frame is built from the daily records
    (its [date] column is missing when there is no record), then the
    three chart blocks run, the last two under their conditions. *)
Definition create_visualizations (host : StageHost) (data : DashboardData)
  : Stage Visualizations :=
  _ <~~ ([Stdout "Creating visualizations..."], Returned tt) ;;
  _ <~~ ([], match daily_metrics data with
             | [] => Raised (KeyError "date")
             | _ :: _ => Returned tt
             end) ;;
  vis <~~ chart host [] "activity_trends" "/tmp/activity_trends.png" ;;
  vis <~~ match issue_categories (trends data) with
          | [] => ([], Returned vis)
          | _ :: _ => chart host vis "issue_categories" "/tmp/issue_categories.png"
          end ;;
  match top_contributors (trends data) with
  | [] => ([], Returned vis)
  | _ :: _ => chart host vis "top_contributors" "/tmp/top_contributors.png"
  end.

(** One image of the report: empty when the chart is absent. *)
Definition embed_image (host : StageHost) (vis : Visualizations)
    (key : string) : Stage string :=
  match vis_get vis key with
  | None => ([], Returned EmptyString)
  | Some path =>
      match read_binary host path with
      | Ok bytes => ([], Returned (b64encode host bytes))
      | Raise e => ([], Raised (Known e))
      end
  end.

(** The keyword arguments of [html_template.format(...)]. *)
Definition report_kwargs (host : StageHost) (data : DashboardData)
    (activity_trends_img issue_categories_img top_contributors_img : string)
  : list (string * pyval) :=
  [ ("timestamp", PStr (now_text host));
    ("data_period", PStr (data_period (summary data)));
    ("total_upstream_issues", PInt (total_upstream_issues (summary data)));
    ("total_upstream_prs", PInt (total_upstream_prs (summary data)));
    ("total_downstream_tasks", PInt (total_downstream_tasks (summary data)));
    ("sync_efficiency", PFloat (sync_efficiency (summary data)));
    ("activity_trends_img", PStr activity_trends_img);
    ("issue_categories_img", PStr issue_categories_img);
    ("top_contributors_img", PStr top_contributors_img);
    ("last_sync", PStr (last_sync (current_status data)));
    ("upstream_status", PStr (upstream_repo_status (current_status data)));
    ("downstream_status", PStr (downstream_repo_status (current_status data))) ].

Definition generate_html_report (host : StageHost) (data : DashboardData)
    (visualizations : Visualizations) : Stage string :=
  _ <~~ ([Stdout "Generating HTML dashboard..."], Returned tt) ;;
  activity_trends_img <~~ embed_image host visualizations "activity_trends" ;;
  issue_categories_img <~~ embed_image host visualizations "issue_categories" ;;
  top_contributors_img <~~ embed_image host visualizations "top_contributors" ;;
  ([], str_format (format_value host) (format_positional host)
         (report_kwargs host data activity_trends_img issue_categories_img
                        top_contributors_img)
         html_template).

End UpstreamMonitor.

(** A host where everything works and values are rendered by [str]. *)
Definition sample_host : StageHost := {|
  draw_chart := fun _ => Ok tt;
  read_binary := fun _ => Ok "PNG";
  b64encode := fun _ => "UE5H";
  now_text := "2024-10-04 00:00:00 UTC";
  format_value := fun v _ _ _ =>
    match v with
    | PStr s => Returned s
    | PInt n => Returned (zfill 1 (Z.of_nat n))
    | PFloat _ => Returned "0"
    end;
  format_positional := fun _ => IndexError "Replacement index out of range"
|}.

(** [w] with another file system behind the two final writes. *)
Definition with_write_file (w : World)
    (wf : string -> string -> result unit) : World := {|
  getenv_GITHUB_TOKEN := getenv_GITHUB_TOKEN w;
  connect := connect w;
  api := api w;
  today := today w;
  create_visualizations := create_visualizations w;
  generate_html_report := generate_html_report w;
  timestamp := timestamp w;
  json_dump := json_dump w;
  write_file := wf;
  summary_lines := summary_lines w
|}.

(** The name [str.format] reads for the first brace of the style sheet:
    a line feed, the indentation and the property name. *)
Definition first_css_field : string :=
  String (ascii_of_nat 10) "            font-family".

(** A host whose second chart cannot be saved. *)
Definition second_chart_fails_host : StageHost := {|
  draw_chart := fun path =>
    if String.eqb path "/tmp/issue_categories.png"
    then Raise (OSError "No space left on device") else Ok tt;
  read_binary := read_binary sample_host;
  b64encode := b64encode sample_host;
  now_text := now_text sample_host;
  format_value := format_value sample_host;
  format_positional := format_positional sample_host
|}.

(** A small dashboard, for running the stages. *)
Definition sample_data : DashboardData := {|
  summary := {| total_upstream_issues := 3; total_upstream_prs := 2;
                total_downstream_tasks := 2;
                sync_efficiency := (6667 # 100)%Q;
                data_period := "Last 30 days (2024-09-05 to 2024-10-04)" |};
  trends := {| issue_categories := [("feature", 1); ("bug", 1)];
               pr_types := [("fix", 1)];
               release_frequency := 2%Q;
               top_contributors := [("bob", 2); ("alice", 1)];
               complexity_trends := [] |};
  daily_metrics := [ {| date := "2024-10-04";
                        upstream_issues_opened := 3;
                        upstream_issues_closed := 0;
                        upstream_prs_opened := 2;
                        upstream_prs_merged := 0;
                        upstream_releases := 0;
                        downstream_tasks_created := 2;
                        downstream_tasks_completed := 0;
                        sync_activities := 0 |} ];
  current_status := {| last_sync := "Unknown"; active_monitoring := true;
                       upstream_repo_status := "Active";
                       downstream_repo_status := "Active" |}
|}.

(** A world whose report stage raises, as the script's does. *)
Definition failing_report_world (token : option string) : World := {|
  getenv_GITHUB_TOKEN := token;
  connect := connect (sample_world token);
  api := api (sample_world token);
  today := today (sample_world token);
  create_visualizations := create_visualizations (sample_world token);
  generate_html_report := fun _ _ =>
    ([Stdout "Generating HTML dashboard..."],
     Raise (OSError "report stage failed"));
  timestamp := timestamp (sample_world token);
  json_dump := json_dump (sample_world token);
  write_file := write_file (sample_world token);
  summary_lines := summary_lines (sample_world token)
|}.

(** A world whose client cannot be opened. *)
Definition no_connection_world (token : option string) : World := {|
  getenv_GITHUB_TOKEN := token;
  connect := fun _ =>
    ([Request "get_repo upstream"], Raise (GithubException "401"));
  api := api (sample_world token);
  today := today (sample_world token);
  create_visualizations := create_visualizations (sample_world token);
  generate_html_report := generate_html_report (sample_world token);
  timestamp := timestamp (sample_world token);
  json_dump := json_dump (sample_world token);
  write_file := write_file (sample_world token);
  summary_lines := summary_lines (sample_world token)
|}.

(** [s] with its braces doubled, the way a literal brace is written in a
    template of [str.format]. *)
Fixpoint escape_braces (s : string) : string :=
  match s with
  | EmptyString => EmptyString
  | String c s' =>
      if Ascii.eqb c "{" || Ascii.eqb c "}"
      then String c (String c (escape_braces s'))
      else String c (escape_braces s')
  end.

(** The pull request was merged, and on day [d]. *)
Definition merged_on_day (d : caldate) (pr : PullRequest) : bool :=
  pr_merged pr &&
  match pr_merged_at pr with
  | Some t => (date_of t =? d)%Z
  | None => false
  end.

(** Two answers that list the same items, in any order. *)
Definition same_items {A : Type} (x y : result (list A)) : Prop :=
  match x, y with
  | Ok a, Ok b => Permutation a b
  | _, _ => False
  end.

(** Two states of the service whose listings have the same items. *)
Definition same_listings (r r' : Remote) : Prop :=
  same_items (upstream_get_issues r Created) (upstream_get_issues r' Created) /\
  same_items (upstream_get_pulls r) (upstream_get_pulls r') /\
  same_items (upstream_get_releases r) (upstream_get_releases r') /\
  (forall labels s,
      same_items (downstream_get_issues r labels s)
                 (downstream_get_issues r' labels s)).

(** The sample service, listing everything oldest first. *)
Definition reversed_remote : Remote := {|
  upstream_get_issues := fun s => Ok (rev (list_issues sample_upstream [] s));
  upstream_get_pulls :=
    Ok (rev (sorted_desc pr_created_at (repo_pulls sample_upstream)));
  upstream_get_releases := Ok (rev (repo_releases sample_upstream));
  downstream_get_issues := fun labels s =>
    Ok (rev (list_issues sample_downstream labels s))
|}.

(** The paths of the three charts, in the order they are written. *)
Definition chart_paths : list string :=
  [ "/tmp/activity_trends.png"; "/tmp/issue_categories.png";
    "/tmp/top_contributors.png" ].

(** A stage of a world behaves as a modelled stage: same trace, same
    value or same failure; a built-in exception of the model stands for
    some exception of the world. *)
Definition stage_agrees {A : Type} (run : Run A) (st : Stage A) : Prop :=
  fst run = fst st /\
  match snd st with
  | Returned a => snd run = Ok a
  | Raised (Known e) => snd run = Raise e
  | Raised _ => exists e, snd run = Raise e
  end.

(* ------------------------------------------------------------------ *)
(** ** The two formulas of the specification, in binary64 *)

(** [(tasks / issues) * 100] as Python evaluates it on two integers: the
    quotient rounded to binary64, then the product rounded to binary64;
    0 when no issue was opened. *)
Definition float_sync_efficiency (tasks issues : nat) : Q :=
  if (issues =? 0)%nat then 0%Q
  else float_mul (round64 (inject_Z (Z.of_nat tasks)
                           / inject_Z (Z.of_nat issues))) 100.

(** [n / max(days / 30, 1)] as Python evaluates it on two integers:
    [days / 30] rounded to binary64; when that is 1 or more it is the
    maximum and divides [float(n)], otherwise the maximum is the integer
    1 and divides [n]; each quotient rounded to binary64. *)
Definition float_release_frequency (n : nat) (days : Z) : Q :=
  let months := round64 (inject_Z days / inject_Z 30) in
  if Qle_bool 1 months
  then round64 (float_of_int (Z.of_nat n) / months)
  else round64 (inject_Z (Z.of_nat n) / inject_Z 1).

(** The relative and absolute precision of binary64. *)
Definition eps64 : Q := pow2 (-53).
Definition eta64 : Q := pow2 (-1075).

(** The release-frequency formula as the specification words it, over
    exact rationals: [n / max(days / 30, 1)]. *)
Definition exact_release_frequency (n : nat) (days : Z) : Q :=
  (inject_Z (Z.of_nat n) / Qmax (inject_Z days / 30) 1)%Q.
(* ================================================================== *)
(** * Properties *)

(* ------------------------------------------------------------------ *)
(** ** Dates *)

Example isoformat_epoch : isoformat 0%Z = "1970-01-01T00:00:00+00:00".
Proof. reflexivity. Qed.

Example isoformat_leap_day :
  isoformat 951868799%Z = "2000-02-29T23:59:59+00:00".
Proof. vm_compute. reflexivity. Qed.

Example isoformat_new_year :
  isoformat 1735689600%Z = "2025-01-01T00:00:00+00:00".
Proof. vm_compute. reflexivity. Qed.

Example date_isoformat_before_epoch :
  date_isoformat (-1)%Z = "1969-12-31".
Proof. vm_compute. reflexivity. Qed.

(* ------------------------------------------------------------------ *)
(** ** Strings *)

Lemma append_assoc (a b c : string) : (a ++ b) ++ c = a ++ (b ++ c).
Proof. induction a as [|x a IH]; simpl; [reflexivity|now rewrite IH]. Qed.

Lemma append_empty_r (a : string) : a ++ EmptyString = a.
Proof. induction a as [|x a IH]; simpl; [reflexivity|now rewrite IH]. Qed.

Lemma startswith_spec (kw text : string) :
  startswith kw text = true <-> exists post, text = kw ++ post.
Proof.
  revert text; induction kw as [|a kw IH]; intros text; simpl.
  - split; [intros _; now exists text | reflexivity].
  - destruct text as [|b text].
    + split; [discriminate | intros [post H]; discriminate H].
    + rewrite andb_true_iff, Ascii.eqb_eq, IH. split.
      * intros [-> [post ->]]. now exists post.
      * intros [post H]. injection H as -> ->. split; [reflexivity|now exists post].
Qed.

Lemma contains_spec (kw text : string) :
  contains kw text = true <-> Substring kw text.
Proof.
  unfold Substring. induction text as [|b text IH].
  - simpl. rewrite orb_false_r, startswith_spec. split.
    + intros [post H]. now exists EmptyString, post.
    + intros [pre [post H]]. destruct pre; [now exists post | discriminate H].
  - cbn [contains]. rewrite orb_true_iff, startswith_spec, IH. split.
    + intros [[post H] | [pre [post H]]].
      * now exists EmptyString, post.
      * exists (String b pre), post. simpl. now rewrite H.
    + intros [pre [post H]]. destruct pre as [|c pre].
      * left. now exists post.
      * right. simpl in H. injection H as _ H. now exists pre, post.
Qed.

Lemma lower_app (a b : string) : lower (a ++ b) = lower a ++ lower b.
Proof. induction a as [|x a IH]; simpl; [reflexivity|now rewrite IH]. Qed.

Lemma any_in_spec (kws : list string) (text : string) :
  any_in kws text = true <-> exists kw, In kw kws /\ Substring kw text.
Proof.
  unfold any_in. rewrite existsb_exists.
  split; intros [kw [Hin H]]; exists kw; split; auto; now apply contains_spec.
Qed.

(* ------------------------------------------------------------------ *)
(** ** Classification *)

Lemma FirstMatch_functional text order c c' :
  FirstMatch text order c -> FirstMatch text order c' -> c = c'.
Proof.
  induction 1 as [|c kws rest Hm|c kws rest c1 Hn H1 IH]; inversion 1; subst;
    try reflexivity; try contradiction.
  now apply IH.
Qed.

Lemma any_in_Matches kws text : any_in kws text = true <-> Matches kws text.
Proof. apply any_in_spec. Qed.

Lemma any_in_not_Matches kws text :
  any_in kws text = false <-> ~ Matches kws text.
Proof.
  rewrite <- any_in_Matches. destruct (any_in kws text); split; congruence.
Qed.

Lemma issue_category_FirstMatch text :
  FirstMatch text issue_priority (issue_category text).
Proof.
  unfold issue_category, issue_priority.
  repeat match goal with
  | |- context [if any_in ?k text then _ else _] =>
      let E := fresh "E" in
      destruct (any_in k text) eqn:E;
      [ apply FirstMatch_here; now apply any_in_Matches
      | apply FirstMatch_later; [now apply any_in_not_Matches|] ]
  end.
  constructor.
Qed.

(** Counting with a dictionary. *)

Lemma dict_get_set_same d k v dflt : dict_get (dict_set d k v) k dflt = v.
Proof.
  induction d as [|[k' v'] d IH]; simpl.
  - now rewrite String.eqb_refl.
  - destruct (String.eqb k' k) eqn:E; simpl; rewrite E; auto.
Qed.

Lemma dict_get_set_other d k k' v dflt :
  k <> k' -> dict_get (dict_set d k v) k' dflt = dict_get d k' dflt.
Proof.
  intros Hne. induction d as [|[k0 v0] d IH]; simpl.
  - destruct (String.eqb k k') eqn:E; [apply String.eqb_eq in E; contradiction|reflexivity].
  - destruct (String.eqb k0 k) eqn:E; simpl.
    + apply String.eqb_eq in E; subst k0.
      destruct (String.eqb k k') eqn:E'; [apply String.eqb_eq in E'; contradiction|reflexivity].
    + now rewrite IH.
Qed.

Lemma dict_get_bump d k k' :
  dict_get (bump d k) k' 0 = dict_get d k' 0 + (if String.eqb k' k then 1 else 0).
Proof.
  unfold bump. destruct (String.eqb k' k) eqn:E.
  - apply String.eqb_eq in E; subst. now rewrite dict_get_set_same.
  - rewrite dict_get_set_other; [lia|].
    intros ->. now rewrite String.eqb_refl in E.
Qed.

Lemma dict_get_fold_bump ks d k :
  dict_get (fold_left bump ks d) k 0 = dict_get d k 0 + occurrences k ks.
Proof.
  unfold occurrences. revert d; induction ks as [|x ks IH]; intros d; simpl.
  - lia.
  - rewrite IH, dict_get_bump. destruct (String.eqb k x); simpl; lia.
Qed.

Lemma occurrences_map {A : Type} (f : A -> string) (l : list A) (c : string) :
  occurrences c (map f l)
  = List.length (filter (fun x => String.eqb c (f x)) l).
Proof.
  unfold occurrences. induction l as [|x l IH]; simpl; [reflexivity|].
  destruct (String.eqb c (f x)); simpl; now rewrite IH.
Qed.

(** The two loops of the analyzer, seen on each dictionary. *)

Lemma fold_scan_issue l cats contrib :
  fold_left scan_issue l (cats, contrib)
  = (fold_left bump (map (fun i => issue_category (issue_text i)) l) cats,
     fold_left bump (map issue_user_login l) contrib).
Proof.
  revert cats contrib; induction l as [|i l IH]; intros; simpl; [reflexivity|].
  unfold scan_issue at 2; simpl. now rewrite IH.
Qed.

Lemma fold_scan_pr l types contrib :
  fold_left scan_pr l (types, contrib)
  = (fold_left bump (map (fun p => pr_type (pr_text p)) l) types,
     fold_left bump (map pr_user_login l) contrib).
Proof.
  revert types contrib; induction l as [|p l IH]; intros; simpl; [reflexivity|].
  unfold scan_pr at 2; simpl. now rewrite IH.
Qed.

(** What a successful trend analysis has computed. *)
Lemma analyze_upstream_trends_Ok r t :
  analyze_upstream_trends r = Ok t ->
  exists all_issues all_prs releases,
    upstream_get_issues r Created = Ok all_issues /\
    upstream_get_pulls r = Ok all_prs /\
    upstream_get_releases r = Ok releases /\
    compute_release_frequency releases = Ok (release_frequency t) /\
    issue_categories t
      = fold_left bump
          (map (fun i => issue_category (issue_text i)) (firstn 100 all_issues)) [] /\
    pr_types t
      = fold_left bump
          (map (fun p => pr_type (pr_text p)) (firstn 100 all_prs)) [] /\
    top_contributors t
      = top_ten (fold_left bump
                   (map issue_user_login (firstn 100 all_issues)
                      ++ map pr_user_login (firstn 100 all_prs)) []).
Proof.
  unfold analyze_upstream_trends, bind.
  destruct (upstream_get_issues r Created) as [all_issues|]; [|discriminate].
  destruct (upstream_get_pulls r) as [all_prs|]; [|discriminate].
  destruct (upstream_get_releases r) as [releases|]; [|discriminate].
  destruct (compute_release_frequency releases) as [f|] eqn:Ef; [|discriminate].
  intros [= <-]. exists all_issues, all_prs, releases. cbn [release_frequency
    issue_categories pr_types top_contributors].
  rewrite !fold_scan_issue. cbn [fst snd]. rewrite !fold_scan_pr. cbn [fst snd].
  rewrite fold_left_app. repeat split; try reflexivity; assumption.
Qed.

Lemma lowered_body_lower body :
  lowered_body body
  = lower (match body with Some b => b | None => EmptyString end).
Proof.
  destruct body as [b|]; simpl; [|reflexivity].
  destruct (String.eqb b EmptyString) eqn:E; [|reflexivity].
  apply String.eqb_eq in E. now subst.
Qed.

(** C1. Issue classification is a function of the text, and it is
    first-match-wins over the order bug, feature, documentation,
    performance, with ["other"] as the fallback: the category computed for
    a text is the first category of [issue_priority] one of whose keywords
    occurs in the text; a text with a bug keyword and a feature keyword is a
    ["bug"]; the text of an issue is its title, a space and its body (empty
    when absent), lowercased; and the analyzer's tally of a category is the
    number of the 100 most recent issues with that category. *)
Theorem issue_classification_first_match_wins :
  forall (r : Remote) (t : Trends) (all_issues : list Issue),
    analyze_upstream_trends r = Ok t ->
    upstream_get_issues r Created = Ok all_issues ->
    (forall text c,
        issue_category text = c <-> FirstMatch text issue_priority c) /\
    (forall text kb kf,
        In kb ["bug"; "error"; "crash"; "fix"] ->
        In kf ["feature"; "enhancement"; "add"] ->
        Substring kb text -> Substring kf text ->
        issue_category text = "bug") /\
    (forall i,
        issue_text i
        = lower (issue_title i ++ " "
                   ++ match issue_body i with
                      | Some b => b
                      | None => EmptyString
                      end)) /\
    (forall c,
        dict_get (issue_categories t) c 0
        = List.length
            (filter (fun i => String.eqb c (issue_category (issue_text i)))
                    (firstn 100 all_issues))).
Proof.
  intros r t all_issues Ht Hissues.
  destruct (analyze_upstream_trends_Ok r t Ht)
    as (is' & prs & rels & Hi & _ & _ & _ & Hcat & _ & _).
  rewrite Hissues in Hi. injection Hi as <-.
  repeat split.
  - intros <-. apply issue_category_FirstMatch.
  - intros H. eapply FirstMatch_functional; [apply issue_category_FirstMatch|exact H].
  - intros text kb kf Hkb _ Hb _. unfold issue_category.
    replace (any_in ["bug"; "error"; "crash"; "fix"] text) with true; [reflexivity|].
    symmetry. apply any_in_spec. now exists kb.
  - intros i. unfold issue_text, classification_text.
    now rewrite !lower_app, lowered_body_lower.
  - intros c. rewrite Hcat, dict_get_fold_bump. apply occurrences_map.
Qed.

Lemma issue_classification_first_match_wins_witness :
  issue_category "crash when adding a feature " = "bug" /\
  dict_get [("feature", 1); ("bug", 1); ("documentation", 1)] "bug" 0 = 1.
Proof.
  pose proof (issue_classification_first_match_wins sample_remote _
    (list_issues sample_upstream [] Created)
    eq_refl eq_refl) as (_ & Hbug & _ & Htally).
  split.
  - apply (Hbug _ "crash" "add"); simpl; auto.
    + now exists EmptyString, " when adding a feature ".
    + now exists "crash when ", "ing a feature ".
  - exact (Htally "bug").
Defined.



(* ------------------------------------------------------------------ *)
(** ** The daily aggregator *)

Lemma filterM_pure {A : Type} (cond : A -> result bool) (p : A -> bool) l :
  (forall x, cond x = Ok (p x)) -> filterM cond l = Ok (filter p l).
Proof.
  intros H. induction l as [|x l IH]; simpl; [reflexivity|].
  rewrite H, IH. reflexivity.
Qed.

Lemma closed_on_pure d i : closed_on d i = Ok (closed_on_day d i).
Proof.
  unfold closed_on, closed_on_day. now destruct (issue_closed_at i).
Qed.

Lemma published_on_pure d rel : published_on d rel = Ok (published_on_day d rel).
Proof.
  unfold published_on, published_on_day. now destruct (rel_published_at rel).
Qed.

Lemma filter_filter {A : Type} (p q : A -> bool) l :
  filter p (filter q l) = filter (fun x => q x && p x) l.
Proof.
  induction l as [|x l IH]; simpl; [reflexivity|].
  destruct (q x); simpl; [destruct (p x)|]; now rewrite IH.
Qed.

Lemma filter_ext_eq {A : Type} (p q : A -> bool) l :
  (forall x, p x = q x) -> filter p l = filter q l.
Proof.
  intros H. induction l as [|x l IH]; simpl; [reflexivity|].
  now rewrite H, IH.
Qed.

Lemma closed_on_day_stamped d l :
  filter (closed_on_day d) l = filter (closed_on_day d) (filter has_closed_at l).
Proof.
  rewrite filter_filter. apply filter_ext_eq. intros i.
  unfold has_closed_at, closed_on_day. now destruct (issue_closed_at i).
Qed.

Lemma published_on_day_stamped d l :
  filter (published_on_day d) l
  = filter (published_on_day d) (filter has_published_at l).
Proof.
  rewrite filter_filter. apply filter_ext_eq. intros i.
  unfold has_published_at, published_on_day. now destruct (rel_published_at i).
Qed.

(** The loop over the sync labels adds one filtered length per label. *)
Lemma count_sync_activities_Ok r d labels acc n :
  count_sync_activities r d labels acc = Ok n ->
  forall answer : string -> list Issue,
    (forall label, In label labels ->
                   downstream_get_issues r [label] Updated = Ok (answer label)) ->
    n = acc + list_sum
                (map (fun label =>
                        List.length (filter (updated_on d) (answer label)))
                     labels).
Proof.
  revert acc; induction labels as [|label rest IH]; intros acc H answer Hans.
  - simpl in *. injection H as <-. lia.
  - simpl in H. rewrite (Hans label (or_introl eq_refl)) in H. simpl in H.
    rewrite (IH _ H answer); [simpl; lia|].
    intros l Hl. apply Hans. now right.
Qed.

(** What a successful daily collection has computed. *)
Lemma collect_daily_metrics_Ok r d m :
  collect_daily_metrics r d = Ok m ->
  exists upstream_issues upstream_prs merged releases downstream_issues,
    upstream_get_issues r Created = Ok upstream_issues /\
    upstream_get_pulls r = Ok upstream_prs /\
    filterM (merged_on d) upstream_prs = Ok merged /\
    upstream_get_releases r = Ok releases /\
    downstream_get_issues r ["upstream-sync"] Created = Ok downstream_issues /\
    count_sync_activities r d sync_labels 0 = Ok (sync_activities m) /\
    date m = date_isoformat d /\
    upstream_issues_opened m
      = List.length (filter (created_on d) upstream_issues) /\
    upstream_issues_closed m
      = List.length (filter (closed_on_day d) upstream_issues) /\
    upstream_prs_opened m
      = List.length (filter (pr_created_on d) upstream_prs) /\
    upstream_prs_merged m = List.length merged /\
    upstream_releases m
      = List.length (filter (published_on_day d) releases) /\
    downstream_tasks_created m
      = List.length (filter (created_on d) downstream_issues) /\
    downstream_tasks_completed m
      = List.length (filter (closed_on_day d) downstream_issues).
Proof.
  unfold collect_daily_metrics, bind.
  destruct (upstream_get_issues r Created) as [ui|]; [|discriminate].
  rewrite (filterM_pure _ _ ui (closed_on_pure d)).
  destruct (upstream_get_pulls r) as [prs|]; [|discriminate].
  destruct (filterM (merged_on d) prs) as [merged|] eqn:Emerged; [|discriminate].
  destruct (upstream_get_releases r) as [rels|]; [|discriminate].
  rewrite (filterM_pure _ _ rels (published_on_pure d)).
  destruct (downstream_get_issues r ["upstream-sync"] Created) as [di|];
    [|discriminate].
  rewrite (filterM_pure _ _ di (closed_on_pure d)).
  destruct (count_sync_activities r d sync_labels 0) as [n|] eqn:Esync;
    [|discriminate].
  intros [= <-]. exists ui, prs, merged, rels, di.
  cbn [sync_activities date upstream_issues_opened upstream_issues_closed
       upstream_prs_opened upstream_prs_merged upstream_releases
       downstream_tasks_created downstream_tasks_completed].
  repeat split; try reflexivity; assumption.
Qed.

(** C7. For every date, an issue whose [closed_at] is null is not counted
    as closed (upstream) nor as completed (downstream), and a release whose
    [published_at] is null is not counted as a release: the three counts
    are those of the items that have the timestamp and have it on that day,
    and testing an item without the timestamp yields "no" and never
    raises. *)
Theorem null_timestamps_never_counted :
  forall (r : Remote) (d : caldate) (m : ActivityMetrics)
         (upstream_issues downstream_issues : list Issue)
         (releases : list Release),
    collect_daily_metrics r d = Ok m ->
    upstream_get_issues r Created = Ok upstream_issues ->
    upstream_get_releases r = Ok releases ->
    downstream_get_issues r ["upstream-sync"] Created = Ok downstream_issues ->
    (forall i, issue_closed_at i = None -> closed_on d i = Ok false) /\
    (forall rel, rel_published_at rel = None -> published_on d rel = Ok false) /\
    (forall l, exists kept, filterM (closed_on d) l = Ok kept /\
                            Forall (fun i => issue_closed_at i <> None) kept) /\
    (forall l, exists kept, filterM (published_on d) l = Ok kept /\
                            Forall (fun x => rel_published_at x <> None) kept) /\
    upstream_issues_closed m
      = List.length (filter (closed_on_day d)
                            (filter has_closed_at upstream_issues)) /\
    downstream_tasks_completed m
      = List.length (filter (closed_on_day d)
                            (filter has_closed_at downstream_issues)) /\
    upstream_releases m
      = List.length (filter (published_on_day d)
                            (filter has_published_at releases)).
Proof.
  intros r d m ui di rels Hm Hui Hrels Hdi.
  destruct (collect_daily_metrics_Ok r d m Hm)
    as (ui' & prs & merged & rels' & di' & Eui & _ & _ & Erels & Edi & _ & _
        & _ & Hclosed & _ & _ & Hrel & _ & Hdone).
  rewrite Hui in Eui; injection Eui as <-.
  rewrite Hrels in Erels; injection Erels as <-.
  rewrite Hdi in Edi; injection Edi as <-.
  split; [|split; [|split; [|split; [|split; [|split]]]]].
  - intros i Hi. unfold closed_on. now rewrite Hi.
  - intros rel Hrel'. unfold published_on. now rewrite Hrel'.
  - intros l. exists (filter (closed_on_day d) l). split.
    + apply filterM_pure, closed_on_pure.
    + apply Forall_forall. intros i Hi. apply filter_In in Hi as [_ Hi].
      unfold closed_on_day in Hi. destruct (issue_closed_at i); congruence.
  - intros l. exists (filter (published_on_day d) l). split.
    + apply filterM_pure, published_on_pure.
    + apply Forall_forall. intros i Hi. apply filter_In in Hi as [_ Hi].
      unfold published_on_day in Hi. destruct (rel_published_at i); congruence.
  - now rewrite Hclosed, closed_on_day_stamped.
  - now rewrite Hdone, closed_on_day_stamped.
  - now rewrite Hrel, published_on_day_stamped.
Qed.

Lemma null_timestamps_never_counted_witness :
  exists m,
    collect_daily_metrics sample_remote 20000%Z = Ok m /\
    upstream_issues_closed m = 1 /\
    downstream_tasks_completed m = 1 /\
    upstream_releases m = 1.
Proof.
  eexists. split; [reflexivity|].
  destruct (null_timestamps_never_counted sample_remote 20000%Z _ _ _ _
              eq_refl eq_refl eq_refl eq_refl)
    as (_ & _ & _ & _ & Hclosed & Hdone & Hrel).
  rewrite Hclosed, Hdone, Hrel. repeat split; reflexivity.
Defined.

Lemma Permutation_filter_length {A : Type} (p : A -> bool) (a b : list A) :
  Permutation a b -> List.length (filter p a) = List.length (filter p b).
Proof.
  induction 1 as [|x a b _ IH|x y a|a b c _ IH1 _ IH2]; simpl.
  - reflexivity.
  - destruct (p x); simpl; now rewrite IH.
  - destruct (p x), (p y); reflexivity.
  - now rewrite IH1.
Qed.

(** Counting label by label is counting issue by issue, each issue as many
    times as it has labels of the list. *)
Lemma count_by_label_or_by_issue d (issues : list Issue) (labels : list string) :
  list_sum (map (fun label =>
                   List.length (filter (fun i => has_label label i && updated_on d i)
                                       issues)) labels)
  = list_sum (map (fun i =>
                     if updated_on d i
                     then List.length (filter (fun label => has_label label i) labels)
                     else 0) issues).
Proof.
  induction labels as [|label rest IH]; simpl.
  - induction issues as [|i l IHl]; simpl; [reflexivity|].
    rewrite <- IHl. now destruct (updated_on d i).
  - rewrite IH. clear IH. induction issues as [|i l IHl]; simpl; [reflexivity|].
    destruct (has_label label i), (updated_on d i); simpl; lia.
Qed.

(** C9. For every date, [sync_activities] is the sum over the three sync
    labels of the number of issues with that label updated on the date.
    The service is asked once per label and answers with the issues that
    carry the label (in any order); so an issue updated on the date is
    counted once per sync label it carries: [k] labels, [k] times. *)
Theorem sync_activities_sums_over_labels :
  forall (r : Remote) (d : caldate) (m : ActivityMetrics)
         (issues : list Issue),
    collect_daily_metrics r d = Ok m ->
    (forall label, In label sync_labels ->
       exists answer,
         downstream_get_issues r [label] Updated = Ok answer /\
         Permutation answer (filter (has_label label) issues)) ->
    sync_labels = ["upstream-sync"; "upstream-pr"; "upstream-release"] /\
    sync_activities m
    = list_sum
        (map (fun label =>
                List.length
                  (filter (fun i => has_label label i && updated_on d i) issues))
             sync_labels) /\
    sync_activities m
    = list_sum
        (map (fun i => if updated_on d i then sync_label_count i else 0) issues).
Proof.
  intros r d m issues Hm Hapi.
  destruct (collect_daily_metrics_Ok r d m Hm)
    as (_ & _ & _ & _ & _ & _ & _ & _ & _ & _ & Hsync & _).
  assert (Hsum : sync_activities m
                 = list_sum
                     (map (fun label =>
                             List.length
                               (filter (fun i => has_label label i && updated_on d i)
                                       issues))
                          sync_labels)).
  { set (answer := fun label =>
        match downstream_get_issues r [label] Updated with
        | Ok a => a
        | Raise _ => []
        end).
    rewrite (count_sync_activities_Ok r d sync_labels 0 _ Hsync answer).
    - rewrite Nat.add_0_l. f_equal. apply map_ext_in. intros label Hl.
      destruct (Hapi label Hl) as (a & Ha & Hperm).
      unfold answer. rewrite Ha.
      rewrite (Permutation_filter_length _ _ _ Hperm).
      now rewrite filter_filter.
    - intros label Hl. destruct (Hapi label Hl) as (a & Ha & _).
      unfold answer. now rewrite Ha. }
  split; [reflexivity|]. split; [exact Hsum|].
  rewrite Hsum. apply count_by_label_or_by_issue.
Qed.

Lemma sorted_desc_Permutation {A : Type} (key : A -> Z) (l : list A) :
  Permutation (sorted_desc key l) l.
Proof.
  induction l as [|x l IH]; simpl; [constructor|].
  transitivity (x :: sorted_desc key l); [|now constructor].
  clear IH. induction (sorted_desc key l) as [|y s IHs]; simpl.
  - reflexivity.
  - destruct (key y <=? key x)%Z; [reflexivity|].
    transitivity (y :: x :: s); [now constructor|constructor].
Qed.

Lemma sync_activities_sums_over_labels_witness :
  exists m,
    collect_daily_metrics sample_remote 20000%Z = Ok m /\
    sync_activities m = 2 + 1 + 0.
Proof.
  eexists. split; [reflexivity|].
  destruct (sync_activities_sums_over_labels sample_remote 20000%Z _
              (repo_issues sample_downstream) eq_refl) as (_ & _ & Hk).
  - intros label Hl. eexists. split; [reflexivity|].
    unfold list_issues. simpl forallb.
    rewrite sorted_desc_Permutation.
    erewrite filter_ext_eq; [reflexivity|].
    intros i. apply andb_true_r.
  - rewrite Hk. reflexivity.
Defined.

(* ------------------------------------------------------------------ *)
(** ** The stable descending sort *)

Section StableSortFacts.
Context {A : Type} (key : A -> Z).

Lemma insert_desc_In x y l : In y (insert_desc key x l) <-> y = x \/ In y l.
Proof.
  induction l as [|z l IH]; simpl.
  - intuition congruence.
  - destruct (key z <=? key x)%Z; simpl; [intuition congruence|].
    rewrite IH. intuition congruence.
Qed.

Lemma insert_desc_Descending x l :
  Descending key l -> Descending key (insert_desc key x l).
Proof.
  unfold Descending. induction 1 as [|y l Hl IH Hy]; simpl.
  - repeat constructor.
  - destruct (key y <=? key x)%Z eqn:E.
    + apply Z.leb_le in E. constructor; [now constructor|].
      constructor; [exact E|].
      eapply Forall_impl; [|exact Hy]. simpl. intros; lia.
    + apply Z.leb_gt in E. constructor; [exact IH|].
      apply Forall_forall. intros z Hz. apply insert_desc_In in Hz as [->|Hz].
      * lia.
      * rewrite Forall_forall in Hy. now apply Hy.
Qed.

Lemma sorted_desc_Descending l : Descending key (sorted_desc key l).
Proof.
  induction l as [|x l IH]; simpl; [constructor|].
  now apply insert_desc_Descending.
Qed.

Lemma filter_none (p : A -> bool) l :
  (forall y, In y l -> p y = false) -> filter p l = [].
Proof.
  induction l as [|y l IH]; intros H; simpl; [reflexivity|].
  rewrite (H y (or_introl eq_refl)). apply IH. intros; apply H; now right.
Qed.

(** Inserting [x] puts it in front of the elements with its key. *)
Lemma insert_desc_filter x l k :
  Descending key l ->
  filter (fun a => (key a =? k)%Z) (insert_desc key x l)
  = filter (fun a => (key a =? k)%Z) (x :: l).
Proof.
  unfold Descending. induction 1 as [|y l Hl IH Hy]; [reflexivity|].
  cbn [insert_desc]. destruct (key y <=? key x)%Z eqn:E; [reflexivity|].
  apply Z.leb_gt in E. cbn [filter]. rewrite IH. cbn [filter].
  destruct (key y =? k)%Z eqn:Ey, (key x =? k)%Z eqn:Ex; try reflexivity.
  apply Z.eqb_eq in Ey, Ex. lia.
Qed.

Lemma sorted_desc_stable l : StableWrt key l (sorted_desc key l).
Proof.
  intros k. induction l as [|x l IH]; [reflexivity|].
  cbn [sorted_desc]. rewrite insert_desc_filter by apply sorted_desc_Descending.
  cbn [filter]. now rewrite IH.
Qed.

Lemma StableWrt_In l0 l x : StableWrt key l0 l -> In x l -> In x l0.
Proof.
  intros H Hx. specialize (H (key x)).
  assert (Hin : In x (filter (fun a => (key a =? key x)%Z) l)).
  { apply filter_In. split; [exact Hx|apply Z.eqb_refl]. }
  rewrite H in Hin. now apply filter_In in Hin.
Qed.

(** A descending, stable rearrangement is unique: whatever stable sort is
    used, the result is that of [sorted_desc]. *)
Lemma stable_sort_unique l1 l2 :
  Descending key l1 -> Descending key l2 -> StableWrt key l1 l2 -> l1 = l2.
Proof.
  unfold Descending. intros H1; revert l2.
  induction H1 as [|x l1 Hl1 IH Hx]; intros l2 H2 Hst.
  - destruct l2 as [|y l2]; [reflexivity|].
    specialize (Hst (key y)). simpl in Hst. rewrite Z.eqb_refl in Hst.
    discriminate.
  - destruct H2 as [|y l2 Hl2 Hy].
    + specialize (Hst (key x)). simpl in Hst. rewrite Z.eqb_refl in Hst.
      discriminate.
    + assert (Hxy : key x = key y).
      { assert (In y (x :: l1)) as [<-|Hin]
          by (apply (StableWrt_In _ (y :: l2)); [exact Hst|now left]);
          [reflexivity|].
        assert (In x (y :: l2)) as [->|Hin'].
        { apply (StableWrt_In (y :: l2) (x :: l1)); [|now left].
          intros k. symmetry. apply Hst. }
        - reflexivity.
        - rewrite Forall_forall in Hx, Hy.
          specialize (Hx _ Hin). specialize (Hy _ Hin'). lia. }
      assert (x = y).
      { specialize (Hst (key x)). simpl in Hst.
        rewrite <- Hxy, Z.eqb_refl in Hst. congruence. }
      subst y. f_equal. apply IH; [exact Hl2|].
      intros k. specialize (Hst k). simpl in Hst.
      destruct (key x =? k)%Z; congruence.
Qed.

Lemma sorted_desc_is_the_stable_sort l s :
  Descending key s -> StableWrt key l s -> s = sorted_desc key l.
Proof.
  intros Hs Hst. symmetry. apply stable_sort_unique.
  - apply sorted_desc_Descending.
  - exact Hs.
  - intros k. rewrite Hst. symmetry. apply sorted_desc_stable.
Qed.

Lemma firstn_In n (l : list A) x : In x (firstn n l) -> In x l.
Proof.
  intros H. rewrite <- (firstn_skipn n l). apply in_or_app. now left.
Qed.

Lemma Descending_firstn n l : Descending key l -> Descending key (firstn n l).
Proof.
  unfold Descending. intros H; revert n.
  induction H as [|x l Hl IH Hx]; intros [|n]; simpl; try constructor.
  - apply IH.
  - apply Forall_forall. intros y Hy. rewrite Forall_forall in Hx.
    apply Hx. eapply firstn_In; eauto.
Qed.

End StableSortFacts.

(* ------------------------------------------------------------------ *)
(** ** Dictionaries keep one entry per key *)

Lemma keys_dict_set d k v k' :
  In k' (keys (dict_set d k v)) <-> k' = k \/ In k' (keys d).
Proof.
  unfold keys. induction d as [|[k0 v0] d IH]; simpl.
  - intuition congruence.
  - destruct (String.eqb k0 k) eqn:E; simpl.
    + apply String.eqb_eq in E; subst. intuition congruence.
    + rewrite IH. intuition congruence.
Qed.

Lemma dict_set_fresh d k v :
  ~ In k (keys d) -> dict_set d k v = (d ++ [(k, v)])%list.
Proof.
  unfold keys. induction d as [|[k0 v0] d IH]; simpl; intros H; [reflexivity|].
  destruct (String.eqb k0 k) eqn:E.
  - apply String.eqb_eq in E. tauto.
  - rewrite IH; tauto.
Qed.

Lemma NoDup_keys_dict_set d k v :
  NoDup (keys d) -> NoDup (keys (dict_set d k v)).
Proof.
  unfold keys. induction d as [|[k0 v0] d IH]; simpl; intros H.
  - repeat constructor. intros [].
  - inversion H as [|? ? Hnin Hnd]; subst.
    destruct (String.eqb k0 k) eqn:E; simpl.
    + now constructor.
    + constructor; [|now apply IH].
      intros Hin. apply keys_dict_set in Hin as [->|Hin]; [|contradiction].
      now rewrite String.eqb_refl in E.
Qed.

Lemma NoDup_keys_fold_bump ks d :
  NoDup (keys d) -> NoDup (keys (fold_left bump ks d)).
Proof.
  revert d; induction ks as [|k ks IH]; intros d H; simpl; [exact H|].
  apply IH. now apply NoDup_keys_dict_set.
Qed.

Lemma dict_get_In d k v dflt :
  NoDup (keys d) -> In (k, v) d -> dict_get d k dflt = v.
Proof.
  unfold keys. induction d as [|[k0 v0] d IH]; simpl; intros Hnd Hin; [tauto|].
  inversion Hnd as [|? ? Hnin Hnd']; subst.
  destruct Hin as [[= -> ->]|Hin].
  - now rewrite String.eqb_refl.
  - destruct (String.eqb k0 k) eqn:E; [|now apply IH].
    apply String.eqb_eq in E; subst. exfalso. apply Hnin.
    change k with (fst (k, v)). now apply in_map.
Qed.

(** Building a dictionary from pairs with distinct keys keeps the pairs
    and their order. *)
Lemma fold_dict_set_distinct (items d : dict) :
  NoDup (keys (d ++ items)%list) ->
  fold_left (fun d kv => dict_set d (fst kv) (snd kv)) items d
  = (d ++ items)%list.
Proof.
  revert d; induction items as [|[k v] items IH]; intros d H; simpl.
  - now rewrite app_nil_r.
  - assert (Hfresh : ~ In k (keys d)).
    { unfold keys in *. rewrite map_app in H. simpl in H.
      apply NoDup_remove_2 in H. intros Hin. apply H. apply in_or_app. now left. }
    rewrite dict_set_fresh by exact Hfresh.
    rewrite IH; rewrite <- app_assoc; simpl; [reflexivity|exact H].
Qed.

Lemma dict_of_items_distinct items :
  NoDup (keys items) -> dict_of_items items = items.
Proof. intros H. unfold dict_of_items. now rewrite fold_dict_set_distinct. Qed.

Lemma NoDup_firstn {A : Type} n (l : list A) : NoDup l -> NoDup (firstn n l).
Proof.
  intros H. rewrite <- (firstn_skipn n l) in H.
  now apply NoDup_app_remove_r in H.
Qed.

Lemma NoDup_keys_sorted_desc (d : dict) :
  NoDup (keys d) -> NoDup (keys (sorted_desc count_key d)).
Proof.
  intros H. unfold keys. eapply Permutation_NoDup; [|exact H].
  apply Permutation_map. symmetry. apply sorted_desc_Permutation.
Qed.

Lemma top_ten_eq (d : dict) :
  NoDup (keys d) -> top_ten d = firstn 10 (sorted_desc count_key d).
Proof.
  intros H. unfold top_ten. apply dict_of_items_distinct.
  unfold keys. rewrite <- firstn_map. apply NoDup_firstn.
  now apply NoDup_keys_sorted_desc.
Qed.

(* ------------------------------------------------------------------ *)
(** ** The contributor ranking *)

Lemma StronglySorted_app_order {A : Type} (R : A -> A -> Prop) l1 l2 :
  StronglySorted R (l1 ++ l2) ->
  forall x y, In x l1 -> In y l2 -> R x y.
Proof.
  induction l1 as [|a l1 IH]; simpl; intros H x y Hx Hy; [tauto|].
  inversion H as [|? ? Hs Hall]; subst. destruct Hx as [->|Hx].
  - rewrite Forall_forall in Hall. apply Hall. apply in_or_app. now right.
  - now apply IH.
Qed.

(** C4. The final contributor mapping has at most 10 entries, no
    contributor twice, counts in descending order, and contributors with
    equal counts in the order in which the tally first met them (for each
    count, the ranked entries with that count are an initial part of the
    tally's entries with that count).  Each entry carries the number of
    recent issues and pull requests of its author, and no entry left out
    has a larger count than an entry kept. *)
Theorem top_contributors_ranking :
  forall (r : Remote) (t : Trends)
         (all_issues : list Issue) (all_prs : list PullRequest),
    analyze_upstream_trends r = Ok t ->
    upstream_get_issues r Created = Ok all_issues ->
    upstream_get_pulls r = Ok all_prs ->
    let tally := contributor_tally all_issues all_prs in
    let top := top_contributors t in
    List.length top <= 10 /\
    NoDup (keys top) /\
    Descending count_key top /\
    (forall c, exists rest, with_count c tally = (with_count c top ++ rest)%list) /\
    (forall a c, In (a, c) top ->
                 c = occurrences a (recent_authors all_issues all_prs)) /\
    (forall kept dropped, In kept top -> In dropped tally -> ~ In dropped top ->
                          snd dropped <= snd kept).
Proof.
  intros r t all_issues all_prs Ht Hi Hp tally top.
  destruct (analyze_upstream_trends_Ok r t Ht)
    as (is' & prs' & rels & Ei & Ep & _ & _ & _ & _ & Htop).
  rewrite Hi in Ei; injection Ei as <-. rewrite Hp in Ep; injection Ep as <-.
  fold (recent_authors all_issues all_prs) in Htop.
  fold (contributor_tally all_issues all_prs) in Htop. fold tally in Htop.
  assert (Hnd : NoDup (keys tally)).
  { apply NoDup_keys_fold_bump. constructor. }
  rewrite (top_ten_eq _ Hnd) in Htop. subst top. rewrite Htop.
  pose proof (sorted_desc_Descending count_key tally) as Hdesc.
  pose proof (sorted_desc_Permutation count_key tally) as Hperm.
  split; [apply firstn_le_length|].
  split.
  { unfold keys. rewrite <- firstn_map. apply NoDup_firstn.
    now apply NoDup_keys_sorted_desc. }
  split; [now apply Descending_firstn|].
  split.
  { intros c. exists (with_count c (skipn 10 (sorted_desc count_key tally))).
    unfold with_count. rewrite <- filter_app, firstn_skipn.
    symmetry. apply sorted_desc_stable. }
  split.
  { intros a c Hin. apply firstn_In in Hin.
    apply (Permutation_in _ Hperm) in Hin.
    rewrite <- (dict_get_In tally a c 0 Hnd Hin).
    unfold tally, contributor_tally. now rewrite dict_get_fold_bump. }
  intros kept dropped Hk Hd Hnot.
  apply (Permutation_in _ (Permutation_sym Hperm)) in Hd.
  rewrite <- (firstn_skipn 10 (sorted_desc count_key tally)) in Hd, Hdesc.
  apply in_app_or in Hd as [Hd|Hd]; [contradiction|].
  pose proof (StronglySorted_app_order _ _ _ Hdesc kept dropped Hk Hd) as H.
  unfold count_key in H. lia.
Qed.

Lemma top_contributors_ranking_witness :
  exists t,
    analyze_upstream_trends sample_remote = Ok t /\
    top_contributors t = [("bob", 2); ("carol", 2); ("alice", 1)] /\
    List.length (top_contributors t) <= 10 /\
    NoDup (keys (top_contributors t)).
Proof.
  eexists. split; [reflexivity|]. split; [reflexivity|].
  destruct (top_contributors_ranking sample_remote _ _ _
              eq_refl eq_refl eq_refl) as (Hlen & Hnd & _).
  split; assumption.
Defined.

(** Twelve authors, two of them tied at the cut: the first ten by count
    stay, in tally order among equals. *)
Example top_ten_truncates :
  top_ten [("a", 1); ("b", 3); ("c", 1); ("d", 2); ("e", 1); ("f", 1);
           ("g", 3); ("h", 1); ("i", 1); ("j", 1); ("k", 1); ("l", 2)]
  = [("b", 3); ("g", 3); ("d", 2); ("l", 2); ("a", 1); ("c", 1);
     ("e", 1); ("f", 1); ("h", 1); ("i", 1)].
Proof. reflexivity. Qed.

(* ------------------------------------------------------------------ *)
(** ** Binary64 arithmetic *)

(** Rounding to the nearest integer moves a number by a half at most. *)
Lemma round_half_even_close (x : Q) :
  (Qabs (inject_Z (round_half_even x) - x) <= 1 # 2)%Q.
Proof.
  unfold round_half_even.
  pose proof (Qfloor_le x) as Hlo. pose proof (Qlt_floor x) as Hhi.
  rewrite inject_Z_plus in Hhi. change (inject_Z 1) with 1%Q in Hhi.
  set (f := inject_Z (Qfloor x)) in *.
  assert (Hcase : forall z : Z,
             (inject_Z z == f \/ inject_Z z == f + 1)%Q ->
             ((inject_Z z == f -> x - f <= 1 # 2) ->
              (inject_Z z == f + 1 -> 1 # 2 <= x - f) ->
              Qabs (inject_Z z - x) <= 1 # 2)%Q).
  { intros z [Hz|Hz] H1 H2; apply Qabs_Qle_condition; rewrite Hz.
    - specialize (H1 Hz). split; lra.
    - specialize (H2 Hz). split; lra. }
  destruct (x - f ?= 1 # 2)%Q eqn:E.
  - apply Qeq_alt in E.
    destruct (Z.even (Qfloor x)); apply Hcase;
      try (left; reflexivity);
      try (right; rewrite inject_Z_plus; reflexivity);
      intros _; rewrite E; apply Qle_refl.
  - apply Qlt_alt in E. apply Hcase; [left; reflexivity| |].
    + intros _. now apply Qlt_le_weak.
    + unfold f. intros H. lra.
  - apply Qgt_alt in E. apply Hcase.
    + right. rewrite inject_Z_plus. reflexivity.
    + rewrite inject_Z_plus. fold f. change (inject_Z 1) with 1%Q. intros H. lra.
    + intros _. now apply Qlt_le_weak.
Qed.

Lemma round2_close (x : Q) : (Qabs (round2 x - x) <= 1 # 200)%Q.
Proof.
  unfold round2. pose proof (round_half_even_close (x * 100)) as H.
  apply Qabs_Qle_condition in H. apply Qabs_Qle_condition.
  set (n := inject_Z (round_half_even (x * 100))) in *.
  unfold Qdiv. change (/ 100)%Q with (1 # 100)%Q.
  destruct H as [H1 H2]. split; lra.
Qed.

Example round2_third : (round2 (100 # 3) == 3333 # 100)%Q.
Proof. reflexivity. Qed.

Example round2_tie_to_even : (round2 (1 # 8) == 12 # 100)%Q.
Proof. reflexivity. Qed.

Lemma pow2_pos z : (0 < pow2 z)%Q.
Proof. unfold pow2. apply Qpower_0_lt. reflexivity. Qed.

Lemma pow2_sub a b : (pow2 (a - b) == pow2 a / pow2 b)%Q.
Proof. unfold pow2. apply Qpower_minus. discriminate. Qed.

Lemma pow2_inject z : (0 <= z)%Z -> (pow2 z == inject_Z (2 ^ z))%Q.
Proof. intros H. unfold pow2. now rewrite Zpower_Qpower. Qed.

Lemma Q_num_den (q : Q) : (q * inject_Z (Zpos (Qden q)) == inject_Z (Qnum q))%Q.
Proof.
  destruct q as [n d]. unfold Qeq, Qmult, inject_Z. simpl. 
  rewrite Z.mul_1_r, Pos.mul_1_r. reflexivity.
Qed.

(** [floor_log2] does not overshoot. *)
Lemma floor_log2_le (q : Q) : (0 < q)%Q -> (pow2 (floor_log2 q) <= q)%Q.
Proof.
  intros Hq. unfold floor_log2.
  set (a := Z.log2 (Qnum q)). set (b := Z.log2 (Zpos (Qden q))).
  destruct (Qle_bool (pow2 (a - b)) q) eqn:E; [now apply Qle_bool_iff|].
  assert (Hn : (0 < Qnum q)%Z).
  { destruct q as [n d]. unfold Qlt in Hq. simpl in *. lia. }
  replace (a - b - 1)%Z with (a - (b + 1))%Z by lia.
  rewrite pow2_sub.
  assert (Ha : (0 <= a)%Z) by apply Z.log2_nonneg.
  assert (Hb : (0 <= b)%Z) by apply Z.log2_nonneg.
  rewrite (pow2_inject a Ha), (pow2_inject (b + 1)) by lia.
  assert (HA : (inject_Z (2 ^ a) <= inject_Z (Qnum q))%Q).
  { rewrite <- Zle_Qle. apply Z.log2_spec. exact Hn. }
  assert (HB : (inject_Z (Zpos (Qden q)) <= inject_Z (2 ^ (b + 1)))%Q).
  { rewrite <- Zle_Qle. apply Z.lt_le_incl.
    replace (b + 1)%Z with (Z.succ b) by lia. apply Z.log2_spec. reflexivity. }
  assert (HD : (0 < inject_Z (Zpos (Qden q)))%Q).
  { change 0%Q with (inject_Z 0). rewrite <- Zlt_Qlt. reflexivity. }
  pose proof (Q_num_den q) as Hq'.
  set (A := inject_Z (2 ^ a)) in *. set (B := inject_Z (2 ^ (b + 1))) in *.
  set (N := inject_Z (Qnum q)) in *. set (D := inject_Z (Zpos (Qden q))) in *.
  apply Qle_shift_div_r; [lra|]. nra.
Qed.

Lemma pow2_m52 : (pow2 52 == inject_Z (2 ^ 52))%Q.
Proof. apply pow2_inject. lia. Qed.

Lemma ulp_bound (q : Q) :
  ~ (q == 0)%Q ->
  (pow2 (ulp_exp q) * (1 # 2) <= Qabs q * eps64 + eta64)%Q.
Proof.
  intros Hq. unfold ulp_exp.
  assert (Hpos : (0 < Qabs q)%Q).
  { destruct (Q_dec q 0) as [[H|H]|H]; [| |contradiction].
    - rewrite Qabs_neg by lra. lra.
    - rewrite Qabs_pos by lra. lra. }
  pose proof (floor_log2_le _ Hpos) as Hfl.
  set (fl := floor_log2 (Qabs q)) in *.
  assert (Heta : (0 < eta64)%Q) by reflexivity.
  assert (Heps : (0 < eps64)%Q) by reflexivity.
  destruct (Z.max_spec (fl - 52) (-1074)) as [[_ ->]|[_ ->]].
  - assert (H : (pow2 (-1074) * (1 # 2) == eta64)%Q) by (vm_compute; reflexivity).
    rewrite H. nra.
  - rewrite pow2_sub, pow2_m52.
    assert (H : (pow2 fl / inject_Z (2 ^ 52) * (1 # 2) == pow2 fl * eps64)%Q).
    { unfold Qdiv. rewrite <- Qmult_assoc. apply Qmult_comp; [reflexivity|].
      vm_compute. reflexivity. }
    rewrite H. nra.
Qed.

(** Rounding to binary64 moves a number by half a unit in the last place
    at most. *)
Lemma round64_close (q : Q) :
  (Qabs (round64 q - q) <= Qabs q * eps64 + eta64)%Q.
Proof.
  unfold round64. pose proof (Qred_correct q) as Hr.
  destruct (Qeq_bool (Qred q) 0) eqn:E.
  - apply Qeq_bool_iff in E. rewrite E in Hr. rewrite <- Hr.
    vm_compute. discriminate.
  - assert (Hq : ~ (Qred q == 0)%Q).
    { intros H. apply Qeq_bool_iff in H. congruence. }
    pose proof (ulp_bound _ Hq) as Hu.
    pose proof (pow2_pos (ulp_exp (Qred q))) as Hpos.
    set (u := pow2 (ulp_exp (Qred q))) in *.
    pose proof (round_half_even_close (Qred q / u)) as Hc.
    set (m := inject_Z (round_half_even (Qred q / u))) in *.
    rewrite Qred_correct. rewrite Hr in Hu. 
    apply Qabs_Qle_condition in Hc. destruct Hc as [H1 H2].
    assert (Hdiv : (Qred q / u * u == q)%Q).
    { rewrite <- Hr at 2. field. lra. }
    set (y := (Qred q / u)%Q) in *.
    apply Qabs_Qle_condition. split; nra.
Qed.

Lemma round64_comp q q' : (q == q')%Q -> round64 q = round64 q'.
Proof. intros H. unfold round64. now rewrite (Qred_complete _ _ H). Qed.

Lemma round_half_even_int x k :
  (x == inject_Z k)%Q -> round_half_even x = k.
Proof.
  intros H. unfold round_half_even.
  assert (Hf : Qfloor x = k) by (rewrite H; apply Qfloor_Z).
  rewrite Hf.
  assert (Hc : (x - inject_Z k ?= 1 # 2)%Q = Lt).
  { apply Qlt_alt.
    assert (H0 : (x - inject_Z k == 0)%Q) by (rewrite H; ring).
    rewrite H0. reflexivity. }
  now rewrite Hc.
Qed.

Lemma floor_log2_int z :
  (0 < z)%Z -> floor_log2 (inject_Z z) = Z.log2 z.
Proof.
  intros Hz. unfold floor_log2. simpl Qnum. simpl Qden.
  change (Z.log2 1) with 0%Z. rewrite Z.sub_0_r.
  replace (Qle_bool (pow2 (Z.log2 z)) (inject_Z z)) with true; [reflexivity|].
  symmetry. apply Qle_bool_iff.
  rewrite pow2_inject by apply Z.log2_nonneg.
  rewrite <- Zle_Qle. now apply Z.log2_spec.
Qed.

(** An integer below [2 ** 53] in absolute value is a binary64 number. *)
Lemma float_of_int_exact z :
  (Z.abs z < 2 ^ 53)%Z -> (float_of_int z == inject_Z z)%Q.
Proof.
  intros Hz. unfold float_of_int, round64.
  assert (Hred : Qred (inject_Z z) = inject_Z z).
  { apply Qcanon.Qred_identity. simpl. apply Z.gcd_1_r. }
  rewrite Hred.
  destruct (Qeq_bool (inject_Z z) 0) eqn:E.
  - apply Qeq_bool_iff in E. now rewrite E.
  - assert (Hnz : z <> 0%Z).
    { intros ->. discriminate E. }
    rewrite Qred_correct. unfold ulp_exp.
    assert (Habs : Qabs (inject_Z z) = inject_Z (Z.abs z)) by reflexivity.
    rewrite Habs, floor_log2_int by lia.
    assert (Hlog : (0 <= Z.log2 (Z.abs z) <= 52)%Z).
    { split; [apply Z.log2_nonneg|].
      assert (Z.log2 (Z.abs z) < 53)%Z; [|lia].
      apply Z.log2_lt_pow2; lia. }
    set (fl := Z.log2 (Z.abs z)) in *.
    rewrite Z.max_l by lia.
    assert (Hu : (pow2 (fl - 52) * inject_Z (2 ^ (52 - fl)) == 1)%Q).
    { rewrite <- pow2_inject by lia. unfold pow2.
      rewrite <- Qpower_plus by discriminate.
      replace (fl - 52 + (52 - fl))%Z with 0%Z by lia. reflexivity. }
    pose proof (pow2_pos (fl - 52)) as Hpos.
    set (u := pow2 (fl - 52)) in *.
    rewrite (round_half_even_int _ (z * 2 ^ (52 - fl))).
    + rewrite inject_Z_mult. set (c := inject_Z (2 ^ (52 - fl))) in *.
      set (y := inject_Z z). rewrite <- Qmult_assoc, (Qmult_comm c u), Hu. ring.
    + rewrite inject_Z_mult. set (c := inject_Z (2 ^ (52 - fl))) in *.
      set (y := inject_Z z). apply Qeq_sym.
      transitivity (y * (u * c) / u)%Q; [field; lra|].
      rewrite Hu. field. lra.
Qed.

Lemma eps64_value : (eps64 == 1 # 9007199254740992)%Q.
Proof. vm_compute. reflexivity. Qed.

Lemma eta64_small : (0 < eta64 /\ eta64 <= 1 # 1152921504606846976)%Q.
Proof. split; vm_compute; reflexivity || discriminate. Qed.

(** Fewer than 30 days give less than one month, also after rounding. *)
Lemma months_below_one days :
  (days < 30)%Z -> Qle_bool 1 (round64 (inject_Z days / inject_Z 30)) = false.
Proof.
  intros Hd.
  destruct (Qle_bool 1 (round64 (inject_Z days / inject_Z 30))) eqn:E;
    [|reflexivity].
  apply Qle_bool_iff in E. exfalso.
  pose proof (round64_close (inject_Z days / inject_Z 30)) as Hc.
  fold eps64 in Hc. fold eta64 in Hc.
  rewrite eps64_value in Hc. destruct eta64_small as [He0 He1].
  set (q := (inject_Z days / inject_Z 30)%Q) in *.
  assert (Hq : (q <= 29 # 30)%Q).
  { unfold q. apply Qle_shift_div_r; [reflexivity|].
    assert (inject_Z days <= inject_Z 29)%Q by (rewrite <- Zle_Qle; lia).
    change (inject_Z 29) with 29%Q in H. change (inject_Z 30) with 30%Q. lra. }
  apply Qabs_Qle_condition in Hc. destruct Hc as [_ Hc].
  destruct (Qlt_le_dec q 0) as [Hneg|Hpos].
  - rewrite Qabs_neg in Hc by lra. lra.
  - rewrite Qabs_pos in Hc by lra. lra.
Qed.

(** The model on a few numbers Python prints: [0.1], [2 / 3 * 100],
    [float(2 ** 53 + 1)] and [float(2 ** 53 + 3)] (ties go to the even
    neighbour), [100 / 30], [3 / (100 / 30)], and [round(2.675, 2)],
    which is 2.67 since the binary64 number [2.675] lies below the
    decimal. *)
Example round64_tenth :
  round64 (1 # 10) = (3602879701896397 # 36028797018963968)%Q.
Proof. vm_compute. reflexivity. Qed.

Example float_two_thirds_percent :
  float_sync_efficiency 2 3 = (2345624805922133 # 35184372088832)%Q /\
  py_round2 (float_sync_efficiency 2 3)
  = (4691484174324859 # 70368744177664)%Q.
Proof. split; vm_compute; reflexivity. Qed.

Example float_of_int_ties_to_even :
  float_of_int (2 ^ 53 + 1) = 9007199254740992%Q /\
  float_of_int (2 ^ 53 + 3) = 9007199254740996%Q.
Proof. split; vm_compute; reflexivity. Qed.

Example float_hundred_days :
  int_truediv 100 30 = Ok (7505999378950827 # 2251799813685248)%Q /\
  float_release_frequency 3 100
  = (2026619832316723 # 2251799813685248)%Q.
Proof. split; vm_compute; reflexivity. Qed.

Example py_round2_below_a_tie :
  py_round2 (round64 (2675 # 1000))
  = (1503076375634903 # 562949953421312)%Q /\
  py_round2 (1 # 8) = round64 (12 # 100).
Proof. split; vm_compute; reflexivity. Qed.

(** The same, with the precision as numbers: a relative error of
    [2 ** -53] and an absolute one of [2 ** -60]. *)
Lemma round64_bounds (q : Q) :
  (Qabs (round64 q - q)
   <= Qabs q * (1 # 9007199254740992) + (1 # 1152921504606846976))%Q.
Proof.
  pose proof (round64_close q) as H. rewrite eps64_value in H.
  destruct eta64_small as [_ He]. lra.
Qed.

Ltac split_abs H :=
  apply Qabs_Qle_condition in H;
  match type of H with
  | context [Qabs ?q] =>
      destruct (Qlt_le_dec q 0);
      [rewrite (Qabs_neg q) in H by lra | rewrite (Qabs_pos q) in H by lra]
  end.

Lemma pow2_m50 : (pow2 (-50) == 1 # 1125899906842624)%Q.
Proof. vm_compute. reflexivity. Qed.

Lemma float_sync_efficiency_close tasks issues :
  (Qabs (py_round2 (float_sync_efficiency tasks issues)
         - exact_sync_efficiency tasks issues)
   <= (1 # 200) + (exact_sync_efficiency tasks issues + 1) * pow2 (-50))%Q.
Proof.
  rewrite pow2_m50.
  unfold py_round2, float_sync_efficiency, exact_sync_efficiency, float_mul.
  destruct (issues =? 0)%nat eqn:E.
  - vm_compute. discriminate.
  - apply Nat.eqb_neq in E.
    assert (Hx : (0 <= inject_Z (Z.of_nat tasks) / inject_Z (Z.of_nat issues))%Q).
    { apply Qle_shift_div_l.
      - change 0%Q with (inject_Z 0). rewrite <- Zlt_Qlt. lia.
      - rewrite Qmult_0_l. change 0%Q with (inject_Z 0). rewrite <- Zle_Qle. lia. }
    set (x := (inject_Z (Z.of_nat tasks) / inject_Z (Z.of_nat issues))%Q) in *.
    pose proof (round64_bounds x) as H1.
    set (r1 := round64 x) in *.
    pose proof (round64_bounds (r1 * 100)) as H2.
    set (r2 := round64 (r1 * 100)) in *.
    pose proof (round2_close r2) as H3.
    set (r3 := round2 r2) in *.
    pose proof (round64_bounds r3) as H4.
    set (r4 := round64 r3) in *.
    apply Qabs_Qle_condition in H3.
    split_abs H1; split_abs H2; split_abs H4;
      apply Qabs_Qle_condition; split; lra.
Qed.

Lemma pow2_ge_1 z : (0 <= z)%Z -> (1 <= pow2 z)%Q.
Proof.
  intros H. rewrite pow2_inject by exact H. change 1%Q with (inject_Z 1).
  rewrite <- Zle_Qle. assert (0 < 2 ^ z)%Z by (apply Z.pow_pos_nonneg; lia). lia.
Qed.

Lemma floor_log2_nonneg (q : Q) : (1 <= q)%Q -> (0 <= floor_log2 q)%Z.
Proof.
  intros Hq. unfold floor_log2.
  assert (Hnd : (Zpos (Qden q) <= Qnum q)%Z).
  { destruct q as [n d]. unfold Qle in Hq. simpl in *. lia. }
  assert (He : (0 <= Z.log2 (Qnum q) - Z.log2 (Zpos (Qden q)))%Z).
  { pose proof (Z.log2_le_mono _ _ Hnd). lia. }
  set (e0 := (Z.log2 (Qnum q) - Z.log2 (Zpos (Qden q)))%Z) in *.
  destruct (Qle_bool (pow2 e0) q) eqn:E; [exact He|].
  assert (e0 <> 0)%Z; [|lia].
  intros H0. rewrite H0 in E.
  assert (Qle_bool (pow2 0) q = true) by (apply Qle_bool_iff; exact Hq).
  congruence.
Qed.

Lemma round_half_even_ge_floor x : (Qfloor x <= round_half_even x)%Z.
Proof.
  unfold round_half_even.
  destruct (x - inject_Z (Qfloor x) ?= 1 # 2)%Q; [destruct (Z.even _)| |]; lia.
Qed.

Lemma Qabs_nonneg_eq (q : Q) : (0 <= q)%Q -> Qabs q = q.
Proof.
  destruct q as [n d]. unfold Qle, Qabs. simpl. intros H.
  rewrite Z.abs_eq by lia. reflexivity.
Qed.

(** Rounding does not take a number from 1 or above to below 1. *)
Lemma round64_ge_1 (q : Q) : (1 <= q)%Q -> (1 <= round64 q)%Q.
Proof.
  intros Hq. unfold round64. pose proof (Qred_correct q) as Hr.
  destruct (Qeq_bool (Qred q) 0) eqn:E.
  { apply Qeq_bool_iff in E. rewrite E in Hr. lra. }
  rewrite Qred_correct.
  assert (Hq' : (1 <= Qred q)%Q) by lra.
  unfold ulp_exp. rewrite (Qabs_nonneg_eq (Qred q)) by lra.
  set (p := Qred q) in *.
  pose proof (floor_log2_nonneg p Hq') as Hfl.
  assert (Hle : (pow2 (floor_log2 p) <= p)%Q) by (apply floor_log2_le; lra).
  set (fl := floor_log2 p) in *.
  rewrite Z.max_l by lia.
  pose proof (pow2_pos (fl - 52)) as Hu.
  assert (Hk : (pow2 fl == inject_Z (2 ^ 52) * pow2 (fl - 52))%Q).
  { rewrite pow2_sub, pow2_m52. field.
    change 0%Q with (inject_Z 0). rewrite inject_Z_injective. discriminate. }
  pose proof (pow2_ge_1 fl Hfl) as H1.
  set (u := pow2 (fl - 52)) in *.
  assert (Hy : (inject_Z (2 ^ 52) <= p / u)%Q).
  { apply Qle_shift_div_l; [exact Hu|]. lra. }
  assert (Hf : (2 ^ 52 <= round_half_even (p / u))%Z).
  { pose proof (round_half_even_ge_floor (p / u)).
    pose proof (Qfloor_resp_le _ _ Hy) as Hfloor. rewrite Qfloor_Z in Hfloor. lia. }
  rewrite Zle_Qle in Hf.
  set (m := inject_Z (round_half_even (p / u))) in *.
  set (K := inject_Z (2 ^ 52)) in *.
  nra.
Qed.

Lemma pow2_m1074 : (pow2 (-1074) == 2 * eta64)%Q.
Proof. vm_compute. reflexivity. Qed.

Lemma float_release_frequency_short n days :
  (Z.of_nat n < 2 ^ 53)%Z -> (days <= 30)%Z ->
  (float_release_frequency n days == inject_Z (Z.of_nat n))%Q.
Proof.
  intros Hn Hd. unfold float_release_frequency.
  assert (Hexact : (float_of_int (Z.of_nat n) == inject_Z (Z.of_nat n))%Q)
    by (apply float_of_int_exact; lia).
  destruct (Z.eq_dec days 30) as [->|Hne].
  - replace (round64 (inject_Z 30 / inject_Z 30)) with 1%Q
      by (vm_compute; reflexivity).
    change (Qle_bool 1 1) with true. cbv iota.
    rewrite (round64_comp _ (inject_Z (Z.of_nat n)));
      [exact Hexact | rewrite Hexact; field].
  - rewrite months_below_one by lia.
    rewrite (round64_comp _ (inject_Z (Z.of_nat n)));
      [exact Hexact | field].
Qed.

Lemma float_release_frequency_long n days :
  (Z.of_nat n < 2 ^ 53)%Z -> (30 <= days)%Z ->
  (Qabs (float_release_frequency n days
         - inject_Z (Z.of_nat n) / (inject_Z days / 30))
   <= inject_Z (Z.of_nat n) / (inject_Z days / 30) * pow2 (-50)
      + pow2 (-1074))%Q.
Proof.
  intros Hn Hd. unfold float_release_frequency.
  assert (Hexact : (float_of_int (Z.of_nat n) == inject_Z (Z.of_nat n))%Q)
    by (apply float_of_int_exact; lia).
  assert (HN : (0 <= inject_Z (Z.of_nat n))%Q).
  { change 0%Q with (inject_Z 0). rewrite <- Zle_Qle. lia. }
  assert (Hq : (1 <= inject_Z days / 30)%Q).
  { apply Qle_shift_div_l; [reflexivity|].
    change (1 * 30)%Q with (inject_Z 30). rewrite <- Zle_Qle. exact Hd. }
  change (inject_Z 30) with 30%Q.
  set (q := (inject_Z days / 30)%Q) in *.
  pose proof (round64_ge_1 q Hq) as Hm1.
  pose proof (round64_close q) as Hm.
  set (m := round64 q) in *.
  assert (Hb : Qle_bool 1 m = true) by (apply Qle_bool_iff; exact Hm1).
  rewrite Hb.
  rewrite (round64_comp _ (inject_Z (Z.of_nat n) / m))
    by (rewrite Hexact; reflexivity).
  set (N := inject_Z (Z.of_nat n)) in *.
  pose proof (round64_close (N / m)) as Hf.
  set (f := round64 (N / m)) in *.
  assert (Hxm : (N / m * m == N)%Q) by (field; lra).
  assert (Hyq : (N / q * q == N)%Q) by (field; lra).
  assert (Hx0 : (0 <= N / m)%Q).
  { apply Qle_shift_div_l; lra. }
  assert (Hy0 : (0 <= N / q)%Q).
  { apply Qle_shift_div_l; lra. }
  set (x := (N / m)%Q) in *. set (y := (N / q)%Q) in *.
  rewrite eps64_value in Hm, Hf. rewrite pow2_m50, pow2_m1074.
  destruct eta64_small as [He0 He1].
  rewrite (Qabs_pos q) in Hm by lra. rewrite (Qabs_pos x) in Hf by lra.
  apply Qabs_Qle_condition in Hm, Hf. destruct Hm as [Hm2 Hm3], Hf as [Hf1 Hf2].
  (* [m] is within a relative 2 ** -52 of [q] *)
  assert (Hlo : (q * (1 - (1 # 4503599627370496)) <= m)%Q) by lra.
  assert (Hhi : (m <= q * (1 + (1 # 4503599627370496)))%Q) by lra.
  assert (Hxy1 : (x * (1 - (1 # 4503599627370496)) <= y)%Q).
  { apply (Qmult_le_r _ _ q); [lra|]. nra. }
  assert (Hxy2 : (y <= x * (1 + (1 # 4503599627370496)))%Q).
  { apply (Qmult_le_r _ _ q); [lra|]. nra. }
  apply Qabs_Qle_condition. split; lra.
Qed.

(* ------------------------------------------------------------------ *)
(** ** Release frequency *)

Lemma length_lt_2 {A : Type} (l : list A) :
  (1 <? List.length l)%nat = false <-> List.length l < 2.
Proof. rewrite Nat.ltb_ge. lia. Qed.

Lemma int_truediv_Ok a b :
  b <> 0%Z -> int_truediv a b = Ok (round64 (inject_Z a / inject_Z b)).
Proof.
  intros H. unfold int_truediv.
  destruct (Z.eqb_spec b 0); [contradiction|reflexivity].
Qed.

Lemma float_truediv_Ok x y :
  Qle_bool 1 y = true -> float_truediv x y = Ok (round64 (x / y)).
Proof.
  intros H. unfold float_truediv.
  destruct (Qeq_bool y 0) eqn:E; [|reflexivity].
  apply Qeq_bool_iff in E. apply Qle_bool_iff in H. rewrite E in H.
  exfalso. apply (Qle_not_lt _ _ H). reflexivity.
Qed.

(** The two ways out of the release-frequency block. *)
Lemma compute_release_frequency_cases releases :
  match compute_release_frequency releases with
  | Ok f =>
      List.length releases < 2 /\ f = 0%Q \/
      exists latest oldest,
        2 <= List.length releases /\
        rel_published_at (hd no_release releases) = Some latest /\
        rel_published_at (last releases no_release) = Some oldest /\
        f = float_release_frequency (List.length releases)
              (timedelta_days latest oldest)
  | Raise e =>
      2 <= List.length releases /\
      (rel_published_at (hd no_release releases) = None \/
       rel_published_at (last releases no_release) = None) /\
      e = TypeError "unsupported operand type(s) for -"
  end.
Proof.
  unfold compute_release_frequency.
  destruct (1 <? List.length releases)%nat eqn:Hlen.
  - apply Nat.ltb_lt in Hlen.
    destruct (rel_published_at (hd no_release releases)) as [latest|] eqn:E1;
      [destruct (rel_published_at (last releases no_release))
         as [oldest|] eqn:E2|].
    + cbn [days_between bind]. rewrite int_truediv_Ok by discriminate.
      cbn [bind].
      destruct (Qle_bool 1 (round64 (inject_Z (timedelta_days latest oldest)
                                     / inject_Z 30))) eqn:Emax.
      * rewrite float_truediv_Ok by exact Emax.
        right. exists latest, oldest.
        repeat split; auto; unfold float_release_frequency; now rewrite Emax.
      * rewrite int_truediv_Ok by discriminate.
        right. exists latest, oldest.
        repeat split; auto; unfold float_release_frequency; now rewrite Emax.
    + cbn. repeat split; auto.
    + cbn. repeat split; auto.
  - apply Nat.ltb_ge in Hlen. left. split; [lia|reflexivity].
Qed.

Example release_frequency_two_in_thirty_days :
  compute_release_frequency (repo_releases sample_upstream) = Ok 2%Q.
Proof. vm_compute. reflexivity. Qed.

(** Two releases 31 days apart: [2 / (31 / 30)] is [1.9354838709677418]
    in binary64, 8716644440071927 / 2 ** 52, and not 60/31. *)
Example release_frequency_two_in_thirty_one_days :
  float_release_frequency 2 31 = (8716644440071927 # 4503599627370496)%Q /\
  ~ (float_release_frequency 2 31 == 60 # 31)%Q.
Proof. split; [vm_compute; reflexivity|vm_compute; discriminate]. Qed.

(** C3 (code defect). With two releases or more the frequency is not
    always computed.  Listed with drafts, a repository's releases can
    start or end with one that has no publication timestamp; the block
    then subtracts with [None], raises [TypeError], and the trend analysis
    fails with it.  The daily collection, on the same listing, guards the
    same field: there the draft is counted for no day and nothing
    raises. *)
Theorem release_frequency_unguarded_draft :
  upstream_get_releases draft_first_remote
  = Ok [ {| rel_published_at := None |};
         {| rel_published_at := Some (day 20000) |} ] /\
  compute_release_frequency
    [ {| rel_published_at := None |};
      {| rel_published_at := Some (day 20000) |} ]
  = Raise (TypeError "unsupported operand type(s) for -") /\
  compute_release_frequency
    [ {| rel_published_at := Some (day 20000) |};
      {| rel_published_at := None |} ]
  = Raise (TypeError "unsupported operand type(s) for -") /\
  analyze_upstream_trends draft_first_remote
  = Raise (TypeError "unsupported operand type(s) for -") /\
  (forall d, published_on d {| rel_published_at := None |} = Ok false) /\
  (forall d, exists m,
      collect_daily_metrics draft_first_remote d = Ok m /\
      upstream_releases m = (if (d =? 20000)%Z then 1 else 0)).
Proof.
  repeat split; try reflexivity.
  intros d. eexists. split; [reflexivity|].
  destruct (Z.eqb_spec d 20000) as [->|Hne]; [reflexivity|].
  destruct d as [|q|q]; try reflexivity.
  assert (Hq : (20000 =? q)%positive = false)
    by (apply Pos.eqb_neq; congruence).
  cbn -[Pos.eqb]. now rewrite Hq.
Qed.

(* ------------------------------------------------------------------ *)
(** ** The thirty-day loop *)

Lemma fold_collect_day api today offsets acc :
  fold_left (collect_day api today) offsets acc
  = (acc ++ successful_days api today offsets)%list.
Proof.
  revert acc; induction offsets as [|i offsets IH]; intros acc; simpl.
  - now rewrite app_nil_r.
  - rewrite IH. unfold collect_day.
    destruct (collect_daily_metrics (api i) (minus_days today i)); simpl.
    + now rewrite <- app_assoc.
    + reflexivity.
Qed.

Lemma collect_last_30_days_successes api today :
  collect_last_30_days api today = successful_days api today (seq 0 30).
Proof. unfold collect_last_30_days. now rewrite fold_collect_day. Qed.

Lemma successful_days_app api today l1 l2 :
  successful_days api today (l1 ++ l2)
  = (successful_days api today l1 ++ successful_days api today l2)%list.
Proof. unfold successful_days. apply flat_map_app. Qed.

Lemma successful_days_length api today offsets :
  List.length (successful_days api today offsets) <= List.length offsets.
Proof.
  induction offsets as [|i offsets IH]; simpl; [lia|].
  rewrite length_app.
  destruct (collect_daily_metrics (api i) (minus_days today i)); simpl; lia.
Qed.

Lemma seq_split_at i n :
  i < n -> seq 0 n = (seq 0 i ++ i :: seq (S i) (n - 1 - i))%list.
Proof.
  intros H. replace n with (i + S (n - 1 - i)) at 1 by lia.
  rewrite seq_app. reflexivity.
Qed.

(* ------------------------------------------------------------------ *)
(** ** The summary *)

Lemma raw_sync_efficiency_Ok tasks issues :
  raw_sync_efficiency tasks issues = Ok (float_sync_efficiency tasks issues).
Proof.
  unfold raw_sync_efficiency, float_sync_efficiency.
  destruct issues as [|n]; [reflexivity|]. cbn [Nat.ltb Nat.leb Nat.eqb].
  rewrite int_truediv_Ok by lia. reflexivity.
Qed.

(** What a successful assembly has computed. *)
Lemma generate_dashboard_data_Ok api today data :
  generate_dashboard_data api today = Ok data ->
  analyze_upstream_trends (api 30) = Ok (trends data) /\
  daily_metrics data = collect_last_30_days api today /\
  total_upstream_issues (summary data)
    = total upstream_issues_opened (daily_metrics data) /\
  total_upstream_prs (summary data)
    = total upstream_prs_opened (daily_metrics data) /\
  total_downstream_tasks (summary data)
    = total downstream_tasks_created (daily_metrics data) /\
  sync_efficiency (summary data)
    = py_round2 (float_sync_efficiency
                   (total downstream_tasks_created (daily_metrics data))
                   (total upstream_issues_opened (daily_metrics data))) /\
  last_sync (current_status data) = get_last_sync_time (api 31).
Proof.
  unfold generate_dashboard_data.
  destruct (analyze_upstream_trends (api 30)) as [tr|]; [|discriminate].
  cbn [bind]. rewrite raw_sync_efficiency_Ok. cbn [bind].
  intros [= <-]. cbn. repeat split; reflexivity.
Qed.

(** The assembly fails only if the trend analysis does. *)
Lemma generate_dashboard_data_total api today tr :
  analyze_upstream_trends (api 30) = Ok tr ->
  exists data, generate_dashboard_data api today = Ok data.
Proof.
  intros H. unfold generate_dashboard_data. rewrite H. cbn [bind].
  rewrite raw_sync_efficiency_Ok. cbn [bind]. eexists. reflexivity.
Qed.

(** The claim as first worded, with the summary value equal to the
    quotient times 100, fails, whether that product is taken exactly or
    as Python computes it in binary64: two tasks for three issues are
    reported as 66.67. *)
Lemma sync_efficiency_exact_counterexample :
  ~ (forall api today data,
        generate_dashboard_data api today = Ok data ->
        let tasks := total downstream_tasks_created (daily_metrics data) in
        let issues := total upstream_issues_opened (daily_metrics data) in
        (sync_efficiency (summary data)
         == exact_sync_efficiency tasks issues)%Q \/
        (sync_efficiency (summary data)
         == float_sync_efficiency tasks issues)%Q).
Proof.
  intros H.
  specialize (H (fun _ => sample_remote) 20000%Z _ eq_refl).
  vm_compute in H. destruct H as [H|H]; discriminate H.
Qed.

(** 23 tasks for 160 issues: the quotient times 100 is
    [14.374999999999998] in binary64, so the summary says [14.37], where
    rounding the exact 14.375 would give 14.38. *)
Example sync_efficiency_below_a_tie :
  float_sync_efficiency 23 160
  = (8092405580431359 # 562949953421312)%Q /\
  py_round2 (float_sync_efficiency 23 160) = round64 (1437 # 100) /\
  round64 (1437 # 100) = (8089590830664253 # 562949953421312)%Q /\
  (round2 (exact_sync_efficiency 23 160) == 1438 # 100)%Q.
Proof. repeat split; vm_compute; reflexivity. Qed.

(** C2 (amended). The summary's sync efficiency is Python's
    [round((tasks / issues) * 100, 2)] on the totals of the collected
    days, in binary64: the quotient and the product each rounded to the
    nearest number, then the nearest number to the two-decimal rounding
    of that product.  It lies within 0.005 and a relative [2 ** -50] of
    the exact quotient times 100; it is 0 when no issue was opened, and
    the computation raises no division error: the assembly succeeds
    whenever the trend analysis does. *)
Theorem sync_efficiency_rounded_ratio :
  forall (api : nat -> Remote) (today : caldate),
    (forall tr, analyze_upstream_trends (api 30) = Ok tr ->
                exists data, generate_dashboard_data api today = Ok data) /\
    (forall data,
        generate_dashboard_data api today = Ok data ->
        let tasks := total downstream_tasks_created (daily_metrics data) in
        let issues := total upstream_issues_opened (daily_metrics data) in
        daily_metrics data = collect_last_30_days api today /\
        sync_efficiency (summary data)
          = py_round2 (float_sync_efficiency tasks issues) /\
        (0 < issues ->
         float_sync_efficiency tasks issues
         = round64 (round64 (inject_Z (Z.of_nat tasks)
                             / inject_Z (Z.of_nat issues)) * 100) /\
         exact_sync_efficiency tasks issues
         = (inject_Z (Z.of_nat tasks) / inject_Z (Z.of_nat issues) * 100)%Q) /\
        (Qabs (sync_efficiency (summary data)
               - exact_sync_efficiency tasks issues)
         <= (1 # 200)
            + (exact_sync_efficiency tasks issues + 1) * pow2 (-50))%Q /\
        (issues = 0 -> sync_efficiency (summary data) = 0%Q)).
Proof.
  intros api today. split.
  - intros tr Htr. now apply (generate_dashboard_data_total api today tr).
  - intros data Hdata tasks issues.
    destruct (generate_dashboard_data_Ok api today data Hdata)
      as (_ & Hdays & _ & _ & _ & Hsync & _).
    fold tasks issues in Hsync.
    split; [exact Hdays|]. split; [exact Hsync|]. split; [|split].
    + intros Hpos. unfold float_sync_efficiency, exact_sync_efficiency.
      destruct issues; [lia|]. split; reflexivity.
    + rewrite Hsync. apply float_sync_efficiency_close.
    + intros H0. rewrite Hsync, H0. reflexivity.
Qed.

Lemma sync_efficiency_rounded_ratio_witness :
  exists data,
    generate_dashboard_data (fun _ => sample_remote) 20000%Z = Ok data /\
    sync_efficiency (summary data) = round64 (6667 # 100).
Proof.
  destruct (sync_efficiency_rounded_ratio (fun _ => sample_remote) 20000%Z)
    as [Htotal Hvalue].
  destruct (Htotal _ eq_refl) as [data Hdata].
  exists data. split; [exact Hdata|].
  destruct (Hvalue data Hdata) as (Hdays & Hsync & _).
  rewrite Hsync, Hdays. vm_compute. reflexivity.
Defined.

(** C5. When the collection for one of the 30 dates raises, the error is
    caught: the series is that of the successful days among the other 29,
    in order, with nothing put in place of the failed day, and the
    assembly goes on to its result (it succeeds whenever the trend
    analysis does). *)
Theorem daily_failure_is_skipped :
  forall (api : nat -> Remote) (today : caldate) (i : nat) (e : exn),
    i < 30 ->
    collect_daily_metrics (api i) (minus_days today i) = Raise e ->
    collect_last_30_days api today
      = successful_days api today (seq 0 i ++ seq (S i) (29 - i)) /\
    List.length (collect_last_30_days api today) <= 29 /\
    (forall tr, analyze_upstream_trends (api 30) = Ok tr ->
       exists data,
         generate_dashboard_data api today = Ok data /\
         daily_metrics data = collect_last_30_days api today).
Proof.
  intros api today i e Hi Hfail.
  assert (Hseries : collect_last_30_days api today
            = successful_days api today (seq 0 i ++ seq (S i) (29 - i))).
  { rewrite collect_last_30_days_successes, (seq_split_at i 30 Hi).
    rewrite !successful_days_app. f_equal.
    change (i :: seq (S i) (30 - 1 - i)) with ([i] ++ seq (S i) (29 - i))%list.
    rewrite successful_days_app. unfold successful_days at 1. simpl.
    now rewrite Hfail. }
  split; [exact Hseries|]. split.
  - rewrite Hseries.
    etransitivity; [apply successful_days_length|].
    rewrite length_app, !length_seq. lia.
  - intros tr Htr.
    destruct (generate_dashboard_data_total api today tr Htr) as [data Hdata].
    exists data. split; [exact Hdata|].
    now destruct (generate_dashboard_data_Ok api today data Hdata) as (_ & H & _).
Qed.

Lemma daily_failure_is_skipped_witness :
  List.length
    (collect_last_30_days
       (fun i => if Nat.eqb i 1 then broken_remote else sample_remote)
       20000%Z) <= 29.
Proof.
  refine (proj1 (proj2 (daily_failure_is_skipped
            (fun i => if Nat.eqb i 1 then broken_remote else sample_remote)
            20000%Z 1 (GithubException "503") _ eq_refl))).
  lia.
Defined.

(* ------------------------------------------------------------------ *)
(** ** The entry point *)

(** With a token, in a world where every stage succeeds, the run talks
    to the API and writes five files. *)
Example main_with_token :
  snd (main (sample_world (Some "ghp_token"))) = 0%Z /\
  List.length (filter is_file_write (fst (main (sample_world (Some "ghp_token"))))) = 5 /\
  List.length (filter is_request (fst (main (sample_world (Some "ghp_token"))))) = 3.
Proof. vm_compute. repeat split. Qed.

(** C6. Without the credential in the environment, the process prints
    the error line and exits with status 1, and that is all it does: the
    monitor is not built, nothing is fetched and no file is written,
    whatever the later stages would have done. *)
Theorem missing_credential_exits_early :
  forall (w : World),
    getenv_GITHUB_TOKEN w = None ->
    main w = ([Stdout "Error: GITHUB_TOKEN environment variable is required"],
              1%Z) /\
    filter is_file_write (fst (main w)) = [] /\
    filter is_request (fst (main w)) = [].
Proof.
  intros w Htoken.
  assert (H : main w
    = ([Stdout "Error: GITHUB_TOKEN environment variable is required"], 1%Z)).
  { unfold main. rewrite Htoken. reflexivity. }
  rewrite H. repeat split.
Qed.

Lemma missing_credential_exits_early_witness :
  snd (main (sample_world None)) = 1%Z /\
  filter is_file_write (fst (main (sample_world None))) = [].
Proof.
  destruct (missing_credential_exits_early (sample_world None) eq_refl)
    as (Hmain & Hfiles & _).
  split; [now rewrite Hmain | exact Hfiles].
Defined.

(* ------------------------------------------------------------------ *)
(** ** The last-sync lookup *)

Lemma py_max_upper t ts :
  (t <= py_max t ts)%Z /\ Forall (fun u => (u <= py_max t ts)%Z) ts.
Proof.
  unfold py_max. revert t; induction ts as [|u ts IH]; intros t; simpl.
  - split; [lia|constructor].
  - destruct (IH (Z.max t u)) as [H1 H2]. split; [lia|].
    constructor; [lia|exact H2].
Qed.

Lemma py_max_In t ts : In (py_max t ts) (t :: ts).
Proof.
  unfold py_max. revert t; induction ts as [|u ts IH]; intros t; simpl.
  - now left.
  - destruct (IH (Z.max t u)) as [H|H]; [|now right; right].
    rewrite <- H. destruct (Z.max_spec t u) as [[_ ->]|[_ ->]]; auto.
Qed.

(** C10. The last-sync lookup returns a string in every case: when the
    listing of the sync-labelled issues (most recently updated first)
    fails, ["Unknown"]; when it is empty, ["No recent syncs found"];
    otherwise the ISO form of the greatest [updated_at] among its first
    five issues at most. *)
Theorem last_sync_lookup_never_raises :
  forall (r : Remote),
    (forall e, downstream_get_issues r ["upstream-sync"] Updated = Raise e ->
               get_last_sync_time r = "Unknown") /\
    (downstream_get_issues r ["upstream-sync"] Updated = Ok [] ->
     get_last_sync_time r = "No recent syncs found") /\
    (forall i rest,
        downstream_get_issues r ["upstream-sync"] Updated = Ok (i :: rest) ->
        let recent := firstn 5 (i :: rest) in
        exists t,
          get_last_sync_time r = isoformat t /\
          In t (map issue_updated_at recent) /\
          Forall (fun u => (u <= t)%Z) (map issue_updated_at recent) /\
          List.length recent <= 5).
Proof.
  intros r. unfold get_last_sync_time. split; [|split].
  - intros e ->. reflexivity.
  - intros ->. reflexivity.
  - intros i rest H. rewrite H.
    change (firstn 5 (i :: rest)) with (i :: firstn 4 rest).
    cbn [map]. set (ts := map issue_updated_at (firstn 4 rest)).
    exists (py_max (issue_updated_at i) ts).
    split; [reflexivity|]. split; [apply py_max_In|]. split.
    + destruct (py_max_upper (issue_updated_at i) ts) as [H1 H2].
      now constructor.
    + cbn [List.length]. pose proof (firstn_le_length 4 rest). lia.
Qed.

Lemma last_sync_lookup_never_raises_witness :
  get_last_sync_time sample_remote = "2024-10-04T02:00:00+00:00" /\
  get_last_sync_time broken_remote = "Unknown".
Proof.
  destruct (last_sync_lookup_never_raises broken_remote) as (Hfail & _).
  split.
  - reflexivity.
  - exact (Hfail (GithubException "503") eq_refl).
Defined.

(* ================================================================== *)
(** * Further properties of the code *)

(* ------------------------------------------------------------------ *)
(** ** The pull-request classifier *)






(* ------------------------------------------------------------------ *)
(** ** The tallies of the analyzer *)

Lemma dict_total_bump d k : dict_total (bump d k) = dict_total d + 1.
Proof.
  unfold bump, dict_total. induction d as [|[k' v'] d IH]; simpl.
  - reflexivity.
  - destruct (String.eqb k' k); simpl; [lia|]. rewrite IH. lia.
Qed.

Lemma dict_total_fold_bump ks d :
  dict_total (fold_left bump ks d) = dict_total d + List.length ks.
Proof.
  revert d; induction ks as [|k ks IH]; intros d; simpl; [lia|].
  rewrite IH, dict_total_bump. lia.
Qed.

Lemma keys_fold_bump ks d k :
  In k (keys (fold_left bump ks d)) <-> In k ks \/ In k (keys d).
Proof.
  revert d; induction ks as [|x ks IH]; intros d; simpl; [tauto|].
  rewrite IH. unfold bump. rewrite keys_dict_set. intuition congruence.
Qed.

Lemma positive_dict_set d k v :
  0 < v -> Forall (fun kv => 0 < snd kv) d ->
  Forall (fun kv => 0 < snd kv) (dict_set d k v).
Proof.
  intros Hv. induction 1 as [|[k' v'] d Hk Hd IH]; simpl.
  - now repeat constructor.
  - destruct (String.eqb k' k); constructor; auto.
Qed.

Lemma positive_fold_bump ks d :
  Forall (fun kv => 0 < snd kv) d ->
  Forall (fun kv => 0 < snd kv) (fold_left bump ks d).
Proof.
  revert d; induction ks as [|k ks IH]; intros d H; simpl; [exact H|].
  apply IH. unfold bump. apply positive_dict_set; [lia|exact H].
Qed.

Lemma issue_category_range text :
  In (issue_category text)
     ["bug"; "feature"; "documentation"; "performance"; "other"].
Proof.
  unfold issue_category.
  repeat match goal with
  | |- context [if ?b then _ else _] => destruct b
  end; simpl; auto 6.
Qed.

Lemma pr_type_range text :
  In (pr_type text) ["fix"; "feature"; "refactor"; "documentation"; "other"].
Proof.
  unfold pr_type.
  repeat match goal with
  | |- context [if ?b then _ else _] => destruct b
  end; simpl; auto 6.
Qed.

Lemma fold_bump_nil ks : fold_left bump ks [] = [] <-> ks = [].
Proof.
  split; [|now intros ->]. intros H.
  pose proof (dict_total_fold_bump ks []) as Ht. rewrite H in Ht.
  destruct ks; [reflexivity|discriminate Ht].
Qed.

(** X2. Each of the (at most 100) scanned issues adds one to exactly one
    category counter, so the counters add up to the number of issues
    scanned; likewise for pull requests.  The keys come from the five fixed
    labels, a label that was never assigned is absent rather than 0, and
    the issue tally is empty exactly when no issue was listed. *)
Theorem category_tallies_partition :
  forall (r : Remote) (t : Trends)
         (all_issues : list Issue) (all_prs : list PullRequest),
    analyze_upstream_trends r = Ok t ->
    upstream_get_issues r Created = Ok all_issues ->
    upstream_get_pulls r = Ok all_prs ->
    dict_total (issue_categories t) = Nat.min 100 (List.length all_issues) /\
    dict_total (pr_types t) = Nat.min 100 (List.length all_prs) /\
    (forall k, In k (keys (issue_categories t)) ->
       In k ["bug"; "feature"; "documentation"; "performance"; "other"]) /\
    (forall k, In k (keys (pr_types t)) ->
       In k ["fix"; "feature"; "refactor"; "documentation"; "other"]) /\
    Forall (fun kv => 0 < snd kv) (issue_categories t) /\
    Forall (fun kv => 0 < snd kv) (pr_types t) /\
    NoDup (keys (issue_categories t)) /\
    NoDup (keys (pr_types t)) /\
    (issue_categories t = [] <-> all_issues = []).
Proof.
  intros r t all_issues all_prs Ht Hi Hp.
  destruct (analyze_upstream_trends_Ok r t Ht)
    as (is' & prs' & rels & Ei & Ep & _ & _ & Hcat & Htyp & _).
  rewrite Hi in Ei; injection Ei as <-. rewrite Hp in Ep; injection Ep as <-.
  rewrite Hcat, Htyp.
  repeat match goal with |- _ /\ _ => split end.
  - rewrite dict_total_fold_bump, length_map, length_firstn. reflexivity.
  - rewrite dict_total_fold_bump, length_map, length_firstn. reflexivity.
  - intros k Hk. apply keys_fold_bump in Hk as [Hk|[]].
    apply in_map_iff in Hk as (i & <- & _). apply issue_category_range.
  - intros k Hk. apply keys_fold_bump in Hk as [Hk|[]].
    apply in_map_iff in Hk as (p & <- & _). apply pr_type_range.
  - apply positive_fold_bump. constructor.
  - apply positive_fold_bump. constructor.
  - apply NoDup_keys_fold_bump. constructor.
  - apply NoDup_keys_fold_bump. constructor.
  - rewrite fold_bump_nil. destruct all_issues; simpl; split; congruence.
Qed.

Lemma category_tallies_partition_witness :
  exists t,
    analyze_upstream_trends sample_remote = Ok t /\
    dict_total (issue_categories t) = 3 /\
    dict_total (pr_types t) = 2.
Proof.
  eexists. split; [reflexivity|].
  destruct (category_tallies_partition sample_remote _ _ _
              eq_refl eq_refl eq_refl) as (Hi & Hp & _).
  rewrite Hi, Hp. split; reflexivity.
Defined.

(* ------------------------------------------------------------------ *)
(** ** Release frequency: failure and bounds *)

(** X3. The release-frequency block raises exactly when there are two
    releases or more and the first or the last listed release has no
    publication timestamp (a draft); the error is a [TypeError], releases
    in between are never looked at, and the trend analysis then fails with
    that error. *)
Theorem release_frequency_raises_on_unpublished_end :
  forall (releases : list Release),
    ((exists e, compute_release_frequency releases = Raise e) <->
     2 <= List.length releases /\
     (rel_published_at (hd no_release releases) = None \/
      rel_published_at (last releases no_release) = None)) /\
    (forall e, compute_release_frequency releases = Raise e ->
               e = TypeError "unsupported operand type(s) for -") /\
    (forall r all_issues all_prs e,
        upstream_get_issues r Created = Ok all_issues ->
        upstream_get_pulls r = Ok all_prs ->
        upstream_get_releases r = Ok releases ->
        compute_release_frequency releases = Raise e ->
        analyze_upstream_trends r = Raise e).
Proof.
  intros releases. pose proof (compute_release_frequency_cases releases) as H.
  split; [|split].
  - split.
    + intros [e He]. rewrite He in H. tauto.
    + intros [Hlen Hnone].
      destruct (compute_release_frequency releases) as [f|e]; [|now exists e].
      destruct H as [[Hlt _]|(l & o & _ & E1 & E2 & _)]; [lia|].
      destruct Hnone as [Hn|Hn]; congruence.
  - intros e He. rewrite He in H. tauto.
  - intros r all_issues all_prs e Hi Hp Hr He.
    unfold analyze_upstream_trends. rewrite Hi, Hp, Hr. cbn [bind].
    now rewrite He.
Qed.

Lemma release_frequency_raises_on_unpublished_end_witness :
  analyze_upstream_trends draft_first_remote
  = Raise (TypeError "unsupported operand type(s) for -").
Proof.
  destruct (release_frequency_raises_on_unpublished_end
              [ {| rel_published_at := None |};
                {| rel_published_at := Some (day 20000) |} ]) as (_ & _ & H).
  apply (H draft_first_remote [] []); reflexivity.
Defined.

(** The binary64 value is the exact one within a relative [2 ** -50]. *)
Lemma float_release_frequency_close n days :
  (Z.of_nat n < 2 ^ 53)%Z ->
  (Qabs (float_release_frequency n days - exact_release_frequency n days)
   <= exact_release_frequency n days * pow2 (-50) + pow2 (-1074))%Q.
Proof.
  intros Hn. unfold exact_release_frequency.
  destruct (Z.le_ge_cases days 30) as [Hd|Hd].
  - assert (Hle : (inject_Z days / 30 <= 1)%Q).
    { apply Qle_shift_div_r; [reflexivity|].
      change (1 * 30)%Q with (inject_Z 30). rewrite <- Zle_Qle. exact Hd. }
    rewrite (Q.max_r _ _ Hle).
    rewrite (float_release_frequency_short n days Hn Hd).
    assert (HN : (0 <= inject_Z (Z.of_nat n))%Q).
    { change 0%Q with (inject_Z 0). rewrite <- Zle_Qle. lia. }
    set (N := inject_Z (Z.of_nat n)) in *.
    assert (H0 : (N - N / 1 == 0)%Q) by field.
    assert (H1 : (N / 1 == N)%Q) by field.
    rewrite H0, H1, pow2_m50, pow2_m1074.
    destruct eta64_small as [He0 _].
    change (Qabs 0) with 0%Q. lra.
  - assert (Hle : (1 <= inject_Z days / 30)%Q).
    { apply Qle_shift_div_l; [reflexivity|].
      change (1 * 30)%Q with (inject_Z 30). rewrite <- Zle_Qle. lia. }
    rewrite (Q.max_l _ _ Hle).
    apply float_release_frequency_long; [exact Hn|lia].
Qed.

(** X4. With two releases or more whose listed ends are dated, the
    frequency is [n / max(days / 30, 1)] evaluated in binary64, each
    division rounded to the nearest number.  For fewer than [2 ** 53]
    releases it is exactly [n] when the ends are at most 30 days apart
    (also when they are listed in the reverse order), and otherwise
    within a relative [2 ** -50] of the exact quotient.  The analyzer
    stores that value. *)
Theorem release_frequency_value :
  forall (releases : list Release) (latest oldest : datetime),
    2 <= List.length releases ->
    rel_published_at (hd no_release releases) = Some latest ->
    rel_published_at (last releases no_release) = Some oldest ->
    let n := List.length releases in
    let days := timedelta_days latest oldest in
    compute_release_frequency releases
    = Ok (float_release_frequency n days) /\
    ((Z.of_nat n < 2 ^ 53)%Z ->
     ((days <= 30)%Z ->
      (float_release_frequency n days == inject_Z (Z.of_nat n))%Q) /\
     (Qabs (float_release_frequency n days - exact_release_frequency n days)
      <= exact_release_frequency n days * pow2 (-50) + pow2 (-1074))%Q) /\
    (forall r t,
        analyze_upstream_trends r = Ok t ->
        upstream_get_releases r = Ok releases ->
        release_frequency t = float_release_frequency n days).
Proof.
  intros releases latest oldest Hlen E1 E2 n days.
  assert (Hf : compute_release_frequency releases
               = Ok (float_release_frequency n days)).
  { pose proof (compute_release_frequency_cases releases) as Hc.
    destruct (compute_release_frequency releases) as [f|e];
      [|destruct Hc as (_ & [Hn|Hn] & _); congruence].
    destruct Hc as [[Hlt _]|(l & o & _ & El & Eo & ->)]; [lia|].
    rewrite E1 in El; injection El as <-.
    rewrite E2 in Eo; injection Eo as <-. reflexivity. }
  split; [exact Hf|]. split.
  - intros Hn. split.
    + intros Hd. now apply float_release_frequency_short.
    + now apply float_release_frequency_close.
  - intros r t Ht Hrels.
    destruct (analyze_upstream_trends_Ok r t Ht)
      as (_ & _ & rels & _ & _ & Erels & Hfreq & _).
    rewrite Hrels in Erels. injection Erels as <-.
    rewrite Hf in Hfreq. now injection Hfreq.
Qed.

Lemma release_frequency_value_witness :
  compute_release_frequency (repo_releases sample_upstream)
  = Ok (float_release_frequency 2 30) /\
  (float_release_frequency 2 30 == 2)%Q.
Proof.
  destruct (release_frequency_value (repo_releases sample_upstream)
              (day 20000) (day 19970)) as (Hf & Hv & _);
    [simpl; lia|reflexivity|reflexivity|].
  split; [exact Hf|].
  destruct Hv as [Hshort _]; [reflexivity|].
  apply Hshort. vm_compute. discriminate.
Defined.

(* ------------------------------------------------------------------ *)
(** ** When a day's collection succeeds *)

Lemma merged_on_Ok d pr :
  merge_stamped pr = true ->
  exists b, merged_on d pr = Ok b.
Proof.
  unfold merge_stamped, merged_on. destruct (pr_merged pr); simpl.
  - destruct (pr_merged_at pr); [eexists; reflexivity|discriminate].
  - eexists; reflexivity.
Qed.

Lemma merged_on_Raise d pr :
  merge_stamped pr = false ->
  merged_on d pr
  = Raise (AttributeError "'NoneType' object has no attribute 'date'").
Proof.
  unfold merge_stamped, merged_on. destruct (pr_merged pr); simpl.
  - destruct (pr_merged_at pr); [discriminate|reflexivity].
  - discriminate.
Qed.

Lemma filterM_merged_on d prs :
  match filterM (merged_on d) prs with
  | Ok _ => forallb merge_stamped prs = true
  | Raise e =>
      forallb merge_stamped prs = false /\
      e = AttributeError "'NoneType' object has no attribute 'date'"
  end.
Proof.
  induction prs as [|pr prs IH]; simpl; [reflexivity|].
  destruct (merge_stamped pr) eqn:E.
  - destruct (merged_on_Ok d pr E) as [b ->].
    destruct (filterM (merged_on d) prs); simpl; exact IH.
  - rewrite (merged_on_Raise d pr E). simpl. auto.
Qed.

Lemma count_sync_activities_cases r d labels acc :
  match count_sync_activities r d labels acc with
  | Ok _ =>
      forall label, In label labels ->
        exists a, downstream_get_issues r [label] Updated = Ok a
  | Raise e =>
      exists label, In label labels /\
        downstream_get_issues r [label] Updated = Raise e
  end.
Proof.
  revert acc; induction labels as [|label rest IH]; intros acc; simpl.
  - intros l [].
  - destruct (downstream_get_issues r [label] Updated) as [a|e] eqn:E; simpl.
    + specialize (IH (acc + List.length (filter (updated_on d) a))).
      destruct (count_sync_activities r d rest _).
      * intros l [<-|Hl]; [now exists a|now apply IH].
      * destruct IH as (l & Hl & He). exists l. split; [now right|exact He].
    + exists label. split; [now left|exact E].
Qed.

(** The conditions of success of a day's collection, none of which
    mentions the day. *)
Lemma collect_daily_metrics_succeeds r d :
  (exists m, collect_daily_metrics r d = Ok m) <->
  (exists upstream_issues upstream_prs releases downstream_issues,
      upstream_get_issues r Created = Ok upstream_issues /\
      upstream_get_pulls r = Ok upstream_prs /\
      forallb merge_stamped upstream_prs = true /\
      upstream_get_releases r = Ok releases /\
      downstream_get_issues r ["upstream-sync"] Created = Ok downstream_issues /\
      (forall label, In label sync_labels ->
         exists a, downstream_get_issues r [label] Updated = Ok a)).
Proof.
  split.
  - intros [m Hm].
    destruct (collect_daily_metrics_Ok r d m Hm)
      as (ui & prs & merged & rels & di & Eui & Eprs & Emerged & Erels & Edi
          & Esync & _).
    exists ui, prs, rels, di. repeat split; try assumption.
    + pose proof (filterM_merged_on d prs) as H. now rewrite Emerged in H.
    + pose proof (count_sync_activities_cases r d sync_labels 0) as H.
      now rewrite Esync in H.
  - intros (ui & prs & rels & di & Eui & Eprs & Hst & Erels & Edi & Hlab).
    unfold collect_daily_metrics. rewrite Eui. cbn [bind].
    rewrite (filterM_pure _ _ ui (closed_on_pure d)). cbn [bind].
    rewrite Eprs. cbn [bind].
    pose proof (filterM_merged_on d prs) as Hm.
    destruct (filterM (merged_on d) prs) as [merged|e];
      [|destruct Hm; congruence].
    cbn [bind]. rewrite Erels. cbn [bind].
    rewrite (filterM_pure _ _ rels (published_on_pure d)). cbn [bind].
    rewrite Edi. cbn [bind].
    rewrite (filterM_pure _ _ di (closed_on_pure d)). cbn [bind].
    pose proof (count_sync_activities_cases r d sync_labels 0) as Hs.
    destruct (count_sync_activities r d sync_labels 0) as [n|e].
    + cbn [bind]. eexists. reflexivity.
    + destruct Hs as (l & Hl & He). destruct (Hlab l Hl) as [a Ha]. congruence.
Qed.

(** X5. A day's collection succeeds exactly when the seven listings succeed
    and every pull request flagged as merged has its merge timestamp (the
    merge test, unlike the closing and publication tests, does not guard
    against a missing timestamp).  The day plays no part: against one
    state of the service, either every day can be collected or none. *)
Theorem daily_collection_succeeds_iff :
  forall (r : Remote) (d : caldate),
    ((exists m, collect_daily_metrics r d = Ok m) <->
     (exists upstream_issues upstream_prs releases downstream_issues,
        upstream_get_issues r Created = Ok upstream_issues /\
        upstream_get_pulls r = Ok upstream_prs /\
        forallb merge_stamped upstream_prs = true /\
        upstream_get_releases r = Ok releases /\
        downstream_get_issues r ["upstream-sync"] Created
          = Ok downstream_issues /\
        (forall label, In label sync_labels ->
           exists a, downstream_get_issues r [label] Updated = Ok a))) /\
    (forall d',
        (exists m, collect_daily_metrics r d = Ok m) ->
        exists m', collect_daily_metrics r d' = Ok m') /\
    (forall prs pr,
        upstream_get_pulls r = Ok prs -> In pr prs ->
        pr_merged pr = true -> pr_merged_at pr = None ->
        forall m, collect_daily_metrics r d <> Ok m).
Proof.
  intros r d. split; [apply collect_daily_metrics_succeeds|]. split.
  - intros d' H. apply collect_daily_metrics_succeeds.
    now apply (collect_daily_metrics_succeeds r d).
  - intros prs pr Hprs Hin Hm Hat m Hok.
    assert (Hex : exists m, collect_daily_metrics r d = Ok m) by now exists m.
    apply collect_daily_metrics_succeeds in Hex
      as (_ & prs' & _ & _ & _ & Eprs & Hst & _).
    rewrite Hprs in Eprs. injection Eprs as <-.
    rewrite forallb_forall in Hst. specialize (Hst pr Hin).
    unfold merge_stamped in Hst. rewrite Hm, Hat in Hst. discriminate.
Qed.

Lemma daily_collection_succeeds_iff_witness :
  exists m, collect_daily_metrics sample_remote 19000%Z = Ok m.
Proof.
  destruct (daily_collection_succeeds_iff sample_remote 20000%Z)
    as (_ & Hany & _).
  apply Hany. eexists. reflexivity.
Defined.

(* ------------------------------------------------------------------ *)
(** ** The summary totals and the thirty-day window *)

Lemma total_list_sum f l : total f l = list_sum (map f l).
Proof.
  unfold total. rewrite <- (Nat.add_0_l (list_sum (map f l))).
  generalize 0. induction l as [|m l IH]; intros acc; simpl; [lia|].
  rewrite IH. lia.
Qed.

Lemma created_within_step today n i :
  created_within today (S n) i
  = created_within today n i || created_on (minus_days today n) i.
Proof.
  unfold created_within, created_on, minus_days.
  destruct (Z.ltb_spec (today - Z.of_nat (S n)) (date_of (issue_created_at i))),
           (Z.ltb_spec (today - Z.of_nat n) (date_of (issue_created_at i))),
           (Z.leb_spec (date_of (issue_created_at i)) today),
           (Z.eqb_spec (date_of (issue_created_at i)) (today - Z.of_nat n));
    simpl; try reflexivity; lia.
Qed.

Lemma created_within_excl today n i :
  created_within today n i = true ->
  created_on (minus_days today n) i = false.
Proof.
  unfold created_within, created_on, minus_days.
  rewrite andb_true_iff, Z.ltb_lt, Z.leb_le, Z.eqb_neq. lia.
Qed.

(** Over the day offsets [0 .. n-1], the issues created on each day add
    up to the issues created in the window. *)
Lemma created_on_window today n (l : list Issue) :
  list_sum (map (fun i => List.length (filter (created_on (minus_days today i)) l))
                (seq 0 n))
  = List.length (filter (created_within today n) l).
Proof.
  induction n as [|n IH].
  - simpl. rewrite (filter_none (created_within today 0) l); [reflexivity|].
    intros i _. unfold created_within.
    destruct (Z.ltb_spec (today - Z.of_nat 0) (date_of (issue_created_at i))),
             (Z.leb_spec (date_of (issue_created_at i)) today);
      simpl; try reflexivity; lia.
  - rewrite seq_S, map_app, list_sum_app, IH. simpl. rewrite Nat.add_0_r.
    clear IH. induction l as [|i l IHl]; [reflexivity|].
    cbn [filter]. rewrite created_within_step.
    pose proof (created_within_excl today n i) as Hx.
    destruct (created_within today n i), (created_on (minus_days today n) i);
      cbn [orb List.length]; try lia.
Qed.

Lemma successful_days_opened api today ui offsets :
  (forall i, In i offsets -> upstream_get_issues (api i) Created = Ok ui) ->
  list_sum (map upstream_issues_opened (successful_days api today offsets))
  <= list_sum (map (fun i => List.length
                               (filter (created_on (minus_days today i)) ui))
                   offsets) /\
  (List.length (successful_days api today offsets) = List.length offsets ->
   list_sum (map upstream_issues_opened (successful_days api today offsets))
   = list_sum (map (fun i => List.length
                               (filter (created_on (minus_days today i)) ui))
                   offsets)).
Proof.
  induction offsets as [|i offsets IH]; intros Hui; simpl; [split; lia|].
  destruct IH as [IHle IHeq]; [intros j Hj; apply Hui; now right|].
  pose proof (successful_days_length api today offsets) as Hlen.
  destruct (collect_daily_metrics (api i) (minus_days today i)) as [m|e] eqn:E.
  - destruct (collect_daily_metrics_Ok _ _ _ E)
      as (ui' & prs & mg & rels & di & Eui & _ & _ & _ & _ & _ & _
          & Hopened & _).
    rewrite (Hui i (or_introl eq_refl)) in Eui. injection Eui as Heq.
    subst ui'. simpl. rewrite Hopened. split; [lia|].
    intros H. injection H as H. rewrite (IHeq H). reflexivity.
  - simpl. split; [lia|]. intros H. lia.
Qed.

(** X6. The summary's total of upstream issues never exceeds the number of
    listed issues created in the 30 days ending today, and equals it when
    no day was dropped, provided the listing is the same all through the
    run. *)
Theorem summary_total_counts_window :
  forall (api : nat -> Remote) (today : caldate) (data : DashboardData)
         (upstream_issues : list Issue),
    generate_dashboard_data api today = Ok data ->
    (forall i, i < 30 ->
       upstream_get_issues (api i) Created = Ok upstream_issues) ->
    total_upstream_issues (summary data)
      <= List.length (filter (created_within today 30) upstream_issues) /\
    (List.length (daily_metrics data) = 30 ->
     total_upstream_issues (summary data)
       = List.length (filter (created_within today 30) upstream_issues)).
Proof.
  intros api today data ui Hdata Hui.
  destruct (generate_dashboard_data_Ok api today data Hdata)
    as (_ & Hdays & Htotal & _).
  rewrite Htotal, total_list_sum, Hdays, collect_last_30_days_successes.
  rewrite <- (created_on_window today 30 ui).
  destruct (successful_days_opened api today ui (seq 0 30)) as [Hle Heq].
  { intros i Hi. apply in_seq in Hi. apply Hui. lia. }
  split; [exact Hle|].
  intros H. apply Heq. now rewrite length_seq.
Qed.

Lemma summary_total_counts_window_witness :
  exists data,
    generate_dashboard_data (fun _ => sample_remote) 20000%Z = Ok data /\
    total_upstream_issues (summary data) = 3.
Proof.
  eexists. split; [reflexivity|].
  destruct (summary_total_counts_window (fun _ => sample_remote) 20000%Z _
              (list_issues sample_upstream [] Created) eq_refl
              (fun _ _ => eq_refl)) as [_ Heq].
  rewrite Heq; reflexivity.
Defined.

(* ------------------------------------------------------------------ *)
(** ** What makes the assembly fail, and what does not *)

Lemma successful_days_none api today offsets :
  (forall i, In i offsets -> collected api today i = false) ->
  successful_days api today offsets = [].
Proof.
  induction offsets as [|i offsets IH]; intros H; simpl; [reflexivity|].
  pose proof (H i (or_introl eq_refl)) as Hi. unfold collected in Hi.
  destruct (collect_daily_metrics (api i) (minus_days today i));
    [discriminate|].
  apply IH. intros j Hj. apply H. now right.
Qed.

(** X7. The assembly raises exactly when the trend analysis raises, and with
    the same exception.  Nothing else makes it fail: when every one of the
    30 days fails the series is empty, the totals are 0 and the sync
    efficiency is 0; when the last-sync listing fails the status carries
    ["Unknown"]. *)
Theorem dashboard_fails_only_with_trends :
  forall (api : nat -> Remote) (today : caldate),
    (forall e, generate_dashboard_data api today = Raise e <->
               analyze_upstream_trends (api 30) = Raise e) /\
    (forall data,
        generate_dashboard_data api today = Ok data ->
        (forall i, i < 30 -> collected api today i = false) ->
        daily_metrics data = [] /\
        total_upstream_issues (summary data) = 0 /\
        total_upstream_prs (summary data) = 0 /\
        total_downstream_tasks (summary data) = 0 /\
        (sync_efficiency (summary data) == 0)%Q) /\
    (forall data e,
        generate_dashboard_data api today = Ok data ->
        downstream_get_issues (api 31) ["upstream-sync"] Updated = Raise e ->
        last_sync (current_status data) = "Unknown").
Proof.
  intros api today. split; [|split].
  - intros e. unfold generate_dashboard_data.
    destruct (analyze_upstream_trends (api 30)) as [tr|e'] eqn:E.
    + cbn [bind]. rewrite raw_sync_efficiency_Ok. cbn [bind].
      split; discriminate.
    + cbn [bind]. split; intros [= ->]; reflexivity.
  - intros data Hdata Hnone.
    destruct (generate_dashboard_data_Ok api today data Hdata)
      as (_ & Hdays & Hi & Hp & Ht & Hs & _).
    assert (Hempty : daily_metrics data = []).
    { rewrite Hdays, collect_last_30_days_successes.
      apply successful_days_none. intros i Hin. apply in_seq in Hin.
      apply Hnone. lia. }
    rewrite Hi, Hp, Ht, Hs, Hempty. repeat split; reflexivity.
  - intros data e Hdata Hfail.
    destruct (generate_dashboard_data_Ok api today data Hdata)
      as (_ & _ & _ & _ & _ & _ & Hl).
    rewrite Hl. unfold get_last_sync_time. now rewrite Hfail.
Qed.

Lemma dashboard_fails_only_with_trends_witness :
  exists data,
    generate_dashboard_data flaky_api 20000%Z = Ok data /\
    daily_metrics data = [] /\
    last_sync (current_status data) = "Unknown".
Proof.
  destruct (dashboard_fails_only_with_trends flaky_api 20000%Z)
    as (_ & Hempty & Hsync).
  eexists. split; [reflexivity|]. split.
  - apply Hempty; [reflexivity|].
    intros i Hi. unfold collected, flaky_api.
    replace (Nat.eqb i 30) with false by (symmetry; apply Nat.eqb_neq; lia).
    reflexivity.
  - apply (Hsync _ (GithubException "503")); reflexivity.
Defined.

(* ------------------------------------------------------------------ *)
(** ** The shape of the daily series *)

Lemma filter_true {A : Type} (l : list A) : filter (fun _ => true) l = l.
Proof. induction l as [|x l IH]; simpl; [reflexivity|now rewrite IH]. Qed.

Lemma successful_days_dates api today offsets :
  map date (successful_days api today offsets)
  = map (fun i => date_isoformat (minus_days today i))
        (filter (collected api today) offsets).
Proof.
  induction offsets as [|i offsets IH]; simpl; [reflexivity|].
  unfold collected at 1.
  destruct (collect_daily_metrics (api i) (minus_days today i)) as [m|e] eqn:E;
    simpl; [|exact IH].
  rewrite IH. f_equal.
  now destruct (collect_daily_metrics_Ok _ _ _ E)
    as (? & ? & ? & ? & ? & _ & _ & _ & _ & _ & _ & Hd & _).
Qed.

(** X8. The series lists the collected days from today backwards: its dates
    are the ISO dates of the day offsets 0 to 29 whose collection
    succeeded, in increasing offset, so its length is the number of
    successful days and a full series has 30 records. *)
Theorem daily_series_newest_first :
  forall (api : nat -> Remote) (today : caldate),
    map date (collect_last_30_days api today)
    = map (fun i => date_isoformat (minus_days today i))
          (filter (collected api today) (seq 0 30)) /\
    List.length (collect_last_30_days api today)
    = List.length (filter (collected api today) (seq 0 30)) /\
    List.length (collect_last_30_days api today) <= 30 /\
    ((forall i, i < 30 -> collected api today i = true) ->
     map date (collect_last_30_days api today)
     = map (fun i => date_isoformat (minus_days today i)) (seq 0 30)).
Proof.
  intros api today.
  assert (Hdates : map date (collect_last_30_days api today)
    = map (fun i => date_isoformat (minus_days today i))
          (filter (collected api today) (seq 0 30))).
  { rewrite collect_last_30_days_successes. apply successful_days_dates. }
  split; [exact Hdates|]. split; [|split].
  - rewrite <- (length_map date), Hdates. apply length_map.
  - rewrite collect_last_30_days_successes.
    etransitivity; [apply successful_days_length|]. now rewrite length_seq.
  - intros Hall. rewrite Hdates. f_equal.
    rewrite (filter_ext_in (collected api today) (fun _ => true)).
    + apply filter_true.
    + intros i Hi. apply in_seq in Hi. apply Hall. lia.
Qed.

Lemma daily_series_newest_first_witness :
  firstn 2 (map date (collect_last_30_days (fun _ => sample_remote) 20000%Z))
  = ["2024-10-04"; "2024-10-03"].
Proof.
  destruct (daily_series_newest_first (fun _ => sample_remote) 20000%Z)
    as (_ & _ & _ & Hfull).
  rewrite Hfull; [reflexivity|].
  intros i _. unfold collected.
  destruct (proj2 (collect_daily_metrics_succeeds sample_remote
                     (minus_days 20000%Z i))) as [m ->]; [|reflexivity].
  exists (list_issues sample_upstream [] Created),
         (sorted_desc pr_created_at (repo_pulls sample_upstream)),
         (repo_releases sample_upstream),
         (list_issues sample_downstream ["upstream-sync"] Created).
  repeat split. intros label _. eexists. reflexivity.
Defined.

(* ------------------------------------------------------------------ *)
(** ** The last sync against a healthy service *)

Lemma py_max_unique t ts u :
  In u (t :: ts) -> Forall (fun x => (x <= u)%Z) (t :: ts) -> py_max t ts = u.
Proof.
  intros Hin Hub.
  destruct (py_max_upper t ts) as [H1 H2].
  pose proof (py_max_In t ts) as Hm.
  rewrite Forall_forall in Hub, H2.
  assert (py_max t ts <= u)%Z by (apply Hub; exact Hm).
  assert (u <= py_max t ts)%Z.
  { destruct Hin as [<-|Hin]; [exact H1|now apply H2]. }
  lia.
Qed.

Lemma Descending_head_is_max {A : Type} (key : A -> Z) x l :
  Descending key (x :: l) ->
  Forall (fun t => (t <= key x)%Z) (map key (x :: l)).
Proof.
  intros H. inversion H as [|? ? _ Hall]; subst. simpl.
  constructor; [lia|]. apply Forall_forall. intros t Ht.
  apply in_map_iff in Ht as (y & <- & Hy). rewrite Forall_forall in Hall.
  now apply Hall.
Qed.

(** X9. Against a service that lists as documented (label filter, most
    recently updated first), the lookup returns the latest [updated_at]
    of all the sync-labelled downstream issues: cutting the listing to
    five loses nothing, since its first issue already carries the maximum.
    It answers ["No recent syncs found"] exactly when no issue carries the
    label. *)
Theorem last_sync_is_latest_update :
  forall (up down : Repo),
    let labelled := filter (has_label "upstream-sync") (repo_issues down) in
    get_last_sync_time (serve up down)
    = match latest_update labelled with
      | Some t => isoformat t
      | None => "No recent syncs found"
      end /\
    (labelled = [] <->
     latest_update labelled = None) /\
    (forall t, latest_update labelled = Some t ->
       In t (map issue_updated_at labelled) /\
       Forall (fun u => (u <= t)%Z) (map issue_updated_at labelled)).
Proof.
  intros up down labelled.
  assert (Hfacts : forall t, latest_update labelled = Some t ->
       In t (map issue_updated_at labelled) /\
       Forall (fun u => (u <= t)%Z) (map issue_updated_at labelled)).
  { unfold latest_update. intros t.
    destruct (map issue_updated_at labelled) as [|x xs]; [discriminate|].
    intros [= <-]. split; [apply py_max_In|].
    destruct (py_max_upper x xs). now constructor. }
  split; [|split; [|exact Hfacts]].
  - unfold get_last_sync_time, serve. cbn [downstream_get_issues].
    unfold list_issues. cbn [forallb].
    rewrite (filter_ext_eq _ (has_label "upstream-sync"))
      by (intros i; apply andb_true_r).
    fold labelled.
    pose proof (sorted_desc_Permutation (sort_key Updated) labelled) as Hperm.
    pose proof (sorted_desc_Descending (sort_key Updated) labelled) as Hdesc.
    destruct (sorted_desc (sort_key Updated) labelled) as [|x s] eqn:Es.
    + apply Permutation_nil in Hperm. rewrite Hperm. reflexivity.
    + change (firstn 5 (x :: s)) with (x :: firstn 4 s). cbn [map].
      pose proof (Descending_head_is_max _ _ _ Hdesc) as Hmax.
      cbn [sort_key map] in Hmax.
      assert (Hx : py_max (issue_updated_at x)
                          (map issue_updated_at (firstn 4 s))
                   = issue_updated_at x).
      { apply py_max_unique; [now left|].
        inversion Hmax as [|? ? H1 H2]; subst. constructor; [exact H1|].
        apply Forall_forall. intros t Ht. rewrite Forall_forall in H2.
        apply H2. apply in_map_iff in Ht as (y & <- & Hy).
        apply in_map. eapply firstn_In; eauto. }
      rewrite Hx.
      destruct (latest_update labelled) as [t|] eqn:El.
      * f_equal. destruct (Hfacts t eq_refl) as [Hin Hub].
        assert (Hpk : Permutation (map issue_updated_at (x :: s))
                                  (map issue_updated_at labelled))
          by now apply Permutation_map.
        assert (issue_updated_at x <= t)%Z.
        { rewrite Forall_forall in Hub. apply Hub.
          apply (Permutation_in _ Hpk). now left. }
        assert (t <= issue_updated_at x)%Z.
        { rewrite Forall_forall in Hmax. apply Hmax.
          apply (Permutation_in _ (Permutation_sym Hpk)). exact Hin. }
        lia.
      * unfold latest_update in El.
        destruct labelled as [|y l]; [|discriminate].
        apply Permutation_sym, Permutation_nil in Hperm. discriminate.
  - unfold latest_update. destruct labelled; simpl; split; congruence.
Qed.

Lemma last_sync_is_latest_update_witness :
  get_last_sync_time (serve sample_upstream sample_downstream)
  = "2024-10-04T02:00:00+00:00".
Proof.
  destruct (last_sync_is_latest_update sample_upstream sample_downstream)
    as (H & _).
  rewrite H. reflexivity.
Defined.

(* ------------------------------------------------------------------ *)
(** ** [str.format] on the report template *)

Example format_fills_fields :
  str_format (format_value sample_host) (format_positional sample_host)
    [("a", PStr "x"); ("b", PInt 7)] "a={a}, b={b} {{lit}}"
  = Returned "a=x, b=7 {lit}".
Proof. reflexivity. Qed.

Example format_css_rule :
  str_format (format_value sample_host) (format_positional sample_host)
    [("a", PStr "x")] "body { margin: 0 } {a}"
  = Raised (KeyError " margin").
Proof. reflexivity. Qed.

Example format_escaped_css_rule :
  str_format (format_value sample_host) (format_positional sample_host)
    [("a", PStr "x")] "body {{ margin: 0 }} {a}"
  = Returned "body { margin: 0 } x".
Proof. reflexivity. Qed.

Example html_template_length :
  Z.of_nat (String.length html_template) = 6363%Z.
Proof. vm_compute. reflexivity. Qed.

(** The template, formatted with the keyword arguments of the report. *)
Lemma format_html_template host data a b c :
  str_format (format_value host) (format_positional host)
    (UpstreamMonitor.report_kwargs host data a b c) html_template
  = Raised (KeyError first_css_field).
Proof. vm_compute. reflexivity. Qed.

(** The report stage ends in an exception, and has only printed. *)
Lemma html_report_stage_raises host data vis :
  exists e, snd (UpstreamMonitor.generate_html_report host data vis) = Raised e.
Proof.
  unfold UpstreamMonitor.generate_html_report, UpstreamMonitor.embed_image.
  cbn [bindS].
  destruct (vis_get vis "activity_trends") as [p1|];
    [destruct (read_binary host p1); [|eexists; reflexivity]|];
    (cbn [bindS];
     destruct (vis_get vis "issue_categories") as [p2|];
     [destruct (read_binary host p2); [|eexists; reflexivity]|];
     (cbn [bindS];
      destruct (vis_get vis "top_contributors") as [p3|];
      [destruct (read_binary host p3); [|eexists; reflexivity]|];
      cbn [bindS snd]; rewrite format_html_template; eexists; reflexivity)).
Qed.

Lemma html_report_stage_key_error host data vis :
  (forall path, exists bytes, read_binary host path = Ok bytes) ->
  snd (UpstreamMonitor.generate_html_report host data vis)
  = Raised (KeyError first_css_field).
Proof.
  intros Hread.
  assert (Hok : forall key, exists img,
             UpstreamMonitor.embed_image host vis key = ([], Returned img)).
  { intros key. unfold UpstreamMonitor.embed_image.
    destruct (vis_get vis key) as [path|]; [|eexists; reflexivity].
    destruct (Hread path) as [bytes ->]. eexists; reflexivity. }
  unfold UpstreamMonitor.generate_html_report. cbn [bindS].
  destruct (Hok "activity_trends") as [a ->]. cbn [bindS].
  destruct (Hok "issue_categories") as [b ->]. cbn [bindS].
  destruct (Hok "top_contributors") as [c ->]. cbn [bindS snd].
  apply format_html_template.
Qed.

Lemma html_report_stage_trace host data vis :
  fst (UpstreamMonitor.generate_html_report host data vis)
  = [Stdout "Generating HTML dashboard..."] /\
  filter is_file_write
    (fst (UpstreamMonitor.generate_html_report host data vis)) = [].
Proof.
  assert (H : fst (UpstreamMonitor.generate_html_report host data vis)
              = [Stdout "Generating HTML dashboard..."]).
  { unfold UpstreamMonitor.generate_html_report, UpstreamMonitor.embed_image.
    cbn [bindS].
    destruct (vis_get vis "activity_trends") as [p1|];
      [destruct (read_binary host p1); [|reflexivity]|];
      (cbn [bindS];
       destruct (vis_get vis "issue_categories") as [p2|];
       [destruct (read_binary host p2); [|reflexivity]|];
       (cbn [bindS];
        destruct (vis_get vis "top_contributors") as [p3|];
        [destruct (read_binary host p3); [|reflexivity]|];
        reflexivity)). }
  rewrite H. split; reflexivity.
Qed.

(** X10. The report stage never returns a report.  The braces of the style
    sheet in the template are not doubled, so [str.format] takes the first
    rule for a replacement field and raises [KeyError] on its name,
    whatever the data and the charts; the stage can only fail earlier, on
    reading a chart file.  It writes no file. *)
Theorem html_report_never_returns :
  forall (host : StageHost) (data : DashboardData) (vis : Visualizations),
    (forall html,
        snd (UpstreamMonitor.generate_html_report host data vis)
        <> Returned html) /\
    ((forall key path, vis_get vis key = Some path ->
                       exists bytes, read_binary host path = Ok bytes) ->
     UpstreamMonitor.generate_html_report host data vis
     = ([Stdout "Generating HTML dashboard..."],
        Raised (KeyError first_css_field))) /\
    filter is_file_write
      (fst (UpstreamMonitor.generate_html_report host data vis)) = [].
Proof.
  intros host data vis.
  assert (Himg : forall key,
            UpstreamMonitor.embed_image host vis key
            = ([], Raised (Known (match vis_get vis key with
                                  | Some path =>
                                      match read_binary host path with
                                      | Raise e => e
                                      | Ok _ => OSError EmptyString
                                      end
                                  | None => OSError EmptyString
                                  end)))
            \/ exists img, UpstreamMonitor.embed_image host vis key
                           = ([], Returned img)).
  { intros key. unfold UpstreamMonitor.embed_image.
    destruct (vis_get vis key) as [path|]; [|right; eexists; reflexivity].
    destruct (read_binary host path); [right; eexists; reflexivity|now left]. }
  unfold UpstreamMonitor.generate_html_report.
  split; [|split].
  - intros html. cbn [bindS].
    destruct (Himg "activity_trends") as [->|[a ->]]; [discriminate|].
    cbn [bindS].
    destruct (Himg "issue_categories") as [->|[b ->]]; [discriminate|].
    cbn [bindS].
    destruct (Himg "top_contributors") as [->|[c ->]]; [discriminate|].
    cbn [bindS snd]. rewrite format_html_template. discriminate.
  - intros Hread.
    assert (Hok : forall key, exists img,
               UpstreamMonitor.embed_image host vis key = ([], Returned img)).
    { intros key. unfold UpstreamMonitor.embed_image.
      destruct (vis_get vis key) as [path|] eqn:E; [|eexists; reflexivity].
      destruct (Hread key path E) as [bytes ->]. eexists; reflexivity. }
    cbn [bindS].
    destruct (Hok "activity_trends") as [a ->]. cbn [bindS].
    destruct (Hok "issue_categories") as [b ->]. cbn [bindS].
    destruct (Hok "top_contributors") as [c ->]. cbn [bindS app].
    now rewrite format_html_template.
  - cbn [bindS].
    destruct (Himg "activity_trends") as [->|[a ->]]; [reflexivity|].
    cbn [bindS].
    destruct (Himg "issue_categories") as [->|[b ->]]; [reflexivity|].
    cbn [bindS].
    destruct (Himg "top_contributors") as [->|[c ->]]; [reflexivity|].
    reflexivity.
Qed.

Lemma html_report_never_returns_witness :
  UpstreamMonitor.generate_html_report sample_host
    {| summary := {| total_upstream_issues := 3; total_upstream_prs := 2;
                     total_downstream_tasks := 2;
                     sync_efficiency := (6667 # 100)%Q;
                     data_period := "Last 30 days" |};
       trends := {| issue_categories := []; pr_types := [];
                    release_frequency := 0%Q; top_contributors := [];
                    complexity_trends := [] |};
       daily_metrics := [];
       current_status := {| last_sync := "Unknown"; active_monitoring := true;
                            upstream_repo_status := "Active";
                            downstream_repo_status := "Active" |} |}
    [("activity_trends", "/tmp/activity_trends.png")]
  = ([Stdout "Generating HTML dashboard..."],
     Raised (KeyError first_css_field)).
Proof.
  apply html_report_never_returns.
  intros key path _. exists "PNG". reflexivity.
Defined.

(* ------------------------------------------------------------------ *)
(** ** The chart stage *)

Lemma top_contributors_of_analysis r t all_issues all_prs :
  analyze_upstream_trends r = Ok t ->
  upstream_get_issues r Created = Ok all_issues ->
  upstream_get_pulls r = Ok all_prs ->
  top_contributors t
  = firstn 10 (sorted_desc count_key (contributor_tally all_issues all_prs)) /\
  NoDup (keys (top_contributors t)) /\
  List.length (top_contributors t) <= 10.
Proof.
  intros Ht Hi Hp.
  destruct (analyze_upstream_trends_Ok r t Ht)
    as (is' & prs' & rels & Ei & Ep & _ & _ & _ & _ & Htop).
  rewrite Hi in Ei; injection Ei as <-. rewrite Hp in Ep; injection Ep as <-.
  fold (recent_authors all_issues all_prs) in Htop.
  fold (contributor_tally all_issues all_prs) in Htop.
  assert (Hnd : NoDup (keys (contributor_tally all_issues all_prs))).
  { apply NoDup_keys_fold_bump. constructor. }
  rewrite (top_ten_eq _ Hnd) in Htop. rewrite Htop.
  split; [reflexivity|]. split; [|apply firstn_le_length].
  unfold keys. rewrite <- firstn_map. apply NoDup_firstn.
  now apply NoDup_keys_sorted_desc.
Qed.

Lemma firstn_nil_iff {A : Type} n (l : list A) :
  firstn (S n) l = [] <-> l = [].
Proof. destruct l; simpl; split; congruence. Qed.

Lemma top_contributors_empty r t all_issues all_prs :
  analyze_upstream_trends r = Ok t ->
  upstream_get_issues r Created = Ok all_issues ->
  upstream_get_pulls r = Ok all_prs ->
  (top_contributors t = [] <-> all_issues = [] /\ all_prs = []).
Proof.
  intros Ht Hi Hp.
  destruct (top_contributors_of_analysis r t _ _ Ht Hi Hp) as (Htop & _).
  rewrite Htop.
  etransitivity; [apply (firstn_nil_iff 9)|].
  pose proof (sorted_desc_Permutation count_key
                (contributor_tally all_issues all_prs)) as Hperm.
  assert (Hs : sorted_desc count_key (contributor_tally all_issues all_prs) = []
               <-> contributor_tally all_issues all_prs = []).
  { split; intros H.
    - rewrite H in Hperm. now apply Permutation_nil in Hperm.
    - rewrite H. reflexivity. }
  rewrite Hs. unfold contributor_tally. rewrite fold_bump_nil.
  unfold recent_authors. split.
  - intros H. apply app_eq_nil in H as [H1 H2].
    apply map_eq_nil in H1, H2.
    apply firstn_nil_iff in H1, H2. now split.
  - intros [-> ->]. reflexivity.
Qed.

(** X11. The bar chart cuts the contributor mapping to ten entries again; on
    the mapping the analyzer returns this changes nothing, in content or
    in order: the chart shows the whole ranking. *)
Theorem bar_chart_shows_whole_ranking :
  forall (r : Remote) (t : Trends),
    analyze_upstream_trends r = Ok t ->
    UpstreamMonitor.bar_chart_entries (top_contributors t)
    = top_contributors t.
Proof.
  intros r t Ht.
  destruct (analyze_upstream_trends_Ok r t Ht)
    as (all_issues & all_prs & rels & Hi & Hp & _).
  destruct (top_contributors_of_analysis r t _ _ Ht Hi Hp) as (_ & Hnd & Hlen).
  unfold UpstreamMonitor.bar_chart_entries.
  rewrite firstn_all2 by exact Hlen.
  now apply dict_of_items_distinct.
Qed.

Lemma bar_chart_shows_whole_ranking_witness :
  UpstreamMonitor.bar_chart_entries [("bob", 2); ("carol", 2); ("alice", 1)]
  = [("bob", 2); ("carol", 2); ("alice", 1)].
Proof.
  exact (bar_chart_shows_whole_ranking sample_remote _ eq_refl).
Defined.

(** X12. When every one of the 30 days fails, the assembly still returns, but
    the chart stage then raises [KeyError] on the [date] column of the
    empty frame, before any chart is drawn or written. *)
Theorem charts_need_one_day :
  forall (host : StageHost) (api : nat -> Remote) (today : caldate)
         (data : DashboardData),
    generate_dashboard_data api today = Ok data ->
    (forall i, i < 30 -> collected api today i = false) ->
    UpstreamMonitor.create_visualizations host data
    = ([Stdout "Creating visualizations..."], Raised (KeyError "date")).
Proof.
  intros host api today data Hdata Hnone.
  destruct (generate_dashboard_data_Ok api today data Hdata)
    as (_ & Hdays & _).
  assert (Hempty : daily_metrics data = []).
  { rewrite Hdays, collect_last_30_days_successes.
    apply successful_days_none. intros i Hin. apply in_seq in Hin.
    apply Hnone. lia. }
  unfold UpstreamMonitor.create_visualizations. now rewrite Hempty.
Qed.

Lemma charts_need_one_day_witness :
  exists data,
    generate_dashboard_data flaky_api 20000%Z = Ok data /\
    UpstreamMonitor.create_visualizations sample_host data
    = ([Stdout "Creating visualizations..."], Raised (KeyError "date")).
Proof.
  eexists. split; [reflexivity|].
  apply (charts_need_one_day sample_host flaky_api 20000%Z); [reflexivity|].
  intros i Hi. unfold collected, flaky_api.
  replace (Nat.eqb i 30) with false by (symmetry; apply Nat.eqb_neq; lia).
  reflexivity.
Defined.

Lemma issue_categories_empty r t all_issues :
  analyze_upstream_trends r = Ok t ->
  upstream_get_issues r Created = Ok all_issues ->
  (issue_categories t = [] <-> all_issues = []).
Proof.
  intros Ht Hi.
  destruct (analyze_upstream_trends_Ok r t Ht)
    as (is' & prs' & rels & Ei & _ & _ & _ & Hcat & _).
  rewrite Hi in Ei; injection Ei as <-. rewrite Hcat, fold_bump_nil.
  destruct all_issues; simpl; split; congruence.
Qed.

(** X13. With at least one day collected and the plotting calls succeeding,
    the chart stage does this and nothing else: it prints its progress
    line, then writes the activity chart, then the category pie if the
    analysis listed an issue, then the contributor bars if it listed an
    issue or a pull request, each at its fixed path, and returns the
    entries of the files written, in that order. *)
Theorem charts_follow_the_analysis :
  forall (host : StageHost) (api : nat -> Remote) (today : caldate)
         (data : DashboardData)
         (all_issues : list Issue) (all_prs : list PullRequest),
    generate_dashboard_data api today = Ok data ->
    upstream_get_issues (api 30) Created = Ok all_issues ->
    upstream_get_pulls (api 30) = Ok all_prs ->
    daily_metrics data <> [] ->
    (forall path, draw_chart host path = Ok tt) ->
    let vis :=
      ([("activity_trends", "/tmp/activity_trends.png")]
       ++ match all_issues with
          | [] => []
          | _ :: _ => [("issue_categories", "/tmp/issue_categories.png")]
          end
       ++ match all_issues, all_prs with
          | [], [] => []
          | _, _ => [("top_contributors", "/tmp/top_contributors.png")]
          end)%list in
    UpstreamMonitor.create_visualizations host data
    = (Stdout "Creating visualizations..." :: map FileWrite (map snd vis),
       Returned vis).
Proof.
  intros host api today data all_issues all_prs Hdata Hi Hp Hdays Hdraw.
  destruct (generate_dashboard_data_Ok api today data Hdata) as (Ht & _).
  pose proof (issue_categories_empty _ _ _ Ht Hi) as Hcat.
  pose proof (top_contributors_empty _ _ _ _ Ht Hi Hp) as Htop.
  unfold UpstreamMonitor.create_visualizations, UpstreamMonitor.chart.
  destruct (daily_metrics data) as [|m ms]; [congruence|].
  rewrite !Hdraw. cbn [bindS app].
  destruct (issue_categories (trends data)) as [|c cs].
  - assert (all_issues = []) by now apply Hcat. subst all_issues.
    destruct (top_contributors (trends data)) as [|k ks].
    + assert (all_prs = []) by now apply Htop. subst all_prs.
      reflexivity.
    + destruct all_prs as [|p ps];
        [destruct Htop as [_ Htop]; discriminate Htop; now split|].
      reflexivity.
  - destruct all_issues as [|i is'];
      [destruct Hcat as [_ Hcat]; discriminate Hcat; reflexivity|].
    destruct (top_contributors (trends data)) as [|k ks];
      [destruct Htop as [Htop _]; destruct (Htop eq_refl); discriminate|].
    reflexivity.
Qed.

Lemma charts_follow_the_analysis_witness :
  exists data,
    generate_dashboard_data (fun _ => sample_remote) 20000%Z = Ok data /\
    UpstreamMonitor.create_visualizations sample_host data
    = ([ Stdout "Creating visualizations...";
         FileWrite "/tmp/activity_trends.png";
         FileWrite "/tmp/issue_categories.png";
         FileWrite "/tmp/top_contributors.png" ],
       Returned [ ("activity_trends", "/tmp/activity_trends.png");
                  ("issue_categories", "/tmp/issue_categories.png");
                  ("top_contributors", "/tmp/top_contributors.png") ]).
Proof.
  eexists. split; [reflexivity|].
  apply (charts_follow_the_analysis sample_host (fun _ => sample_remote)
           20000%Z _ _ _ eq_refl eq_refl eq_refl);
    [vm_compute; discriminate | reflexivity].
Defined.

(** X14. When the chart stage raises, it has either met the empty frame
    ([KeyError] on [date], nothing written) or a chart that could not be
    drawn (the plotting error); the files written before the failure stay:
    they are the first charts of the fixed order, two at most. *)
Theorem failed_chart_leaves_earlier_files :
  forall (host : StageHost) (data : DashboardData)
         (tr : list event) (e : pyexc),
    UpstreamMonitor.create_visualizations host data = (tr, Raised e) ->
    (e = KeyError "date" /\ daily_metrics data = [] /\
     filter is_file_write tr = []
     \/
     exists e0 path, e = Known e0 /\ In path chart_paths /\
                     draw_chart host path = Raise e0) /\
    exists n, n < 3 /\
      filter is_file_write tr = map FileWrite (firstn n chart_paths).
Proof.
  intros host data tr e.
  unfold UpstreamMonitor.create_visualizations, UpstreamMonitor.chart.
  destruct (daily_metrics data) as [|m ms].
  { cbn. intros [= <- <-]. split; [left; repeat split|]. exists 0; split; [lia|reflexivity]. }
  cbn [bindS app].
  destruct (draw_chart host "/tmp/activity_trends.png") as [[]|e1] eqn:E1.
  2:{ cbn. intros [= <- <-]. split.
      - right. exists e1, "/tmp/activity_trends.png". cbn; tauto.
      - exists 0; split; [lia|reflexivity]. }
  cbn [bindS app].
  destruct (issue_categories (trends data)) as [|c cs].
  - cbn [bindS app].
    destruct (top_contributors (trends data)) as [|k ks]; [cbn; discriminate|].
    destruct (draw_chart host "/tmp/top_contributors.png") as [[]|e3] eqn:E3;
      [cbn; discriminate|].
    cbn. intros [= <- <-]. split.
    + right. exists e3, "/tmp/top_contributors.png". cbn; tauto.
    + exists 1; split; [lia|reflexivity].
  - destruct (draw_chart host "/tmp/issue_categories.png") as [[]|e2] eqn:E2.
    2:{ cbn. intros [= <- <-]. split.
        - right. exists e2, "/tmp/issue_categories.png". cbn; tauto.
        - exists 1; split; [lia|reflexivity]. }
    cbn [bindS app].
    destruct (top_contributors (trends data)) as [|k ks]; [cbn; discriminate|].
    destruct (draw_chart host "/tmp/top_contributors.png") as [[]|e3] eqn:E3;
      [cbn; discriminate|].
    cbn. intros [= <- <-]. split.
    + right. exists e3, "/tmp/top_contributors.png". cbn; tauto.
    + exists 2; split; [lia|reflexivity].
Qed.

Lemma failed_chart_leaves_earlier_files_witness :
  exists n, n < 3 /\
    filter is_file_write
      (fst (UpstreamMonitor.create_visualizations second_chart_fails_host
              sample_data))
    = map FileWrite (firstn n chart_paths).
Proof.
  apply (failed_chart_leaves_earlier_files second_chart_fails_host sample_data
           _ (Known (OSError "No space left on device"))).
  reflexivity.
Defined.

(* ------------------------------------------------------------------ *)
(** ** The entry point beyond the credential check *)

Lemma bindR_fst {A B : Type} (m : Run A) (k : A -> Run B) :
  exists rest, fst (bindR m k) = (fst m ++ rest)%list.
Proof.
  destruct m as [tr [a|e]]; simpl.
  - destruct (k a) as [tr' b]. now exists tr'.
  - exists []. now rewrite app_nil_r.
Qed.

Lemma main_body_report_fails w token :
  (forall d v, exists tr e, generate_html_report w d v = (tr, Raise e)) ->
  exists tr e,
    main_body w token = (tr, Raise e) /\
    forall wf, main_body (with_write_file w wf) token = (tr, Raise e).
Proof.
  intros Hhtml. unfold main_body.
  cbn [connect api today create_visualizations generate_html_report
       timestamp json_dump summary_lines with_write_file].
  destruct (connect w token) as [tr1 [[]|e1]];
    [|exists tr1, e1; split; [reflexivity|intros; reflexivity]].
  cbn [bindR emit lift app].
  destruct (generate_dashboard_data (api w) (today w)) as [data|e2];
    [|eexists; eexists; split; [reflexivity|intros; reflexivity]].
  cbn [bindR emit lift app].
  destruct (create_visualizations w data) as [tr3 [vis|e3]];
    [|eexists; eexists; split; [reflexivity|intros; reflexivity]].
  cbn [bindR emit lift app].
  destruct (Hhtml data vis) as (tr4 & e4 & ->).
  cbn [bindR emit lift app].
  eexists; eexists; split; [reflexivity|intros; reflexivity].
Qed.

(** X15. A run with a credential never gets to write its report.  Whatever
    the environment, if the report stage of the run is the script's, the
    run ends with status 1, its last printed line is the error line, and
    the two final writes are not attempted: the run is the same whatever
    the file system would answer to them. *)
Theorem failed_report_means_no_output :
  forall (w : World) (host : StageHost),
    token_present (getenv_GITHUB_TOKEN w) = true ->
    (forall d v,
        stage_agrees (generate_html_report w d v)
                     (UpstreamMonitor.generate_html_report host d v)) ->
    snd (main w) = 1%Z /\
    (exists tr e,
        fst (main w) = (tr ++ [Stdout ("❌ Error: " ++ str_of_exn e)])%list) /\
    (forall wf, main (with_write_file w wf) = main w).
Proof.
  intros w host Htok Hagree.
  assert (Hhtml : forall d v, exists tr e,
             generate_html_report w d v = (tr, Raise e)).
  { intros d v. destruct (Hagree d v) as [_ H].
    pose proof (html_report_stage_raises host d v) as [e0 He0].
    rewrite He0 in H.
    destruct (generate_html_report w d v) as [tr res]. cbn [snd] in H.
    destruct e0 as [e1| | |]; [|destruct H as [e1 H]..]; subst res;
      now exists tr, e1. }
  unfold main.
  cbn [getenv_GITHUB_TOKEN with_write_file]. rewrite Htok. cbn [negb].
  set (token := match getenv_GITHUB_TOKEN w with
                | Some t => t
                | None => EmptyString
                end).
  destruct (main_body_report_fails w token Hhtml) as (tr & e & Hb & Hwf).
  rewrite Hb. split; [reflexivity|]. split.
  - exists tr, e. reflexivity.
  - intros wf. now rewrite Hwf.
Qed.

Lemma failed_report_means_no_output_witness :
  snd (main (failing_report_world (Some "ghp_token"))) = 1%Z.
Proof.
  apply (failed_report_means_no_output (failing_report_world (Some "ghp_token"))
           sample_host); [reflexivity|].
  intros d v. split.
  - now rewrite (proj1 (html_report_stage_trace sample_host d v)).
  - rewrite (html_report_stage_key_error sample_host d v).
    + eexists. reflexivity.
    + intros path. exists "PNG". reflexivity.
Defined.

(** X16. An empty credential counts as a missing one: the same early exit.
    With a non-empty credential the run starts by opening the client with
    that credential; if that fails, the run prints the error and exits
    with status 1 without collecting, drawing or writing anything. *)
Theorem credential_and_connection :
  forall (w : World),
    (getenv_GITHUB_TOKEN w = Some EmptyString ->
     main w = ([Stdout "Error: GITHUB_TOKEN environment variable is required"],
               1%Z)) /\
    (forall token, getenv_GITHUB_TOKEN w = Some token ->
       token <> EmptyString ->
       exists rest, fst (main w) = (fst (connect w token) ++ rest)%list) /\
    (forall token tr e, getenv_GITHUB_TOKEN w = Some token ->
       token <> EmptyString ->
       connect w token = (tr, Raise e) ->
       main w = ((tr ++ [Stdout ("❌ Error: " ++ str_of_exn e)])%list, 1%Z)).
Proof.
  intros w. split; [|split].
  - intros H. unfold main. rewrite H. reflexivity.
  - intros token H Hne. unfold main. rewrite H.
    assert (Hp : token_present (Some token) = true).
    { simpl. destruct (String.eqb_spec token EmptyString); [contradiction|reflexivity]. }
    rewrite Hp. cbn [negb]. unfold main_body.
    match goal with
    | |- context [bindR (connect w token) ?k] =>
        destruct (bindR_fst (connect w token) k) as [rest Hrest];
        destruct (bindR (connect w token) k) as [tr [u|e']]
    end; cbn [fst] in *; rewrite Hrest.
    + now exists rest.
    + rewrite <- app_assoc. eexists. reflexivity.
  - intros token tr e H Hne Hc. unfold main. rewrite H.
    assert (Hp : token_present (Some token) = true).
    { simpl. destruct (String.eqb_spec token EmptyString); [contradiction|reflexivity]. }
    rewrite Hp. cbn [negb]. unfold main_body. rewrite Hc. reflexivity.
Qed.

Lemma credential_and_connection_witness :
  main (no_connection_world (Some "ghp_token"))
  = ([Request "get_repo upstream"; Stdout "❌ Error: 401"], 1%Z) /\
  snd (main (sample_world (Some EmptyString))) = 1%Z.
Proof.
  destruct (credential_and_connection (no_connection_world (Some "ghp_token")))
    as (_ & _ & Hconn).
  destruct (credential_and_connection (sample_world (Some EmptyString)))
    as (Hempty & _).
  split.
  - apply (Hconn "ghp_token" [Request "get_repo upstream"]
                 (GithubException "401")); [reflexivity|discriminate|reflexivity].
  - now rewrite (Hempty eq_refl).
Defined.

(* ------------------------------------------------------------------ *)
(** ** What the last-sync string tells *)

Lemma string_length_app (a b : string) :
  String.length (a ++ b) = String.length a + String.length b.
Proof. induction a as [|c a IH]; simpl; [reflexivity|now rewrite IH]. Qed.

Lemma zfill_length w n : String.length (zfill w n) = w.
Proof.
  revert n; induction w as [|w IH]; intros n; simpl; [reflexivity|].
  rewrite string_length_app, IH. simpl. lia.
Qed.

Lemma isoformat_length t : String.length (isoformat t) = 25.
Proof.
  unfold isoformat, date_isoformat.
  destruct (civil (date_of t)) as [[y m] d].
  repeat (rewrite string_length_app || rewrite zfill_length || simpl String.length).
  reflexivity.
Qed.

(** X17. The string returned by the last-sync lookup tells the three cases
    apart: it is ["Unknown"] exactly when the listing raised, ["No
    recent syncs found"] exactly when the listing is empty, and a
    formatted timestamp exactly when the listing has an issue; no
    timestamp formats to either of the two fixed strings. *)
Theorem last_sync_outcomes_distinct :
  forall (r : Remote),
    (get_last_sync_time r = "Unknown" <->
     exists e, downstream_get_issues r ["upstream-sync"] Updated = Raise e) /\
    (get_last_sync_time r = "No recent syncs found" <->
     downstream_get_issues r ["upstream-sync"] Updated = Ok []) /\
    ((exists t, get_last_sync_time r = isoformat t) <->
     exists i rest,
       downstream_get_issues r ["upstream-sync"] Updated = Ok (i :: rest)) /\
    (forall t, isoformat t <> "Unknown" /\
               isoformat t <> "No recent syncs found").
Proof.
  intros r.
  assert (Hiso : forall t, isoformat t <> "Unknown" /\
                           isoformat t <> "No recent syncs found").
  { intros t. pose proof (isoformat_length t) as Hlen.
    split; intros H; rewrite H in Hlen; discriminate Hlen. }
  unfold get_last_sync_time.
  destruct (downstream_get_issues r ["upstream-sync"] Updated)
    as [[|i rest]|e].
  - cbn [firstn map]. split; [|split; [|split; [|exact Hiso]]]; split;
      intros H; try discriminate H; try reflexivity.
    + destruct H as [e He]. discriminate He.
    + destruct H as [t Ht]. symmetry in Ht. now apply Hiso in Ht.
    + destruct H as (i & rest & H). discriminate H.
  - change (firstn 5 (i :: rest)) with (i :: firstn 4 rest). cbn [map].
    set (t := py_max _ _).
    split; [|split; [|split; [|exact Hiso]]]; split; intros H.
    + now apply Hiso in H.
    + destruct H as [e He]. discriminate He.
    + now apply Hiso in H.
    + discriminate H.
    + now exists i, rest.
    + now exists t.
  - split; [|split; [|split; [|exact Hiso]]]; split; intros H;
      try discriminate H; try reflexivity.
    + now exists e.
    + destruct H as [t Ht]. symmetry in Ht. now apply Hiso in Ht.
    + destruct H as (i & rest & H). discriminate H.
Qed.

(* ------------------------------------------------------------------ *)
(** ** Doubled braces *)

(** A text whose braces are doubled formats to the text itself, whatever
    the keyword arguments: this is how a style sheet has to be written in
    a template. *)
Lemma format_escaped_text {V : Type}
    (render : V -> string -> option ascii -> string -> outcome string)
    (positional_error : string -> pyexc) (kwargs : list (string * V))
    (s : string) :
  str_format render positional_error kwargs (escape_braces s) = Returned s.
Proof.
  unfold str_format.
  change (Returned s) with (@Returned string (EmptyString ++ s)).
  generalize EmptyString as out. induction s as [|c s IH]; intros out.
  - simpl. now rewrite append_empty_r.
  - cbn [escape_braces].
    destruct (Ascii.eqb c "{") eqn:Eo; [|destruct (Ascii.eqb c "}") eqn:Ec].
    + apply Ascii.eqb_eq in Eo. subst c. cbn. rewrite IH.
      now rewrite append_empty_r, append_assoc.
    + apply Ascii.eqb_eq in Ec. subst c. cbn. rewrite IH.
      now rewrite append_empty_r, append_assoc.
    + cbn [orb fmt step]. rewrite Eo, Ec. rewrite IH.
      now rewrite append_assoc.
Qed.


Lemma last_sync_outcomes_distinct_witness :
  get_last_sync_time broken_remote = "Unknown".
Proof.
  apply (last_sync_outcomes_distinct broken_remote).
  exists (GithubException "503"). reflexivity.
Defined.

(* ------------------------------------------------------------------ *)
(** ** The daily record does not depend on the order of the listings *)

Lemma merged_on_pure d pr :
  merge_stamped pr = true -> merged_on d pr = Ok (merged_on_day d pr).
Proof.
  unfold merge_stamped, merged_on, merged_on_day.
  destruct (pr_merged pr); [|reflexivity].
  destruct (pr_merged_at pr); [reflexivity|discriminate].
Qed.

Lemma filterM_merged_on_stamped d prs :
  forallb merge_stamped prs = true ->
  filterM (merged_on d) prs = Ok (filter (merged_on_day d) prs).
Proof.
  induction prs as [|pr prs IH]; simpl; [reflexivity|].
  rewrite andb_true_iff. intros [H1 H2].
  rewrite (merged_on_pure d pr H1), (IH H2). reflexivity.
Qed.

Lemma forallb_Permutation {A : Type} (p : A -> bool) (a b : list A) :
  Permutation a b -> forallb p a = forallb p b.
Proof.
  induction 1 as [|x a b _ IH|x y a|a b c _ IH1 _ IH2]; simpl.
  - reflexivity.
  - now rewrite IH.
  - destruct (p x), (p y); reflexivity.
  - now rewrite IH1.
Qed.

Lemma same_items_Ok {A : Type} (x y : result (list A)) a :
  same_items x y -> x = Ok a -> exists b, y = Ok b /\ Permutation a b.
Proof.
  unfold same_items. intros H ->. destruct y as [b|]; [now exists b|contradiction].
Qed.

Lemma count_sync_activities_same r r' d labels acc n :
  (forall label s,
      same_items (downstream_get_issues r label s)
                 (downstream_get_issues r' label s)) ->
  count_sync_activities r d labels acc = Ok n ->
  count_sync_activities r' d labels acc = Ok n.
Proof.
  intros Hsame. revert acc; induction labels as [|label rest IH]; intros acc;
    simpl; [auto|].
  destruct (downstream_get_issues r [label] Updated) as [a|] eqn:E;
    [|discriminate].
  destruct (same_items_Ok _ _ a (Hsame [label] Updated) E) as (b & -> & Hperm).
  simpl. rewrite (Permutation_filter_length _ _ _ Hperm). apply IH.
Qed.

(** X18. The record of a day depends on which items the service lists, not on
    their order: two states of the service whose listings are
    rearrangements of one another give the same record. *)
Theorem daily_record_ignores_listing_order :
  forall (r r' : Remote) (d : caldate) (m : ActivityMetrics),
    same_listings r r' ->
    collect_daily_metrics r d = Ok m ->
    collect_daily_metrics r' d = Ok m.
Proof.
  intros r r' d m (Hui & Hprs & Hrels & Hdown) Hm.
  assert (Hex : exists m0, collect_daily_metrics r d = Ok m0) by now exists m.
  apply collect_daily_metrics_succeeds in Hex
    as (ui0 & prs0 & rels0 & di0 & Eui0 & Eprs0 & Hst & _).
  destruct (collect_daily_metrics_Ok r d m Hm)
    as (ui & prs & merged & rels & di & Eui & Eprs & Emerged & Erels & Edi
        & Esync & Hdate & Hopened & Hclosed & Hpo & Hpm & Hrel & Hcreated
        & Hdone).
  rewrite Eprs in Eprs0. injection Eprs0 as <-.
  rewrite (filterM_merged_on_stamped d prs Hst) in Emerged.
  injection Emerged as <-.
  destruct (same_items_Ok _ _ ui Hui Eui) as (ui' & Eui' & Pui).
  destruct (same_items_Ok _ _ prs Hprs Eprs) as (prs' & Eprs' & Pprs).
  destruct (same_items_Ok _ _ rels Hrels Erels) as (rels' & Erels' & Prels).
  destruct (same_items_Ok _ _ di (Hdown ["upstream-sync"] Created) Edi)
    as (di' & Edi' & Pdi).
  unfold collect_daily_metrics. rewrite Eui'. cbn [bind].
  rewrite (filterM_pure _ _ ui' (closed_on_pure d)). cbn [bind].
  rewrite Eprs'. cbn [bind].
  rewrite (filterM_merged_on_stamped d prs')
    by (rewrite <- (forallb_Permutation _ _ _ Pprs); exact Hst).
  cbn [bind]. rewrite Erels'. cbn [bind].
  rewrite (filterM_pure _ _ rels' (published_on_pure d)). cbn [bind].
  rewrite Edi'. cbn [bind].
  rewrite (filterM_pure _ _ di' (closed_on_pure d)). cbn [bind].
  rewrite (count_sync_activities_same r r' d sync_labels 0 _ Hdown Esync).
  cbn [bind]. f_equal. destruct m. cbn in *. subst.
  f_equal; symmetry; now apply Permutation_filter_length.
Qed.

Lemma daily_record_ignores_listing_order_witness :
  collect_daily_metrics reversed_remote 20000%Z
  = collect_daily_metrics sample_remote 20000%Z.
Proof.
  apply (daily_record_ignores_listing_order sample_remote reversed_remote);
    [|reflexivity].
  repeat split; try (intros labels s); cbn; apply Permutation_rev.
Defined.
